(** * Flex Workout MVP: the workout planner of [app/page.tsx]

    A shallow embedding of the planner's data model, its two calculators
    ([pickNextDayType], [computeTargetWeightLb]), the store operations of the
    page component and the local-storage boundary ([loadState], [saveState]),
    followed by the properties established about them.

    Numbers.  A JavaScript [number] is rendered as an exact rational [Q]:
    the arithmetic of the source ([*], [+], [/], [Math.round], [Math.max],
    [Math.min], comparisons) is kept operation for operation, without the
    rounding error of binary64 and without NaN, infinities or a negative
    zero.  Results are compared with [==] ([Qeq]).  Module [IEEE] at the end
    of the definitions re-runs the numeric kernel on binary64 floats for the
    concrete scenarios.

    The rational model stands for the binary64 computation as long as the
    latter does not overflow, and up to its rounding error: where a value
    falls within that error of a half-way point of the 2.5 grid, the code
    may land on the neighbouring grid value.  Both departures are recorded
    on concrete inputs ([ieee_overflow], [ieee_tie_deadlift_500],
    [ieee_differs_at_tie]), and the statements about the range or the
    position of a target bound the 5RM by [fiveRM_limit] and leave room for
    the grid neighbour.  In storage, [JSON.stringify] writes a number that
    is not finite as [null]; [IEEE.toJs] is that step. *)

From Stdlib Require Import ZArith QArith Qround Qminmax Lia Lqa List String Ascii Bool.
From Stdlib Require Import DecimalString Qabs.
From Stdlib Require PrimFloat FloatOps.
From stdpp Require Import gmap strings.
Import ListNotations.

Local Open Scope Q_scope.
Local Open Scope string_scope.

(* ================================================================== *)
(** * Data model                                                        *)
(* ================================================================== *)

(** [type LiftKey = 'bench' | 'squat' | 'deadlift' | 'ohp' | 'row'] *)
Inductive LiftKey : Type := bench | squat | deadlift | ohp | row.

(** [type DayType = 'Push' | 'Pull' | 'Legs' | 'Full'] *)
Inductive DayType : Type := Push | Pull | Legs | Full.

(** [Setup['goal']] *)
Inductive Goal : Type := Hypertrophy | Strength | Health.

(** [Exercise['primary']]: [LiftKey | 'accessory'] *)
Inductive Primary : Type :=
| lift_of (k : LiftKey)
| accessory.

Definition LiftKey_eqb (a b : LiftKey) : bool :=
  match a, b with
  | bench, bench | squat, squat | deadlift, deadlift | ohp, ohp | row, row => true
  | _, _ => false
  end.

Definition DayType_eqb (a b : DayType) : bool :=
  match a, b with
  | Push, Push | Pull, Pull | Legs, Legs | Full, Full => true
  | _, _ => false
  end.

(** [ex.primary === lift] for a [lift : LiftKey] *)
Definition Primary_is (p : Primary) (lift : LiftKey) : bool :=
  match p with
  | lift_of k => LiftKey_eqb k lift
  | accessory => false
  end.

(** [Record<LiftKey, number>] *)
Module FiveRM.
Record t : Type := mk {
  bench : Q;
  squat : Q;
  deadlift : Q;
  ohp : Q;
  row : Q
}.
End FiveRM.

(** [setup.fiveRM[lift]] *)
Definition fiveRM_get (r : FiveRM.t) (lift : LiftKey) : Q :=
  match lift with
  | bench => FiveRM.bench r
  | squat => FiveRM.squat r
  | deadlift => FiveRM.deadlift r
  | ohp => FiveRM.ohp r
  | row => FiveRM.row r
  end.

Module Setup.
Record t : Type := mk {
  name : option string;
  gender : string;
  heightIn : Q;
  weightLb : Q;
  goal : Goal;
  fiveRM : FiveRM.t
}.
End Setup.

Module Exercise.
Record t : Type := mk {
  id : string;
  name : string;
  primary : Primary;
  muscleGroups : list string;
  sets : Q;
  reps : string;
  targetWeightLb : option Q;
  notes : option string
}.
End Exercise.

Module ExerciseLog.
Record t : Type := mk {
  exerciseId : string;
  actualWeightLb : option Q;
  actualReps : option string;
  rpe : option Q;
  notes : option string
}.
End ExerciseLog.

Module Session.
Record t : Type := mk {
  id : string;
  dateISO : string;
  dayType : DayType;
  muscleGroups : list string;
  energy : Q;
  difficulty : Q;
  sleepHours : option Q;
  workout : list Exercise.t;
  logs : list ExerciseLog.t
}.
End Session.

(** The component state [{ setup, history }]; [history] is most recent
    first. *)
Module Store.
Record t : Type := mk {
  setup : option Setup.t;
  history : list Session.t
}.
End Store.

(* ================================================================== *)
(** * Numeric helpers                                                   *)
(* ================================================================== *)

(** [Math.round]: the nearest integer, a tie going towards +infinity. *)
Definition Math_round (x : Q) : Z := Qfloor (x + 0.5).

(** [Math.max(a, b)] and [Math.min(a, b)] *)
Definition Math_max (a b : Q) : Q := Qmax a b.
Definition Math_min (a b : Q) : Q := Qmin a b.

(** Truthiness of a number ([x || 0], [if (x)]): zero is falsy. *)
Definition truthy (x : Q) : bool := negb (Qeq_bool x 0).

(** Truthiness of an optional number: [undefined] and zero are falsy. *)
Definition truthy_opt (o : option Q) : bool :=
  match o with
  | Some x => truthy x
  | None => false
  end.

(** [estimate1RMFrom5RM]: Epley at five repetitions. *)
Definition estimate1RMFrom5RM (fiveRM : Q) : Q :=
  fiveRM * (1 + 5 / 30).

(** [trainingMax] *)
Definition trainingMax (oneRM : Q) : Q :=
  oneRM * 0.9.

(** [roundTo2_5] *)
Definition roundTo2_5 (x : Q) : Q :=
  inject_Z (Math_round (x / 2.5)) * 2.5.

(** [clamp] *)
Definition clamp (n min max : Q) : Q :=
  Math_max min (Math_min max n).

(* ================================================================== *)
(** * Day-type selector                                                 *)
(* ================================================================== *)

(** [const order: DayType[] = ['Push', 'Pull', 'Legs', 'Full']] *)
Definition order : list DayType := [Push; Pull; Legs; Full].

(** [recent.includes(dt)] *)
Definition includes (recent : list DayType) (dt : DayType) : bool :=
  existsb (DayType_eqb dt) recent.

(** [order.indexOf(last)]: the first position, [-1] when absent. *)
Fixpoint indexOf (l : list DayType) (d : DayType) : Z :=
  match l with
  | [] => -1
  | x :: rest =>
      if DayType_eqb x d then 0%Z
      else let i := indexOf rest d in
           if (i <? 0)%Z then (-1)%Z else (i + 1)%Z
  end.

(** [pickNextDayType].  The [for] loop with its early [return] is the
    search for the first element of [order] that [recent] does not include;
    below it, [history[0]?.dayType] is [undefined] exactly on the empty
    history.  [order[i]] is read with default [Full]; the index is always in
    range (lemma [rotation_index_in_range]). *)
Definition pickNextDayType (history : list Session.t) : DayType :=
  let recent := map Session.dayType (firstn 4 history) in
  match find (fun dt => negb (includes recent dt)) order with
  | Some dt => dt
  | None =>
      match history with
      | [] => Full
      | s0 :: _ =>
          let last := Session.dayType s0 in
          let idx := indexOf order last in
          nth (Z.to_nat (Z.rem (idx + 1) (Z.of_nat (length order)))) order Full
      end
  end.

(** The vocabulary of the selector's description: the rank of a day type
    in the fixed priority order Push, Pull, Legs, Full, and the day type
    that follows another in the rotation, Full wrapping to Push. *)
Definition priority (d : DayType) : nat :=
  match d with
  | Push => 0
  | Pull => 1
  | Legs => 2
  | Full => 3
  end.

Definition cyclic_next (d : DayType) : DayType :=
  match d with
  | Push => Pull
  | Pull => Legs
  | Legs => Full
  | Full => Push
  end.

(* ================================================================== *)
(** * Target-weight calculator                                          *)
(* ================================================================== *)

(** The value returned by [findLastLiftPerformance]. *)
Module Performance.
Record t : Type := mk {
  session : Session.t;
  exercise : Exercise.t;
  log : option ExerciseLog.t
}.
End Performance.

(** The inner loop of [findLastLiftPerformance] over [s.workout]. *)
Fixpoint findInWorkout (s : Session.t) (lift : LiftKey)
    (exs : list Exercise.t) : option Performance.t :=
  match exs with
  | [] => None
  | ex :: rest =>
      if Primary_is (Exercise.primary ex) lift
         && truthy_opt (Exercise.targetWeightLb ex)
      then
        let log := find (fun l => String.eqb (ExerciseLog.exerciseId l) (Exercise.id ex))
                        (Session.logs s) in
        Some (Performance.mk s ex log)
      else findInWorkout s lift rest
  end.

(** [findLastLiftPerformance]: the outer loop over [history]. *)
Fixpoint findLastLiftPerformance (history : list Session.t) (lift : LiftKey)
    : option Performance.t :=
  match history with
  | [] => None
  | s :: rest =>
      match findInWorkout s lift (Session.workout s) with
      | Some p => Some p
      | None => findLastLiftPerformance rest lift
      end
  end.

(** The magnitude up to which the statements about target weights take
    the 5RM: far inside the range where binary64 neither overflows nor
    loses the 2.5 grid (which is exact below 2^51). *)
Definition fiveRM_limit : Q := 1000000000.

(** An exercise carries no usable target for [lift]: it is for another
    lift, or its target is absent or zero. *)
Definition no_target (lift : LiftKey) (ex : Exercise.t) : Prop :=
  Primary_is (Exercise.primary ex) lift = true ->
  match Exercise.targetWeightLb ex with
  | Some w => w == 0
  | None => True
  end.

(** [tMax] of [computeTargetWeightLb]. *)
Definition tMax_of (setup : Setup.t) (lift : LiftKey) : Q :=
  let v := fiveRM_get (Setup.fiveRM setup) lift in
  let oneRM := estimate1RMFrom5RM (if truthy v then v else 0) in
  trainingMax oneRM.

(** The first assignment to [target]: [tMax * (basePct + dayAdjust)].  The
    sum is exact here; in binary64 [0.7 + -0.05] is 0.6499999999999999. *)
Definition baselineTarget (setup : Setup.t) (lift : LiftKey) (dayType : DayType) : Q :=
  let tMax := tMax_of setup lift in
  let basePct :=
    match Setup.goal setup with
    | Strength => 0.8
    | Health => 0.65
    | Hypertrophy => 0.7
    end in
  let dayAdjust := match dayType with Full => -0.05 | _ => 0 end in
  tMax * (basePct + dayAdjust).

(** The [bump] chosen from the last session's ratings. *)
Definition bump_of (lastDifficulty lastEnergy : Q) : Q :=
  if Qle_bool lastDifficulty 2 && Qle_bool 4 lastEnergy then 5
  else if Qeq_bool lastDifficulty 3 then 2.5
  else if Qle_bool 4 lastDifficulty || Qle_bool lastEnergy 2 then -5
  else 0.

(** The value of [target] when [computeTargetWeightLb] reaches its
    [// sane bounds] line. *)
Definition targetBeforeClamp (setup : Setup.t) (history : list Session.t)
    (lift : LiftKey) (dayType : DayType) : Q :=
  let target := baselineTarget setup lift dayType in
  match findLastLiftPerformance history lift with
  | Some last =>
      match Exercise.targetWeightLb (Performance.exercise last) with
      | Some lastW =>
          if truthy lastW then
            let lastDifficulty := Session.difficulty (Performance.session last) in
            let lastEnergy := Session.energy (Performance.session last) in
            lastW + bump_of lastDifficulty lastEnergy
          else target
      | None => target
      end
  | None => target
  end.

(** [computeTargetWeightLb].  In binary64 the result is the same multiple
    of 2.5 unless the clamped target is within rounding error of a
    half-way point (then it may be the neighbouring multiple), and it is
    [Infinity] when the 5RM is so large that the one-rep maximum
    overflows. *)
Definition computeTargetWeightLb (setup : Setup.t) (history : list Session.t)
    (lift : LiftKey) (dayType : DayType) : Q :=
  let tMax := tMax_of setup lift in
  let target := targetBeforeClamp setup history lift dayType in
  let target := clamp target (tMax * 0.55) (tMax * 0.9) in
  roundTo2_5 target.

(* ================================================================== *)
(** * The platform                                                      *)
(* ================================================================== *)

(** What [JSON.parse] returns and [JSON.stringify] accepts.  An object is
    its list of own properties, in insertion order. *)
#[local] Unset Elimination Schemes.
Inductive JsValue : Type :=
| JNull
| JBool (b : bool)
| JNum (q : Q)
| JStr (s : string)
| JArr (items : list JsValue)
| JObj (fields : list (string * JsValue)).
#[local] Set Elimination Schemes.

(** The library functions the page calls and does not define: the [Date]
    class, the conversion of an integer inside a template literal, and the
    [JSON] object.  A calendar field is [None] when it is NaN (an invalid
    date); [JSON_parse] is [None] where [JSON.parse] throws. *)
Record Platform : Type := {
  Date_toISOString : Z -> string;   (* new Date(ms).toISOString() *)
  Date_getFullYear : string -> option Z;   (* new Date(iso).getFullYear() *)
  Date_getMonth : string -> option Z;      (* new Date(iso).getMonth() *)
  Date_getDate : string -> option Z;       (* new Date(iso).getDate() *)
  Number_toString : Z -> string;    (* `${n}` for an integer n *)
  JSON_stringify : JsValue -> string;
  JSON_parse : string -> option JsValue
}.

(** One call of [uid] reads [Math.random()] (kept as the hexadecimal digits
    of [.toString(16).slice(2)]) and [Date.now()]. *)
Record Draw : Type := {
  random_hex : string;
  now_ms : Z
}.

(** What an event handler reads from its surroundings: the successive
    draws of its [uid] calls and the clock behind [new Date()]. *)
Record Ambient : Type := {
  draw : nat -> Draw;
  clock : Z
}.

(* ================================================================== *)
(** * Identifiers, templates and dates                                  *)
(* ================================================================== *)

(** [x === y] on calendar fields: NaN equals nothing. *)
Definition strict_eq (x y : option Z) : bool :=
  match x, y with
  | Some a, Some b => (a =? b)%Z
  | _, _ => false
  end.

Section Templates.
Variable P : Platform.

(** [uid] *)
Definition uid (prefix : string) (d : Draw) : string :=
  prefix ++ "_" ++ random_hex d ++ "_" ++ Number_toString P (now_ms d).

(** An exercise literal without [targetWeightLb] and [notes]. *)
Definition exercise_lit (id name : string) (primary : Primary)
    (muscleGroups : list string) (sets : Q) (reps : string) : Exercise.t :=
  Exercise.mk id name primary muscleGroups sets reps None None.

(** [baseWorkoutTemplate]; [d k] is the draw of the [k]-th [uid] call. *)
Definition baseWorkoutTemplate (d : nat -> Draw) (dayType : DayType)
    : list Exercise.t :=
  match dayType with
  | Push =>
      [ exercise_lit (uid "ex" (d 0%nat)) "Barbell Bench Press" (lift_of bench) ["Chest"; "Triceps"; "Shoulders"] 4 "6-10";
        exercise_lit (uid "ex" (d 1%nat)) "Overhead Press" (lift_of ohp) ["Shoulders"; "Triceps"] 3 "6-10";
        exercise_lit (uid "ex" (d 2%nat)) "Incline Dumbbell Press" accessory ["Chest"] 3 "8-12";
        exercise_lit (uid "ex" (d 3%nat)) "Lateral Raises" accessory ["Shoulders"] 3 "12-15";
        exercise_lit (uid "ex" (d 4%nat)) "Triceps Rope Pushdown" accessory ["Triceps"] 3 "10-15" ]
  | Pull =>
      [ exercise_lit (uid "ex" (d 0%nat)) "Barbell Row" (lift_of row) ["Back"; "Biceps"] 4 "6-10";
        exercise_lit (uid "ex" (d 1%nat)) "Pull-Ups / Lat Pulldown" accessory ["Back"] 3 "6-12";
        exercise_lit (uid "ex" (d 2%nat)) "Seated Cable Row" accessory ["Back"] 3 "8-12";
        exercise_lit (uid "ex" (d 3%nat)) "Face Pulls" accessory ["Rear Delts"] 3 "12-15";
        exercise_lit (uid "ex" (d 4%nat)) "Dumbbell Curls" accessory ["Biceps"] 3 "10-15" ]
  | Legs =>
      [ exercise_lit (uid "ex" (d 0%nat)) "Back Squat" (lift_of squat) ["Quads"; "Glutes"] 4 "5-8";
        exercise_lit (uid "ex" (d 1%nat)) "Romanian Deadlift" accessory ["Hamstrings"; "Glutes"] 3 "6-10";
        exercise_lit (uid "ex" (d 2%nat)) "Leg Press" accessory ["Quads"] 3 "10-15";
        exercise_lit (uid "ex" (d 3%nat)) "Hamstring Curl" accessory ["Hamstrings"] 3 "10-15";
        exercise_lit (uid "ex" (d 4%nat)) "Calf Raises" accessory ["Calves"] 3 "12-20" ]
  | Full =>
      [ exercise_lit (uid "ex" (d 0%nat)) "Deadlift (Technique / Moderate)" (lift_of deadlift) ["Posterior Chain"] 3 "3-5";
        exercise_lit (uid "ex" (d 1%nat)) "Bench Press (Moderate)" (lift_of bench) ["Chest"; "Triceps"] 3 "6-10";
        exercise_lit (uid "ex" (d 2%nat)) "Barbell Row (Moderate)" (lift_of row) ["Back"] 3 "6-10";
        exercise_lit (uid "ex" (d 3%nat)) "Goblet Squat / Front Squat" accessory ["Quads"; "Core"] 3 "8-12";
        exercise_lit (uid "ex" (d 4%nat)) "Plank / Hanging Knee Raises" accessory ["Core"] 3 "30-60s" ]
  end.

(** [isSameDay] *)
Definition isSameDay (aISO bISO : string) : bool :=
  strict_eq (Date_getFullYear P aISO) (Date_getFullYear P bISO)
  && strict_eq (Date_getMonth P aISO) (Date_getMonth P bISO)
  && strict_eq (Date_getDate P aISO) (Date_getDate P bISO).
End Templates.

(* ================================================================== *)
(** * The store and its handlers                                        *)
(* ================================================================== *)

(** [Partial<Session>]: a field is [Some v] when the patch has the key.
    The optional [sleepHours] may be present and [undefined]. *)
Module SessionPatch.
Record t : Type := mk {
  id : option string;
  dateISO : option string;
  dayType : option DayType;
  muscleGroups : option (list string);
  energy : option Q;
  difficulty : option Q;
  sleepHours : option (option Q);
  workout : option (list Exercise.t);
  logs : option (list ExerciseLog.t)
}.
Definition empty : t := mk None None None None None None None None None.
End SessionPatch.

(** [Partial<ExerciseLog>] *)
Module LogPatch.
Record t : Type := mk {
  exerciseId : option string;
  actualWeightLb : option (option Q);
  actualReps : option (option string);
  rpe : option (option Q);
  notes : option (option string)
}.
Definition empty : t := mk None None None None None.
End LogPatch.

(** One property of an object spread [{ ...base, ...patch }]. *)
Definition spread {A : Type} (base : A) (patch : option A) : A :=
  match patch with
  | Some v => v
  | None => base
  end.

(** [{ ...today, ...patch }] *)
Definition patchSession (today : Session.t) (patch : SessionPatch.t) : Session.t :=
  Session.mk
    (spread (Session.id today) (SessionPatch.id patch))
    (spread (Session.dateISO today) (SessionPatch.dateISO patch))
    (spread (Session.dayType today) (SessionPatch.dayType patch))
    (spread (Session.muscleGroups today) (SessionPatch.muscleGroups patch))
    (spread (Session.energy today) (SessionPatch.energy patch))
    (spread (Session.difficulty today) (SessionPatch.difficulty patch))
    (spread (Session.sleepHours today) (SessionPatch.sleepHours patch))
    (spread (Session.workout today) (SessionPatch.workout patch))
    (spread (Session.logs today) (SessionPatch.logs patch)).

(** [{ ...l, ...patch }] *)
Definition patchLog (l : ExerciseLog.t) (patch : LogPatch.t) : ExerciseLog.t :=
  ExerciseLog.mk
    (spread (ExerciseLog.exerciseId l) (LogPatch.exerciseId patch))
    (spread (ExerciseLog.actualWeightLb l) (LogPatch.actualWeightLb patch))
    (spread (ExerciseLog.actualReps l) (LogPatch.actualReps patch))
    (spread (ExerciseLog.rpe l) (LogPatch.rpe patch))
    (spread (ExerciseLog.notes l) (LogPatch.notes patch)).

(** [Array.from(new Set(xs))]: the first occurrences, in order. *)
Fixpoint uniq_from (seen : list string) (xs : list string) : list string :=
  match xs with
  | [] => []
  | x :: rest =>
      if existsb (String.eqb x) seen then uniq_from seen rest
      else x :: uniq_from (x :: seen) rest
  end.

Definition uniq (xs : list string) : list string := uniq_from [] xs.

(** The log list [updateExerciseLog] builds:
    [today.logs.map(l => (l.exerciseId === exId ? { ...l, ...patch } : l))]. *)
Definition patched_logs (exId : string) (patch : LogPatch.t) (t : Session.t)
    : list ExerciseLog.t :=
  map (fun l => if String.eqb (ExerciseLog.exerciseId l) exId
                then patchLog l patch else l)
      (Session.logs t).

(** The store of a freshly mounted page, and of [resetAll]. *)
Definition emptyStore : Store.t := Store.mk None [].

Section Handlers.
Variable P : Platform.

(** The body of [applyDemoData] up to its [setStore]: the twelve [uid]
    calls are numbered in evaluation order. *)
Definition demoSetup : Setup.t :=
  Setup.mk (Some "Demo Athlete") "Male" 70 180 Hypertrophy
           (FiveRM.mk 225 275 315 135 185).

Definition demoHistory (a : Ambient) : list Session.t :=
  let d := draw a in
  [ Session.mk (uid P "sess" (d 0%nat))
      (Date_toISOString P (clock a - 2 * 24 * 3600 * 1000)%Z)
      Push ["Chest"; "Shoulders"; "Triceps"] 4 3 (Some 7)
      [ Exercise.mk (uid P "ex" (d 1%nat)) "Barbell Bench Press" (lift_of bench) ["Chest"; "Triceps"] 4 "6-10" (Some 175) None;
        Exercise.mk (uid P "ex" (d 2%nat)) "Overhead Press" (lift_of ohp) ["Shoulders"] 3 "6-10" (Some 105) None;
        exercise_lit (uid P "ex" (d 3%nat)) "Incline Dumbbell Press" accessory ["Chest"] 3 "8-12";
        exercise_lit (uid P "ex" (d 4%nat)) "Lateral Raises" accessory ["Shoulders"] 3 "12-15";
        exercise_lit (uid P "ex" (d 5%nat)) "Triceps Rope Pushdown" accessory ["Triceps"] 3 "10-15" ]
      [];
    Session.mk (uid P "sess" (d 6%nat))
      (Date_toISOString P (clock a - 1 * 24 * 3600 * 1000)%Z)
      Pull ["Back"; "Biceps"] 3 4 (Some 6)
      [ Exercise.mk (uid P "ex" (d 7%nat)) "Barbell Row" (lift_of row) ["Back"] 4 "6-10" (Some 145) None;
        exercise_lit (uid P "ex" (d 8%nat)) "Pull-Ups / Lat Pulldown" accessory ["Back"] 3 "6-12";
        exercise_lit (uid P "ex" (d 9%nat)) "Seated Cable Row" accessory ["Back"] 3 "8-12";
        exercise_lit (uid P "ex" (d 10%nat)) "Face Pulls" accessory ["Rear Delts"] 3 "12-15";
        exercise_lit (uid P "ex" (d 11%nat)) "Dumbbell Curls" accessory ["Biceps"] 3 "10-15" ]
      [] ].

Definition applyDemoData (a : Ambient) (st : Store.t) : Store.t :=
  Store.mk (Some demoSetup) (demoHistory a).

(** The callback of [template.map] in [generateTodayWorkout]. *)
Definition prescribe (setup : Setup.t) (history : list Session.t)
    (dayType : DayType) (ex : Exercise.t) : Exercise.t :=
  match Exercise.primary ex with
  | lift_of k =>
      let targetWeightLb := computeTargetWeightLb setup history k dayType in
      Exercise.mk (Exercise.id ex) (Exercise.name ex) (Exercise.primary ex)
                  (Exercise.muscleGroups ex) (Exercise.sets ex) (Exercise.reps ex)
                  (Some targetWeightLb) (Exercise.notes ex)
  | accessory => ex
  end.

(** [generateTodayWorkout]: draws 0 to 4 name the exercises, draw 5 the
    session. *)
Definition generateTodayWorkout (a : Ambient) (st : Store.t) : Store.t :=
  match Store.setup st with
  | None => st
  | Some setup =>
      let history := Store.history st in
      let dayType := pickNextDayType history in
      let template := baseWorkoutTemplate P (draw a) dayType in
      let workout := map (prescribe setup history dayType) template in
      let muscleGroups := uniq (flat_map Exercise.muscleGroups workout) in
      let session :=
        Session.mk (uid P "sess" (draw a 5%nat))
                   (Date_toISOString P (clock a))
                   dayType muscleGroups 3 3 None workout
                   (map (fun w => ExerciseLog.mk (Exercise.id w) None None None None)
                        workout) in
      Store.mk (Some setup) (session :: history)
  end.

(** [today], as the render that created the handler computed it. *)
Definition today (a : Ambient) (st : Store.t) : option Session.t :=
  match Store.history st with
  | s0 :: _ =>
      if isSameDay P (Session.dateISO s0) (Date_toISOString P (clock a))
      then Some s0 else None
  | [] => None
  end.

(** [updateToday]; [history.slice(1)] is [tl]. *)
Definition updateToday (a : Ambient) (patch : SessionPatch.t) (st : Store.t)
    : Store.t :=
  match today a st with
  | None => st
  | Some t =>
      let updated := patchSession t patch in
      Store.mk (Store.setup st) (updated :: tl (Store.history st))
  end.

(** [updateExerciseLog] *)
Definition updateExerciseLog (a : Ambient) (exId : string) (patch : LogPatch.t)
    (st : Store.t) : Store.t :=
  match today a st with
  | None => st
  | Some t =>
      let logs := patched_logs exId patch t in
      updateToday a
        (SessionPatch.mk None None None None None None None None (Some logs)) st
  end.

(** The store part of [resetAll]. *)
Definition resetAll (st : Store.t) : Store.t := emptyStore.

(** The [onClick] of "Save setup". *)
Definition saveSetup (draftSetup : Setup.t) (st : Store.t) : Store.t :=
  Store.mk (Some draftSetup) (Store.history st).
End Handlers.

(** The state-changing controls of the page, each with the value its input
    element delivers ([Number(e.target.value)], or [None] for the empty
    field of an optional number). *)
Inductive Event : Type :=
| ClickSaveSetup (draftSetup : Setup.t)
| ClickGenerate
| ChangeEnergy (v : Q)
| ChangeDifficulty (v : Q)
| ChangeSleep (v : option Q)
| ChangeActualWeight (exId : string) (v : option Q)
| ChangeActualReps (exId : string) (v : string)
| ChangeRpe (exId : string) (v : option Q)
| ClickLoadDemo
| ClickReset.

Section Page.
Variable P : Platform.

(** The handler each control is wired to, with the patch it builds. *)
Definition handle (a : Ambient) (ev : Event) (st : Store.t) : Store.t :=
  match ev with
  | ClickSaveSetup draftSetup => saveSetup draftSetup st
  | ClickGenerate => generateTodayWorkout P a st
  | ChangeEnergy v =>
      updateToday P a
        (SessionPatch.mk None None None None (Some (clamp v 1 5)) None None None None) st
  | ChangeDifficulty v =>
      updateToday P a
        (SessionPatch.mk None None None None None (Some (clamp v 1 5)) None None None) st
  | ChangeSleep v =>
      updateToday P a
        (SessionPatch.mk None None None None None None (Some v) None None) st
  | ChangeActualWeight exId v =>
      updateExerciseLog P a exId (LogPatch.mk None (Some v) None None None) st
  | ChangeActualReps exId v =>
      updateExerciseLog P a exId (LogPatch.mk None None (Some (Some v)) None None) st
  | ChangeRpe exId v =>
      updateExerciseLog P a exId
        (LogPatch.mk None None None
           (Some (match v with Some x => Some (clamp x 1 10) | None => None end))
           None) st
  | ClickLoadDemo => applyDemoData P a st
  | ClickReset => resetAll st
  end.

(** A run of the page: the events in the order they happen, each with
    the surroundings its handler reads. *)
Fixpoint run (evs : list (Ambient * Event)) (st : Store.t) : Store.t :=
  match evs with
  | [] => st
  | (a, ev) :: rest => run rest (handle a ev st)
  end.
End Page.

(** The stores the page can hold, starting from a fresh mount with
    nothing stored. *)
Inductive reachable (P : Platform) : Store.t -> Prop :=
| reachable_mount : reachable P emptyStore
| reachable_event (a : Ambient) (ev : Event) (st : Store.t) :
    reachable P st -> reachable P (handle P a ev st).

(** The same without the demo-data loader. *)
Inductive reachable_without_demo (P : Platform) : Store.t -> Prop :=
| rwd_mount : reachable_without_demo P emptyStore
| rwd_event (a : Ambient) (ev : Event) (st : Store.t) :
    ev <> ClickLoadDemo ->
    reachable_without_demo P st ->
    reachable_without_demo P (handle P a ev st).

(** A session whose log list runs parallel to its workout list: one log
    per exercise, in the same order, carrying that exercise's identifier. *)
Definition logs_match (s : Session.t) : Prop :=
  map ExerciseLog.exerciseId (Session.logs s) = map Exercise.id (Session.workout s).

Definition store_logs_match (st : Store.t) : Prop :=
  Forall logs_match (Store.history st).

(** The same, decided. *)
Definition logs_matchb (s : Session.t) : bool :=
  bool_decide (map ExerciseLog.exerciseId (Session.logs s)
               = map Exercise.id (Session.workout s)).

(* ================================================================== *)
(** * The local-storage boundary                                        *)
(* ================================================================== *)

Definition LS_KEY : string := "workout_mvp_v1".

(** ** The page's records as JavaScript values

    The value a record denotes: one property per field, an optional field
    left out when it is [undefined] (which is also how [JSON.stringify]
    treats it). *)

Definition optional {A : Type} (key : string) (enc : A -> JsValue) (o : option A)
    : list (string * JsValue) :=
  match o with
  | Some v => [(key, enc v)]
  | None => []
  end.

Definition Goal_toJs (g : Goal) : JsValue :=
  JStr match g with
       | Hypertrophy => "Hypertrophy"
       | Strength => "Strength"
       | Health => "Health"
       end.

Definition DayType_toJs (d : DayType) : JsValue :=
  JStr match d with
       | Push => "Push"
       | Pull => "Pull"
       | Legs => "Legs"
       | Full => "Full"
       end.

Definition Primary_toJs (p : Primary) : JsValue :=
  JStr match p with
       | lift_of bench => "bench"
       | lift_of squat => "squat"
       | lift_of deadlift => "deadlift"
       | lift_of ohp => "ohp"
       | lift_of row => "row"
       | accessory => "accessory"
       end.

Definition strings_toJs (l : list string) : JsValue := JArr (map JStr l).

Definition FiveRM_toJs (r : FiveRM.t) : JsValue :=
  JObj [ ("bench", JNum (FiveRM.bench r));
         ("squat", JNum (FiveRM.squat r));
         ("deadlift", JNum (FiveRM.deadlift r));
         ("ohp", JNum (FiveRM.ohp r));
         ("row", JNum (FiveRM.row r)) ].

Definition Setup_toJs (s : Setup.t) : JsValue :=
  JObj (optional "name" JStr (Setup.name s)
        ++ [ ("gender", JStr (Setup.gender s));
             ("heightIn", JNum (Setup.heightIn s));
             ("weightLb", JNum (Setup.weightLb s));
             ("goal", Goal_toJs (Setup.goal s));
             ("fiveRM", FiveRM_toJs (Setup.fiveRM s)) ]).

Definition Exercise_toJs (e : Exercise.t) : JsValue :=
  JObj ([ ("id", JStr (Exercise.id e));
          ("name", JStr (Exercise.name e));
          ("primary", Primary_toJs (Exercise.primary e));
          ("muscleGroups", strings_toJs (Exercise.muscleGroups e));
          ("sets", JNum (Exercise.sets e));
          ("reps", JStr (Exercise.reps e)) ]
        ++ optional "targetWeightLb" JNum (Exercise.targetWeightLb e)
        ++ optional "notes" JStr (Exercise.notes e)).

Definition ExerciseLog_toJs (l : ExerciseLog.t) : JsValue :=
  JObj ([ ("exerciseId", JStr (ExerciseLog.exerciseId l)) ]
        ++ optional "actualWeightLb" JNum (ExerciseLog.actualWeightLb l)
        ++ optional "actualReps" JStr (ExerciseLog.actualReps l)
        ++ optional "rpe" JNum (ExerciseLog.rpe l)
        ++ optional "notes" JStr (ExerciseLog.notes l)).

Definition Session_toJs (s : Session.t) : JsValue :=
  JObj ([ ("id", JStr (Session.id s));
          ("dateISO", JStr (Session.dateISO s));
          ("dayType", DayType_toJs (Session.dayType s));
          ("muscleGroups", strings_toJs (Session.muscleGroups s));
          ("energy", JNum (Session.energy s));
          ("difficulty", JNum (Session.difficulty s)) ]
        ++ optional "sleepHours" JNum (Session.sleepHours s)
        ++ [ ("workout", JArr (map Exercise_toJs (Session.workout s)));
             ("logs", JArr (map ExerciseLog_toJs (Session.logs s))) ]).

(** The argument of [JSON.stringify] in [saveState]: [{ setup, history }]. *)
Definition Store_toJs (setup : option Setup.t) (history : list Session.t) : JsValue :=
  JObj [ ("setup", match setup with Some s => Setup_toJs s | None => JNull end);
         ("history", JArr (map Session_toJs history)) ].

(** ** Reading a JavaScript value at a record type

    [loadState] returns what it parsed under the types [Setup | null] and
    [Session[]] without looking at it.  The readers below say when such a
    value is one of the page's records, and which. *)

(** [o.key] on an object's property list; [None] is [undefined]. *)
Fixpoint prop (key : string) (fields : list (string * JsValue)) : option JsValue :=
  match fields with
  | [] => None
  | (k, v) :: rest => if String.eqb k key then Some v else prop key rest
  end.

Definition asNum (v : JsValue) : option Q :=
  match v with JNum q => Some q | _ => None end.

Definition asStr (v : JsValue) : option string :=
  match v with JStr s => Some s | _ => None end.

Definition asArr (v : JsValue) : option (list JsValue) :=
  match v with JArr l => Some l | _ => None end.

Definition asObj (v : JsValue) : option (list (string * JsValue)) :=
  match v with JObj f => Some f | _ => None end.

(** A required property read with [rd]. *)
Definition req {A : Type} (rd : JsValue -> option A) (key : string)
    (fields : list (string * JsValue)) : option A :=
  v ← prop key fields; rd v.

(** An optional property: absent is [undefined]; present, it must read. *)
Definition opt {A : Type} (rd : JsValue -> option A) (key : string)
    (fields : list (string * JsValue)) : option (option A) :=
  match prop key fields with
  | None => Some None
  | Some v => a ← rd v; Some (Some a)
  end.

Definition asGoal (v : JsValue) : option Goal :=
  s ← asStr v;
  if String.eqb s "Hypertrophy" then Some Hypertrophy
  else if String.eqb s "Strength" then Some Strength
  else if String.eqb s "Health" then Some Health
  else None.

Definition asDayType (v : JsValue) : option DayType :=
  s ← asStr v;
  if String.eqb s "Push" then Some Push
  else if String.eqb s "Pull" then Some Pull
  else if String.eqb s "Legs" then Some Legs
  else if String.eqb s "Full" then Some Full
  else None.

Definition asPrimary (v : JsValue) : option Primary :=
  s ← asStr v;
  if String.eqb s "bench" then Some (lift_of bench)
  else if String.eqb s "squat" then Some (lift_of squat)
  else if String.eqb s "deadlift" then Some (lift_of deadlift)
  else if String.eqb s "ohp" then Some (lift_of ohp)
  else if String.eqb s "row" then Some (lift_of row)
  else if String.eqb s "accessory" then Some accessory
  else None.

Definition asList {A : Type} (rd : JsValue -> option A) (v : JsValue)
    : option (list A) :=
  l ← asArr v; mapM rd l.

Definition asFiveRM (v : JsValue) : option FiveRM.t :=
  f ← asObj v;
  b ← req asNum "bench" f;
  s ← req asNum "squat" f;
  d ← req asNum "deadlift" f;
  o ← req asNum "ohp" f;
  r ← req asNum "row" f;
  Some (FiveRM.mk b s d o r).

Definition asSetup (v : JsValue) : option Setup.t :=
  f ← asObj v;
  name ← opt asStr "name" f;
  gender ← req asStr "gender" f;
  heightIn ← req asNum "heightIn" f;
  weightLb ← req asNum "weightLb" f;
  goal ← req asGoal "goal" f;
  fiveRM ← req asFiveRM "fiveRM" f;
  Some (Setup.mk name gender heightIn weightLb goal fiveRM).

Definition asExercise (v : JsValue) : option Exercise.t :=
  f ← asObj v;
  id ← req asStr "id" f;
  name ← req asStr "name" f;
  primary ← req asPrimary "primary" f;
  muscleGroups ← req (asList asStr) "muscleGroups" f;
  sets ← req asNum "sets" f;
  reps ← req asStr "reps" f;
  targetWeightLb ← opt asNum "targetWeightLb" f;
  notes ← opt asStr "notes" f;
  Some (Exercise.mk id name primary muscleGroups sets reps targetWeightLb notes).

Definition asExerciseLog (v : JsValue) : option ExerciseLog.t :=
  f ← asObj v;
  exerciseId ← req asStr "exerciseId" f;
  actualWeightLb ← opt asNum "actualWeightLb" f;
  actualReps ← opt asStr "actualReps" f;
  rpe ← opt asNum "rpe" f;
  notes ← opt asStr "notes" f;
  Some (ExerciseLog.mk exerciseId actualWeightLb actualReps rpe notes).

Definition asSession (v : JsValue) : option Session.t :=
  f ← asObj v;
  id ← req asStr "id" f;
  dateISO ← req asStr "dateISO" f;
  dayType ← req asDayType "dayType" f;
  muscleGroups ← req (asList asStr) "muscleGroups" f;
  energy ← req asNum "energy" f;
  difficulty ← req asNum "difficulty" f;
  sleepHours ← opt asNum "sleepHours" f;
  workout ← req (asList asExercise) "workout" f;
  logs ← req (asList asExerciseLog) "logs" f;
  Some (Session.mk id dateISO dayType muscleGroups energy difficulty sleepHours
                   workout logs).

(** What [loadState] returns, as it is: [setup] is [JNull] for [null]. *)
Module Loaded.
Record t : Type := mk {
  setup : JsValue;
  history : list JsValue
}.

(** [{ setup: null, history: [] }] *)
Definition empty : t := mk JNull [].

(** The loaded value read at the type [loadState] declares. *)
Definition asStore (l : t) : option Store.t :=
  s ← match setup l with
      | JNull => Some None
      | v => x ← asSetup v; Some (Some x)
      end;
  h ← mapM asSession (history l);
  Some (Store.mk s h).
End Loaded.

Section Persistence.
Variable P : Platform.

(** [parsed.key] on a parsed value other than [null]: a property of an
    object, [undefined] on anything else (numbers, strings, booleans and
    arrays have no property of the names read here). *)
Definition member (key : string) (parsed : JsValue) : option JsValue :=
  match parsed with
  | JObj fields => prop key fields
  | _ => None
  end.

(** [loadState], on the browser's storage.  Reading a property of [null]
    throws inside the [try], as a failed parse does.  The guard
    [typeof window === 'undefined'] of [loadState] and [saveState] is for
    rendering on a server, where the effects calling them do not run; the
    model is of the browser. *)
Definition loadState (storage : gmap string string) : Loaded.t :=
  match storage !! LS_KEY with
  | None => Loaded.empty
  | Some raw =>
      if String.eqb raw EmptyString then Loaded.empty
      else
        match JSON_parse P raw with
        | None => Loaded.empty
        | Some JNull => Loaded.empty
        | Some parsed =>
            Loaded.mk
              (match member "setup" parsed with
               | Some v => v
               | None => JNull
               end)
              (match member "history" parsed with
               | Some (JArr items) => items
               | _ => []
               end)
        end
  end.

(** [saveState] *)
Definition saveState (setup : option Setup.t) (history : list Session.t)
    (storage : gmap string string) : gmap string string :=
  <[LS_KEY := JSON_stringify P (Store_toJs setup history)]> storage.
End Persistence.

(* ================================================================== *)
(** * A reference platform                                              *)
(* ================================================================== *)

(** An executable platform for running the page on concrete inputs: a
    browser in the UTC time zone, with years 0000 to 9999, and JSON texts
    whose [\u] escapes stay below code point 128.  A number is written by
    its decimal expansion, in full when that is finite, and a number
    literal is read as the fraction in lowest terms. *)
Module Reference.

(** The decimal numeral of an integer. *)
Definition decimal (z : Z) : string := NilZero.string_of_int (Z.to_int z).

(** A decimal numeral read back; [None] on anything else. *)
Definition of_decimal (s : string) : option Z :=
  option_map Z.of_int (NilZero.int_of_string s).

Fixpoint zeros (n : nat) : string :=
  match n with
  | O => EmptyString
  | S k => String "0" (zeros k)
  end.

(** The numeral of a natural number, padded with zeros to [width]. *)
Definition padded (width : nat) (z : Z) : string :=
  let s := decimal z in
  zeros (width - String.length s) ++ s.

(** Year, month (1 to 12) and day of the month of a day count from
    1970-01-01, in the proleptic Gregorian calendar. *)
Definition civil_of_days (days : Z) : Z * Z * Z :=
  let z := (days + 719468)%Z in
  let era := (z / 146097)%Z in
  let doe := (z - era * 146097)%Z in
  let yoe := ((doe - doe / 1460 + doe / 36524 - doe / 146096) / 365)%Z in
  let y := (yoe + era * 400)%Z in
  let doy := (doe - (365 * yoe + yoe / 4 - yoe / 100))%Z in
  let mp := ((5 * doy + 2) / 153)%Z in
  let d := (doy - (153 * mp + 2) / 5 + 1)%Z in
  let m := if (mp <? 10)%Z then (mp + 3)%Z else (mp - 9)%Z in
  (if (m <=? 2)%Z then (y + 1)%Z else y, m, d).

(** [new Date(ms).toISOString()] *)
Definition toISOString (ms : Z) : string :=
  let '(y, m, d) := civil_of_days (ms / 86400000) in
  let r := (ms mod 86400000)%Z in
  padded 4 y ++ "-" ++ padded 2 m ++ "-" ++ padded 2 d ++ "T"
  ++ padded 2 (r / 3600000) ++ ":" ++ padded 2 ((r / 60000) mod 60) ++ ":"
  ++ padded 2 ((r / 1000) mod 60) ++ "." ++ padded 3 (r mod 1000) ++ "Z".

(** The calendar fields of an ISO string, read in UTC; [None] is NaN. *)
Definition getFullYear (iso : string) : option Z := of_decimal (substring 0 4 iso).
Definition getMonth (iso : string) : option Z :=
  option_map (fun m => (m - 1)%Z) (of_decimal (substring 5 2 iso)).
Definition getDate (iso : string) : option Z := of_decimal (substring 8 2 iso).

(** ** JSON text *)

Definition quote : ascii := "034"%char.
Definition backslash : ascii := "092"%char.

Definition hex_digit (n : N) : ascii :=
  ascii_of_N (if (n <? 10)%N then 48 + n else 87 + n).

(** One character of a string literal, as it is written between the
    quotes. *)
Definition escaped_char (c : ascii) : string :=
  let n := N_of_ascii c in
  if Ascii.eqb c quote then String backslash (String quote EmptyString)
  else if Ascii.eqb c backslash then String backslash (String backslash EmptyString)
  else if (n =? 8)%N then String backslash "b"
  else if (n =? 9)%N then String backslash "t"
  else if (n =? 10)%N then String backslash "n"
  else if (n =? 12)%N then String backslash "f"
  else if (n =? 13)%N then String backslash "r"
  else if (n <? 32)%N then
    String backslash
      ("u00" ++ String (hex_digit (n / 16)) (String (hex_digit (n mod 16)) EmptyString))
  else String c EmptyString.

(** The text of a string literal between its quotes. *)
Fixpoint escaped (s : string) : string :=
  match s with
  | EmptyString => EmptyString
  | String c rest => escaped_char c ++ escaped rest
  end.

Definition quoted (s : string) : string :=
  String quote (escaped s) ++ String quote EmptyString.

(** The decimal digit of [n], for [0 <= n <= 9], and the value of a
    digit. *)
Definition digit (n : Z) : ascii := ascii_of_N (48 + Z.to_N n).

Definition digit_value (c : ascii) : Z := (Z.of_N (N_of_ascii c) - 48)%Z.

(** The numeral of a natural number in front of [acc], least significant
    digit first; [fuel] bounds the number of digits. *)
Fixpoint numeral_acc (fuel : nat) (n : Z) (acc : string) : string :=
  match fuel with
  | O => acc
  | S k =>
      let acc' := String (digit (n mod 10)) acc in
      if (n <? 10)%Z then acc' else numeral_acc k (n / 10) acc'
  end.

Definition numeral (n : Z) : string :=
  numeral_acc (S (Z.to_nat (Z.log2 n))) n EmptyString.

(** The digits of [r / d] after the decimal point, for [0 <= r < d], at
    most [fuel] of them. *)
Fixpoint fraction_digits (fuel : nat) (r d : Z) : string :=
  match fuel with
  | O => EmptyString
  | S k =>
      if (r =? 0)%Z then EmptyString
      else String (digit (r * 10 / d)) (fraction_digits k ((r * 10) mod d) d)
  end.

(** The digits after the point run out within [fuel] places. *)
Fixpoint terminates (fuel : nat) (r d : Z) : bool :=
  match fuel with
  | O => (r =? 0)%Z
  | S k => (r =? 0)%Z || terminates k ((r * 10) mod d) d
  end.

(** Enough places for every denominator [2^a * 5^b]. *)
Definition places (d : positive) : nat := Z.to_nat (Z.log2 (Zpos d)).

(** A number as a decimal numeral. *)
Definition number_text (q : Q) : string :=
  let n := Qnum q in
  let d := Zpos (Qden q) in
  let a := Z.abs n in
  (if (n <? 0)%Z then "-" else EmptyString)
  ++ numeral (a / d)
  ++ (if (a mod d =? 0)%Z then EmptyString
      else "." ++ fraction_digits (places (Qden q)) (a mod d) d).

(** The numbers whose numeral is exact: those with a finite decimal
    expansion. *)
Definition finite_decimal (q : Q) : bool :=
  terminates (places (Qden q)) (Z.abs (Qnum q) mod Zpos (Qden q)) (Zpos (Qden q)).

Fixpoint joined (parts : list string) : string :=
  match parts with
  | [] => EmptyString
  | [p] => p
  | p :: rest => p ++ "," ++ joined rest
  end.

(** [JSON.stringify] *)
Fixpoint stringify (v : JsValue) : string :=
  match v with
  | JNull => "null"
  | JBool true => "true"
  | JBool false => "false"
  | JNum q => number_text q
  | JStr s => quoted s
  | JArr items => "[" ++ joined (map stringify items) ++ "]"
  | JObj fields =>
      "{" ++ joined (map (fun kv => quoted (fst kv) ++ ":" ++ stringify (snd kv)) fields)
      ++ "}"
  end.

Definition is_ws (c : ascii) : bool :=
  let n := N_of_ascii c in
  (n =? 32)%N || (n =? 9)%N || (n =? 10)%N || (n =? 13)%N.

Fixpoint skip_ws (s : string) : string :=
  match s with
  | String c rest => if is_ws c then skip_ws rest else s
  | EmptyString => s
  end.

Definition is_digit (c : ascii) : bool :=
  let n := N_of_ascii c in (48 <=? n)%N && (n <=? 57)%N.

(** The longest prefix of digits, and what follows. *)
Fixpoint digits (s : string) : string * string :=
  match s with
  | String c rest =>
      if is_digit c then let '(ds, r) := digits rest in (String c ds, r)
      else (EmptyString, s)
  | EmptyString => (EmptyString, s)
  end.

(** The value of a string of digits, after those read into [acc]. *)
Fixpoint read (acc : Z) (s : string) : Z :=
  match s with
  | String c rest => read (acc * 10 + digit_value c) rest
  | EmptyString => acc
  end.

Definition hex_value (c : ascii) : option N :=
  let n := N_of_ascii c in
  if (48 <=? n)%N && (n <=? 57)%N then Some (n - 48)%N
  else if (97 <=? n)%N && (n <=? 102)%N then Some (n - 87)%N
  else if (65 <=? n)%N && (n <=? 70)%N then Some (n - 55)%N
  else None.

(** The body of a string literal up to its closing quote. *)
Fixpoint string_body (s : string) : option (string * string) :=
  match s with
  | EmptyString => None
  | String c rest =>
      if Ascii.eqb c quote then Some (EmptyString, rest)
      else if Ascii.eqb c backslash then
        match rest with
        | String e rest' =>
            let lit (x : ascii) :=
              match string_body rest' with
              | Some (body, r) => Some (String x body, r)
              | None => None
              end in
            if Ascii.eqb e quote then lit quote
            else if Ascii.eqb e backslash then lit backslash
            else if Ascii.eqb e "/" then lit "/"%char
            else if Ascii.eqb e "b" then lit "008"%char
            else if Ascii.eqb e "t" then lit "009"%char
            else if Ascii.eqb e "n" then lit "010"%char
            else if Ascii.eqb e "f" then lit "012"%char
            else if Ascii.eqb e "r" then lit "013"%char
            else if Ascii.eqb e "u" then
              match rest' with
              | String h1 (String h2 (String h3 (String h4 rest''))) =>
                  match hex_value h1, hex_value h2, hex_value h3, hex_value h4 with
                  | Some 0%N, Some 0%N, Some a, Some b =>
                      if (a <? 8)%N then
                        match string_body rest'' with
                        | Some (body, r) => Some (String (ascii_of_N (a * 16 + b)) body, r)
                        | None => None
                        end
                      else None
                  | _, _, _, _ => None
                  end
              | _ => None
              end
            else None
        | EmptyString => None
        end
      else if (N_of_ascii c <? 32)%N then None
      else
        match string_body rest with
        | Some (body, r) => Some (String c body, r)
        | None => None
        end
  end.

(** The parts of a number literal: the sign, the fraction after the
    integer part, the exponent. *)
Definition sign (s : string) : bool * string :=
  match s with
  | String c r => if Ascii.eqb c "-" then (true, r) else (false, s)
  | EmptyString => (false, s)
  end.

Definition leading_zero (ip : string) : bool :=
  match ip with
  | String c (String _ _) => Ascii.eqb c "0"
  | _ => false
  end.

Definition fraction (s : string) : option (string * string) :=
  match s with
  | String c r =>
      if Ascii.eqb c "." then
        let '(fp, s3) := digits r in
        match fp with
        | EmptyString => None
        | _ => Some (fp, s3)
        end
      else Some (EmptyString, s)
  | EmptyString => Some (EmptyString, s)
  end.

Definition exponent (s : string) : option (Z * string) :=
  match s with
  | String e r =>
      if Ascii.eqb e "e" || Ascii.eqb e "E" then
        let '(eneg, r1) :=
          match r with
          | String c r' =>
              if Ascii.eqb c "-" then (true, r')
              else if Ascii.eqb c "+" then (false, r')
              else (false, r)
          | EmptyString => (false, r)
          end in
        let '(ep, s4) := digits r1 in
        match ep with
        | EmptyString => None
        | _ => Some (if eneg then (- read 0 ep)%Z else read 0 ep, s4)
        end
      else Some (0%Z, s)
  | EmptyString => Some (0%Z, s)
  end.

(** The literal after its sign: integer part, fraction, exponent. *)
Definition magnitude (s : string) : option (Q * string) :=
  let '(ip, s2) := digits s in
  match ip with
  | EmptyString => None
  | _ =>
      if leading_zero ip then None
      else
        match fraction s2 with
        | None => None
        | Some (fp, s3) =>
            match exponent s3 with
            | None => None
            | Some (e, s4) =>
                let m := read 0 (ip ++ fp) in
                let k := (e - Z.of_nat (String.length fp))%Z in
                Some (if (0 <=? k)%Z then inject_Z (m * 10 ^ k)
                      else Qmake m (Z.to_pos (10 ^ (- k))),
                      s4)
            end
        end
  end.

(** A number literal, its value in lowest terms. *)
Definition number (s : string) : option (Q * string) :=
  let '(neg, s1) := sign s in
  match magnitude s1 with
  | Some (q, rest) => Some (Qred (if neg then Qopp q else q), rest)
  | None => None
  end.

(** A string of digits, and a test of the first character of a text. *)
Fixpoint all_digits (s : string) : bool :=
  match s with
  | String c rest => is_digit c && all_digits rest
  | EmptyString => true
  end.

Definition head_is (p : ascii -> bool) (s : string) : bool :=
  match s with
  | String c _ => p c
  | EmptyString => false
  end.

(** What may follow a value inside a text: nothing, or one of [,], []]
    and [}]. *)
Definition closing (s : string) : bool :=
  match s with
  | String c _ => Ascii.eqb c "," || Ascii.eqb c "]" || Ascii.eqb c "}"
  | EmptyString => true
  end.

(** [o[k] = v] while an object is being read: a repeated key keeps its
    place and takes the later value. *)
Fixpoint define (k : string) (v : JsValue) (fields : list (string * JsValue))
    : list (string * JsValue) :=
  match fields with
  | [] => [(k, v)]
  | (k', v') :: rest =>
      if String.eqb k' k then (k, v) :: rest else (k', v') :: define k v rest
  end.

(** One value at the head of the text, then the rest of the text.  [fuel]
    bounds the number of values, elements and members read. *)
Fixpoint value (fuel : nat) (s : string) : option (JsValue * string) :=
  match fuel with
  | O => None
  | S f =>
      match skip_ws s with
      | String c rest =>
          if Ascii.eqb c "[" then
            match skip_ws rest with
            | String c' rest' =>
                if Ascii.eqb c' "]" then Some (JArr [], rest') else elements f rest []
            | EmptyString => elements f rest []
            end
          else if Ascii.eqb c "{" then
            match skip_ws rest with
            | String c' rest' =>
                if Ascii.eqb c' "}" then Some (JObj [], rest') else members f rest []
            | EmptyString => members f rest []
            end
          else if Ascii.eqb c quote then
            match string_body rest with
            | Some (body, r) => Some (JStr body, r)
            | None => None
            end
          else if String.prefix "null" (String c rest) then
            Some (JNull, substring 4 (String.length rest) (String c rest))
          else if String.prefix "true" (String c rest) then
            Some (JBool true, substring 4 (String.length rest) (String c rest))
          else if String.prefix "false" (String c rest) then
            Some (JBool false, substring 5 (String.length rest) (String c rest))
          else
            match number (String c rest) with
            | Some (q, r) => Some (JNum q, r)
            | None => None
            end
      | EmptyString => None
      end
  end
with elements (fuel : nat) (s : string) (acc : list JsValue)
    : option (JsValue * string) :=
  match fuel with
  | O => None
  | S f =>
      match value f s with
      | Some (v, r) =>
          match skip_ws r with
          | String "," r' => elements f r' (v :: acc)
          | String "]" r' => Some (JArr (rev (v :: acc)), r')
          | _ => None
          end
      | None => None
      end
  end
with members (fuel : nat) (s : string) (acc : list (string * JsValue))
    : option (JsValue * string) :=
  match fuel with
  | O => None
  | S f =>
      match skip_ws s with
      | String c rest =>
          if Ascii.eqb c quote then
            match string_body rest with
            | Some (k, r) =>
                match skip_ws r with
                | String ":" r' =>
                    match value f r' with
                    | Some (v, r'') =>
                        match skip_ws r'' with
                        | String "," r3 => members f r3 (define k v acc)
                        | String "}" r3 => Some (JObj (define k v acc), r3)
                        | _ => None
                        end
                    | None => None
                    end
                | _ => None
                end
            | None => None
            end
          else None
      | EmptyString => None
      end
  end.

(** [JSON.parse]; [None] where it throws a [SyntaxError]. *)
Definition parse (s : string) : option JsValue :=
  match value (S (String.length s)) s with
  | Some (v, rest) =>
      match skip_ws rest with
      | EmptyString => Some v
      | _ => None
      end
  | None => None
  end.

End Reference.

(** A value with every number in lowest terms: the value [JSON.parse]
    gives back. *)
Fixpoint canonical (v : JsValue) : JsValue :=
  match v with
  | JNum q => JNum (Qred q)
  | JArr items => JArr (map canonical items)
  | JObj fields => JObj (map (fun kv => (fst kv, canonical (snd kv))) fields)
  | _ => v
  end.

(** Every number of a value satisfies [p]. *)
Fixpoint numbers_all (p : Q -> bool) (v : JsValue) : bool :=
  match v with
  | JNum q => p q
  | JArr items => forallb (numbers_all p) items
  | JObj fields => forallb (fun kv => numbers_all p (snd kv)) fields
  | _ => true
  end.

(** No object of a value has two properties of the same name. *)
Fixpoint keys_distinct (v : JsValue) : Prop :=
  match v with
  | JArr items => fold_right (fun x acc => keys_distinct x /\ acc) True items
  | JObj fields =>
      List.NoDup (map fst fields)
      /\ fold_right (fun kv acc => keys_distinct (snd kv) /\ acc) True fields
  | _ => True
  end.

(** The number of values, elements and members [JSON.parse] reads for a
    value. *)
Fixpoint size (v : JsValue) : nat :=
  match v with
  | JArr items => S (fold_right (fun x acc => S (size x + acc)) O items)
  | JObj fields => S (fold_right (fun kv acc => S (size (snd kv) + acc)) O fields)
  | _ => 1
  end.

(** What reading a value's text gives, with enough fuel and before a text
    that closes the value. *)
Definition reads (v : JsValue) : Prop :=
  forall (fuel : nat) (rest : string),
    (size v <= fuel)%nat -> Reference.closing rest = true ->
    Reference.value fuel (Reference.stringify v ++ rest) = Some (canonical v, rest).

(** The text of one property of an object, and the property read back. *)
Definition member_text (kv : string * JsValue) : string :=
  Reference.quoted (fst kv) ++ ":" ++ Reference.stringify (snd kv).

Definition canonical_member (kv : string * JsValue) : string * JsValue :=
  (fst kv, canonical (snd kv)).

(** ** States up to the representation of their numbers

    A number of the model is a fraction, and the same number has several
    fractions; a JavaScript number has one representation.  The state with
    every number in lowest terms, and the states that are the same field
    by field, numbers being compared with [==]. *)

Definition FiveRM_canonical (r : FiveRM.t) : FiveRM.t :=
  FiveRM.mk (Qred (FiveRM.bench r)) (Qred (FiveRM.squat r)) (Qred (FiveRM.deadlift r))
            (Qred (FiveRM.ohp r)) (Qred (FiveRM.row r)).

Definition Setup_canonical (s : Setup.t) : Setup.t :=
  Setup.mk (Setup.name s) (Setup.gender s) (Qred (Setup.heightIn s))
           (Qred (Setup.weightLb s)) (Setup.goal s) (FiveRM_canonical (Setup.fiveRM s)).

Definition Exercise_canonical (e : Exercise.t) : Exercise.t :=
  Exercise.mk (Exercise.id e) (Exercise.name e) (Exercise.primary e)
              (Exercise.muscleGroups e) (Qred (Exercise.sets e)) (Exercise.reps e)
              (option_map Qred (Exercise.targetWeightLb e)) (Exercise.notes e).

Definition ExerciseLog_canonical (l : ExerciseLog.t) : ExerciseLog.t :=
  ExerciseLog.mk (ExerciseLog.exerciseId l)
                 (option_map Qred (ExerciseLog.actualWeightLb l))
                 (ExerciseLog.actualReps l)
                 (option_map Qred (ExerciseLog.rpe l))
                 (ExerciseLog.notes l).

Definition Session_canonical (s : Session.t) : Session.t :=
  Session.mk (Session.id s) (Session.dateISO s) (Session.dayType s)
             (Session.muscleGroups s) (Qred (Session.energy s))
             (Qred (Session.difficulty s)) (option_map Qred (Session.sleepHours s))
             (map Exercise_canonical (Session.workout s))
             (map ExerciseLog_canonical (Session.logs s)).

Definition Store_canonical (st : Store.t) : Store.t :=
  Store.mk (option_map Setup_canonical (Store.setup st))
           (map Session_canonical (Store.history st)).

Definition same_optional (x y : option Q) : Prop :=
  match x, y with
  | Some a, Some b => a == b
  | None, None => True
  | _, _ => False
  end.

Definition FiveRM_same (r r' : FiveRM.t) : Prop :=
  FiveRM.bench r == FiveRM.bench r'
  /\ FiveRM.squat r == FiveRM.squat r'
  /\ FiveRM.deadlift r == FiveRM.deadlift r'
  /\ FiveRM.ohp r == FiveRM.ohp r'
  /\ FiveRM.row r == FiveRM.row r'.

Definition Setup_same (s s' : Setup.t) : Prop :=
  Setup.name s = Setup.name s'
  /\ Setup.gender s = Setup.gender s'
  /\ Setup.heightIn s == Setup.heightIn s'
  /\ Setup.weightLb s == Setup.weightLb s'
  /\ Setup.goal s = Setup.goal s'
  /\ FiveRM_same (Setup.fiveRM s) (Setup.fiveRM s').

Definition Exercise_same (e e' : Exercise.t) : Prop :=
  Exercise.id e = Exercise.id e'
  /\ Exercise.name e = Exercise.name e'
  /\ Exercise.primary e = Exercise.primary e'
  /\ Exercise.muscleGroups e = Exercise.muscleGroups e'
  /\ Exercise.sets e == Exercise.sets e'
  /\ Exercise.reps e = Exercise.reps e'
  /\ same_optional (Exercise.targetWeightLb e) (Exercise.targetWeightLb e')
  /\ Exercise.notes e = Exercise.notes e'.

Definition ExerciseLog_same (l l' : ExerciseLog.t) : Prop :=
  ExerciseLog.exerciseId l = ExerciseLog.exerciseId l'
  /\ same_optional (ExerciseLog.actualWeightLb l) (ExerciseLog.actualWeightLb l')
  /\ ExerciseLog.actualReps l = ExerciseLog.actualReps l'
  /\ same_optional (ExerciseLog.rpe l) (ExerciseLog.rpe l')
  /\ ExerciseLog.notes l = ExerciseLog.notes l'.

Definition Session_same (s s' : Session.t) : Prop :=
  Session.id s = Session.id s'
  /\ Session.dateISO s = Session.dateISO s'
  /\ Session.dayType s = Session.dayType s'
  /\ Session.muscleGroups s = Session.muscleGroups s'
  /\ Session.energy s == Session.energy s'
  /\ Session.difficulty s == Session.difficulty s'
  /\ same_optional (Session.sleepHours s) (Session.sleepHours s')
  /\ Forall2 Exercise_same (Session.workout s) (Session.workout s')
  /\ Forall2 ExerciseLog_same (Session.logs s) (Session.logs s').

Definition Store_same (st st' : Store.t) : Prop :=
  match Store.setup st, Store.setup st' with
  | Some s, Some s' => Setup_same s s'
  | None, None => True
  | _, _ => False
  end
  /\ Forall2 Session_same (Store.history st) (Store.history st').

(** Every number of a state has a finite decimal expansion. *)
Definition Store_finite_decimal (setup : option Setup.t) (history : list Session.t)
    : bool :=
  numbers_all Reference.finite_decimal (Store_toJs setup history).

(** The reference platform. *)
Definition reference : Platform := {|
  Date_toISOString := Reference.toISOString;
  Date_getFullYear := Reference.getFullYear;
  Date_getMonth := Reference.getMonth;
  Date_getDate := Reference.getDate;
  Number_toString := Reference.decimal;
  JSON_stringify := Reference.stringify;
  JSON_parse := Reference.parse
|}.

(** Surroundings for a handler run at 2024-03-04T17:30:00.000Z, the
    [k]-th [uid] call drawing the digits of [k]. *)
Definition monday_evening : Ambient := {|
  draw := fun k => {| random_hex := Reference.decimal (Z.of_nat k);
                      now_ms := 1709573400000 |};
  clock := 1709573400000
|}.

(* ================================================================== *)
(** * Sample inputs                                                     *)
(* ================================================================== *)

(** The initial value of the [draftSetup] state of the page. *)
Definition initialDraftSetup : Setup.t :=
  Setup.mk (Some "Paul") "Male" 70 180 Hypertrophy
           (FiveRM.mk 225 275 315 135 185).

(** The demo-sized profile with a deadlift 5RM of 500. *)
Definition deadlift500Setup : Setup.t :=
  Setup.mk None "Male" 70 180 Hypertrophy (FiveRM.mk 225 275 500 135 185).

(** A session prescribing a single main lift at [w], rated [difficulty] and
    [energy], with the log entry generation gives it. *)
Definition liftSession (id : string) (dayType : DayType) (exId name : string)
    (k : LiftKey) (w : option Q) (difficulty energy : Q) : Session.t :=
  Session.mk id "2024-03-04T17:30:00.000Z" dayType [] energy difficulty None
             [ Exercise.mk exId name (lift_of k) [] 4 "6-10" w None ]
             [ ExerciseLog.mk exId None None None None ].

(** Bench press prescribed at 175, found easy on a good day. *)
Definition easyBench175 : Session.t :=
  liftSession "sess_a" Push "ex_a" "Barbell Bench Press" bench (Some 175) 2 4.

(** Squat prescribed at 257.5, found easy on a good day. *)
Definition easySquat257_5 : Session.t :=
  liftSession "sess_b" Legs "ex_b" "Back Squat" squat (Some 257.5) 2 4.

(** Bench press prescribed at 0 (what a profile without a bench 5RM
    yields). *)
Definition zeroBench : Session.t :=
  liftSession "sess_c" Push "ex_c" "Barbell Bench Press" bench (Some 0) 3 3.

(** A profile whose squat 5RM was entered as a negative number. *)
Definition negativeSquatSetup : Setup.t :=
  Setup.mk None "Male" 70 180 Hypertrophy (FiveRM.mk 225 (-100) 315 135 185).

(** A session of a given day type and nothing else. *)
Definition bareSession (dayType : DayType) : Session.t :=
  Session.mk "sess" "2024-03-04T17:30:00.000Z" dayType [] 3 3 None [] [].

(** A stored text that parses, to an object whose [history] is a string
    and whose [setup] is an object:
    [{"setup":{"goal":"Strength"},"history":"oops"}]. *)
Definition malformedRaw : string :=
  "{" ++ Reference.quoted "setup" ++ ":{" ++ Reference.quoted "goal" ++ ":"
  ++ Reference.quoted "Strength" ++ "}," ++ Reference.quoted "history" ++ ":"
  ++ Reference.quoted "oops" ++ "}".

Definition malformedParsed : JsValue :=
  JObj [ ("setup", JObj [("goal", JStr "Strength")]); ("history", JStr "oops") ].

(** The store after saving the initial draft and generating a workout,
    on the reference platform, and the session generated. *)
Definition generatedStore : Store.t :=
  run reference
      [ (monday_evening, ClickSaveSetup initialDraftSetup);
        (monday_evening, ClickGenerate) ]
      emptyStore.

Definition generatedSession : Session.t :=
  match Store.history generatedStore with
  | s :: _ => s
  | [] => bareSession Full
  end.

(** The store after loading the demo data. *)
Definition demoStore : Store.t :=
  handle reference monday_evening ClickLoadDemo emptyStore.

(** The store after loading the demo data, generating a workout and
    entering a weight for its first exercise. *)
Definition demoThenLogged : Store.t :=
  run reference
      [ (monday_evening, ClickLoadDemo);
        (monday_evening, ClickGenerate);
        (monday_evening, ChangeActualWeight "ex_0_1709573400000" (Some 150)) ]
      emptyStore.

(** The store after saving the initial draft, generating a workout and
    filling in the session: a weight, an effort rating, the hours slept
    and the energy. *)
Definition loggedStore : Store.t :=
  run reference
      [ (monday_evening, ClickSaveSetup initialDraftSetup);
        (monday_evening, ClickGenerate);
        (monday_evening, ChangeActualWeight "ex_0_1709573400000" (Some 152.5));
        (monday_evening, ChangeRpe "ex_0_1709573400000" (Some 8.5));
        (monday_evening, ChangeSleep (Some 7.5));
        (monday_evening, ChangeEnergy 4) ]
      emptyStore.

(** A patch of the difficulty, and a patch of the logged weight. *)
Definition harder : SessionPatch.t :=
  SessionPatch.mk None None None None None (Some 4) None None None.

Definition lifted150 : LogPatch.t :=
  LogPatch.mk None (Some (Some 150)) None None None.

(* ================================================================== *)
(** * The numeric kernel on binary64                                    *)
(* ================================================================== *)

(** The same arithmetic on IEEE 754 binary64 numbers, the [number] of
    JavaScript, for running the numeric scenarios as the browser does.
    NaN is left out: [Math_max] and [Math_min] are those of ordered
    arguments. *)
Module IEEE.
Import PrimFloat.
#[local] Set Warnings "-inexact-float".
Local Open Scope float_scope.

(** 2^52: from there on every binary64 number is an integer. *)
Definition two52 : float := 4503599627370496.

(** The largest integer not above [x]. *)
Definition floor (x : float) : float :=
  if abs x <? two52 then
    let r := if 0 <=? x then (x + two52) - two52 else (x - two52) + two52 in
    if x <? r then r - 1 else r
  else x.

(** [Math.round]: the nearest integer, a tie going towards +infinity. *)
Definition Math_round (x : float) : float :=
  let f := floor x in
  if 0.5 <=? x - f then f + 1 else f.

Definition Math_max (a b : float) : float := if a <? b then b else a.
Definition Math_min (a b : float) : float := if b <? a then b else a.

Definition estimate1RMFrom5RM (fiveRM : float) : float :=
  fiveRM * (1 + 5 / 30).

Definition trainingMax (oneRM : float) : float :=
  oneRM * 0.9.

Definition roundTo2_5 (x : float) : float :=
  Math_round (x / 2.5) * 2.5.

Definition clamp (n min max : float) : float :=
  Math_max min (Math_min max n).

(** The last two statements of [computeTargetWeightLb], from the value
    of [target] before them. *)
Definition boundAndRound (tMax target : float) : float :=
  roundTo2_5 (clamp target (tMax * 0.55) (tMax * 0.9)).

(** The scenarios, with the expressions of [computeTargetWeightLb] written
    out on their inputs. *)

(** Bench 5RM 225, Hypertrophy, Push, no history. *)
Definition bench_225 : float :=
  let tMax := trainingMax (estimate1RMFrom5RM 225) in
  boundAndRound tMax (tMax * (0.7 + 0)).

(** Bench 5RM 225 after a session at 175 with difficulty 2, energy 4. *)
Definition bench_after_175 : float :=
  let tMax := trainingMax (estimate1RMFrom5RM 225) in
  boundAndRound tMax (175 + 5).

(** Squat 5RM 275 after a session at 257.5 with difficulty 2, energy 4,
    and the upper clamp bound. *)
Definition squat_after_257_5 : float :=
  let tMax := trainingMax (estimate1RMFrom5RM 275) in
  boundAndRound tMax (257.5 + 5).

Definition squat_upper_bound : float :=
  trainingMax (estimate1RMFrom5RM 275) * 0.9.

(** Squat 5RM -100, Hypertrophy, Legs, no history. *)
Definition squat_negative : float :=
  let tMax := trainingMax (estimate1RMFrom5RM (-100)) in
  boundAndRound tMax (tMax * (0.7 + 0)).

(** Bench 5RM 1.7e308, Hypertrophy, Push, no history: the one-rep maximum
    is beyond the largest binary64 number. *)
Definition bench_overflow : float :=
  let tMax := trainingMax (estimate1RMFrom5RM 1.7e308) in
  boundAndRound tMax (tMax * (0.7 + 0)).

(** Deadlift 5RM 500, Hypertrophy, Full, no history: the fraction
    [0.7 + -0.05] and the baseline, which in exact arithmetic is 341.25,
    half-way between 340 and 342.5. *)
Definition full_day_fraction : float := 0.7 + -0.05.

Definition deadlift_500_full_baseline : float :=
  trainingMax (estimate1RMFrom5RM 500) * (0.7 + -0.05).

Definition deadlift_500_full : float :=
  let tMax := trainingMax (estimate1RMFrom5RM 500) in
  boundAndRound tMax (tMax * (0.7 + -0.05)).

(** The rational a finite binary64 number is; [None] for NaN and the
    infinities. *)
Definition to_Q (x : float) : option Q :=
  match FloatOps.Prim2SF x with
  | SpecFloat.S754_zero _ => Some 0%Q
  | SpecFloat.S754_finite s m e =>
      let v :=
        if (0 <=? e)%Z then inject_Z (Zpos m * 2 ^ e)
        else Qmake (Zpos m) (Z.to_pos (2 ^ (- e))) in
      Some (if s then Qopp v else v)
  | _ => None
  end.

(** A number as [JSON.stringify] takes it: NaN and the infinities are
    written [null]. *)
Definition toJs (x : float) : JsValue :=
  match to_Q x with
  | Some q => JNum q
  | None => JNull
  end.

End IEEE.

(* ================================================================== *)
(** * Auxiliary definitions                                             *)
(* ================================================================== *)

(** The session [generateTodayWorkout] builds, as a function of what it
    reads. *)
Definition newSession (P : Platform) (a : Ambient) (setup : Setup.t)
    (history : list Session.t) : Session.t :=
  let dayType := pickNextDayType history in
  let template := baseWorkoutTemplate P (draw a) dayType in
  let workout := map (prescribe setup history dayType) template in
  Session.mk (uid P "sess" (draw a 5%nat))
             (Date_toISOString P (clock a))
             dayType (uniq (flat_map Exercise.muscleGroups workout)) 3 3 None workout
             (map (fun w => ExerciseLog.mk (Exercise.id w) None None None None)
                  workout).

(** The day type at position [i] of the rotation Push, Pull, Legs, Full,
    and the day types of a history of [n] sessions that followed the
    rotation from the start, most recent first. *)
Definition rotation (i : nat) : DayType := nth (i mod 4) order Full.

Definition rotation_history (n : nat) : list DayType :=
  rev (map rotation (seq 0 n)).

(** Name, lift, sets and rep range of the exercises of a workout. *)
Definition outline (workout : list Exercise.t)
    : list (string * Primary * Q * string) :=
  map (fun e => (Exercise.name e, Exercise.primary e, Exercise.sets e, Exercise.reps e))
      workout.

(** A session as the page produces them: the outline of its day type's
    template, a target on the main lifts and on them alone. *)
Definition well_formed (P : Platform) (s : Session.t) : Prop :=
  outline (Session.workout s)
  = outline (baseWorkoutTemplate P (fun _ => Build_Draw EmptyString 0) (Session.dayType s))
  /\ Forall (fun e => Exercise.targetWeightLb e = None <-> Exercise.primary e = accessory)
            (Session.workout s).

(** The ratings of a session within their scales: energy and difficulty
    in 1 to 5, every logged RPE in 1 to 10. *)
Definition ratings_in_range (s : Session.t) : Prop :=
  (1 <= Session.energy s /\ Session.energy s <= 5)
  /\ (1 <= Session.difficulty s /\ Session.difficulty s <= 5)
  /\ Forall (fun l => match ExerciseLog.rpe l with
                      | Some r => 1 <= r /\ r <= 10
                      | None => True
                      end)
            (Session.logs s).

(** The patches the controls of the page build: one rating or the sleep
    hours of the session, one field of a log. *)
Inductive ui_session_patch : SessionPatch.t -> Prop :=
| ui_energy (v : Q) :
    ui_session_patch
      (SessionPatch.mk None None None None (Some (clamp v 1 5)) None None None None)
| ui_difficulty (v : Q) :
    ui_session_patch
      (SessionPatch.mk None None None None None (Some (clamp v 1 5)) None None None)
| ui_sleep (v : option Q) :
    ui_session_patch
      (SessionPatch.mk None None None None None None (Some v) None None).

Inductive ui_log_patch : LogPatch.t -> Prop :=
| ui_weight (v : option Q) :
    ui_log_patch (LogPatch.mk None (Some v) None None None)
| ui_reps (v : string) :
    ui_log_patch (LogPatch.mk None None (Some (Some v)) None None)
| ui_rpe (v : option Q) :
    ui_log_patch
      (LogPatch.mk None None None
         (Some (match v with Some x => Some (clamp x 1 10) | None => None end))
         None).

(** A session with its log list replaced. *)
Definition with_logs (t : Session.t) (logs : list ExerciseLog.t) : Session.t :=
  Session.mk (Session.id t) (Session.dateISO t) (Session.dayType t)
             (Session.muscleGroups t) (Session.energy t) (Session.difficulty t)
             (Session.sleepHours t) (Session.workout t) logs.

(** The controls that edit today's session. *)
Definition is_edit (ev : Event) : bool :=
  match ev with
  | ChangeEnergy _ | ChangeDifficulty _ | ChangeSleep _
  | ChangeActualWeight _ _ | ChangeActualReps _ _ | ChangeRpe _ _ => true
  | _ => false
  end.

(** The log the Logger shows for an exercise of a session,
    [today.logs.find(l => l.exerciseId === ex.id)]; [findLastLiftPerformance]
    looks a log up the same way. *)
Definition logFor (s : Session.t) (ex : Exercise.t) : option ExerciseLog.t :=
  find (fun l => String.eqb (ExerciseLog.exerciseId l) (Exercise.id ex))
       (Session.logs s).

(** Every target weight of a session is a multiple of 2.5. *)
Definition targets_on_grid (s : Session.t) : Prop :=
  Forall (fun e => match Exercise.targetWeightLb e with
                   | Some w => exists k : Z, w == inject_Z k * 2.5
                   | None => True
                   end)
         (Session.workout s).

(** A profile whose five 5RM entries are within [fiveRM_limit] in
    magnitude. *)
Definition setup_bounded (setup : Setup.t) : Prop :=
  forall lift : LiftKey,
    - fiveRM_limit <= fiveRM_get (Setup.fiveRM setup) lift
    /\ fiveRM_get (Setup.fiveRM setup) lift <= fiveRM_limit.

(** The stores the page can hold when every profile saved through "Save
    setup" is of that kind. *)
Inductive reachable_bounded (P : Platform) : Store.t -> Prop :=
| rb_mount : reachable_bounded P emptyStore
| rb_event (a : Ambient) (ev : Event) (st : Store.t) :
    (forall draft, ev = ClickSaveSetup draft -> setup_bounded draft) ->
    reachable_bounded P st ->
    reachable_bounded P (handle P a ev st).

(** For each session of the store, whether its logs are parallel to its
    workout. *)
Definition forms (st : Store.t) : list bool :=
  map logs_matchb (Store.history st).

(** The log list of a session is parallel to its workout, or empty. *)
Definition logs_match_or_empty (s : Session.t) : Prop :=
  logs_match s \/ Session.logs s = [].

(* ================================================================== *)
(** * Properties                                                        *)
(* ================================================================== *)

(** ** Rounding and clamping *)

Lemma Math_round_bounds (x : Q) :
  x - 0.5 < inject_Z (Math_round x) /\ inject_Z (Math_round x) <= x + 0.5.
Proof.
  unfold Math_round. split.
  - pose proof (Qlt_floor (x + 0.5)) as H.
    rewrite inject_Z_plus in H. change (inject_Z 1) with 1 in H.
    set (k := inject_Z (Qfloor (x + 0.5))) in *. lra.
  - apply Qfloor_le.
Qed.


Lemma Math_round_comp (x y : Q) : x == y -> Math_round x = Math_round y.
Proof.
  intros E. unfold Math_round. apply Qfloor_comp. rewrite E. reflexivity.
Qed.

Lemma div_2_5 (x : Q) : x / 2.5 == x * (2 # 5).
Proof. unfold Qdiv. apply Qmult_comp; reflexivity. Qed.

(** The rounded value is within half an increment of the argument. *)
Lemma roundTo2_5_near (x : Q) :
  x - 1.25 < roundTo2_5 x /\ roundTo2_5 x <= x + 1.25.
Proof.
  unfold roundTo2_5.
  destruct (Math_round_bounds (x / 2.5)) as [Hlo Hhi].
  set (k := inject_Z (Math_round (x / 2.5))) in *.
  rewrite (div_2_5 x) in Hlo, Hhi. split; lra.
Qed.


Lemma roundTo2_5_comp (x y : Q) : x == y -> roundTo2_5 x == roundTo2_5 y.
Proof.
  intros E. unfold roundTo2_5.
  rewrite (Math_round_comp (x / 2.5) (y / 2.5)); [reflexivity |].
  rewrite E. reflexivity.
Qed.

Lemma clamp_comp (n n' lo lo' hi hi' : Q) :
  n == n' -> lo == lo' -> hi == hi' -> clamp n lo hi == clamp n' lo' hi'.
Proof.
  intros En El Eh. unfold clamp, Math_max, Math_min.
  rewrite En, El, Eh. reflexivity.
Qed.

(** With the bounds in order, [clamp] lands between them. *)
Lemma clamp_between (n lo hi : Q) :
  lo <= hi -> lo <= clamp n lo hi /\ clamp n lo hi <= hi.
Proof.
  intros H. unfold clamp, Math_max, Math_min. split.
  - apply Q.le_max_l.
  - apply Q.max_lub; [exact H | apply Q.le_min_l].
Qed.

(** Inside the bounds, [clamp] changes nothing. *)
Lemma clamp_inside (n lo hi : Q) :
  lo <= n -> n <= hi -> clamp n lo hi == n.
Proof.
  intros Hl Hh. unfold clamp, Math_max, Math_min.
  rewrite (Q.min_r hi n Hh). apply Q.max_r. exact Hl.
Qed.

(** Above the upper bound, [clamp] returns it. *)
Lemma clamp_above (n lo hi : Q) :
  lo <= hi -> hi <= n -> clamp n lo hi == hi.
Proof.
  intros Hlh Hh. unfold clamp, Math_max, Math_min.
  rewrite (Q.min_l hi n Hh). apply Q.max_r. exact Hlh.
Qed.

(** With the bounds out of order, [clamp] returns the lower one. *)
Lemma clamp_crossed (n lo hi : Q) :
  hi <= lo -> clamp n lo hi == lo.
Proof.
  intros H. unfold clamp, Math_max, Math_min.
  apply Q.max_l. apply Qle_trans with hi; [apply Q.le_min_l | exact H].
Qed.

(** ** One-rep maximum and training maximum *)

Lemma truthy_false_iff (x : Q) : truthy x = false <-> x == 0.
Proof.
  unfold truthy. rewrite negb_false_iff. apply Qeq_bool_iff.
Qed.

Lemma truthy_true_iff (x : Q) : truthy x = true <-> ~ x == 0.
Proof.
  rewrite <- truthy_false_iff. destruct (truthy x); split; congruence.
Qed.

(** [x || 0] is [x] up to [==]. *)
Lemma or_zero (x : Q) : (if truthy x then x else 0) == x.
Proof.
  destruct (truthy x) eqn:E; [reflexivity |].
  apply truthy_false_iff in E. symmetry. exact E.
Qed.

Lemma estimate1RMFrom5RM_ratio (w : Q) : estimate1RMFrom5RM w == w * (7 # 6).
Proof. unfold estimate1RMFrom5RM. field. Qed.

(** The training maximum is 0.9 x (7/6) x the five-rep maximum. *)
Lemma tMax_of_value (setup : Setup.t) (lift : LiftKey) :
  tMax_of setup lift == 0.9 * (7 # 6) * fiveRM_get (Setup.fiveRM setup) lift.
Proof.
  unfold tMax_of, trainingMax. cbv zeta.
  rewrite estimate1RMFrom5RM_ratio, or_zero. ring.
Qed.

(** ** Target weight: range *)

(** The target is the clamped value rounded, hence always a multiple of
    2.5 within 1.25 of the clamped value. *)
Lemma computeTargetWeightLb_near_clamp (setup : Setup.t) (history : list Session.t)
    (lift : LiftKey) (dayType : DayType) :
  let tMax := tMax_of setup lift in
  let c := clamp (targetBeforeClamp setup history lift dayType) (tMax * 0.55) (tMax * 0.9) in
  computeTargetWeightLb setup history lift dayType = roundTo2_5 c
  /\ c - 1.25 < computeTargetWeightLb setup history lift dayType
  /\ computeTargetWeightLb setup history lift dayType <= c + 1.25.
Proof.
  cbv zeta. unfold computeTargetWeightLb. cbv zeta.
  split; [reflexivity | apply roundTo2_5_near].
Qed.



(** A target at or above the upper bound comes out as that bound
    rounded, which may lie above it. *)
Lemma computeTargetWeightLb_capped (setup : Setup.t) (history : list Session.t)
    (lift : LiftKey) (dayType : DayType) :
  0 <= fiveRM_get (Setup.fiveRM setup) lift ->
  tMax_of setup lift * 0.9 <= targetBeforeClamp setup history lift dayType ->
  computeTargetWeightLb setup history lift dayType
  == roundTo2_5 (tMax_of setup lift * 0.9).
Proof.
  intros H5 Hhi. unfold computeTargetWeightLb. cbv zeta.
  apply roundTo2_5_comp. apply clamp_above; [| exact Hhi].
  pose proof (tMax_of_value setup lift) as E.
  set (tm := tMax_of setup lift) in *.
  assert (0 <= tm) by (rewrite E; lra). lra.
Qed.

(** With a negative 5RM the bounds are out of order and the result is the
    lower bound 0.55 x TM rounded, whatever the history. *)
Lemma computeTargetWeightLb_negative (setup : Setup.t) (history : list Session.t)
    (lift : LiftKey) (dayType : DayType) :
  fiveRM_get (Setup.fiveRM setup) lift < 0 ->
  computeTargetWeightLb setup history lift dayType
  == roundTo2_5 (tMax_of setup lift * 0.55).
Proof.
  intros H5. unfold computeTargetWeightLb. cbv zeta.
  apply roundTo2_5_comp. apply clamp_crossed.
  pose proof (tMax_of_value setup lift) as E.
  set (tm := tMax_of setup lift) in *.
  assert (tm < 0) by (rewrite E; lra). lra.
Qed.


(** A negative 5RM puts the clamp bounds out of order; the lower bound
    0.55 x TM wins and the target is negative. *)
Lemma computeTargetWeightLb_negative_5RM :
  computeTargetWeightLb negativeSquatSetup [] squat Legs == -57.5.
Proof. vm_compute. reflexivity. Qed.

(** ** Target weight: the worked scenario *)

Lemma targetBeforeClamp_nil (setup : Setup.t) (lift : LiftKey) (dayType : DayType) :
  targetBeforeClamp setup [] lift dayType = baselineTarget setup lift dayType.
Proof. reflexivity. Qed.

(** C5.  Bench 5RM 225, goal Hypertrophy, a Push day and no history:
    training max 236.25, baseline 0.70 x 236.25 = 165.375, which lies
    inside the clamp interval [129.9375, 212.625] and rounds to 165. *)
Theorem computeTargetWeightLb_bench_225 (setup : Setup.t) :
  fiveRM_get (Setup.fiveRM setup) bench == 225 ->
  Setup.goal setup = Hypertrophy ->
  let tMax := tMax_of setup bench in
  let target := targetBeforeClamp setup [] bench Push in
  tMax == 236.25
  /\ target == 165.375
  /\ tMax * 0.55 == 129.9375
  /\ tMax * 0.9 == 212.625
  /\ clamp target (tMax * 0.55) (tMax * 0.9) == 165.375
  /\ computeTargetWeightLb setup [] bench Push == 165.
Proof.
  intros H5 Hg. cbv zeta.
  assert (Etm : tMax_of setup bench == 236.25).
  { rewrite tMax_of_value, H5. reflexivity. }
  assert (Et : targetBeforeClamp setup [] bench Push == 165.375).
  { rewrite targetBeforeClamp_nil. unfold baselineTarget. cbv zeta.
    rewrite Hg, Etm. reflexivity. }
  assert (Ec : clamp (targetBeforeClamp setup [] bench Push)
                 (tMax_of setup bench * 0.55) (tMax_of setup bench * 0.9)
               == 165.375).
  { rewrite (clamp_comp _ 165.375 _ 129.9375 _ 212.625);
      [ | exact Et | rewrite Etm; reflexivity | rewrite Etm; reflexivity ].
    apply clamp_inside; lra. }
  repeat split; try assumption.
  - rewrite Etm. reflexivity.
  - rewrite Etm. reflexivity.
  - unfold computeTargetWeightLb. cbv zeta.
    rewrite (roundTo2_5_comp _ 165.375 Ec). reflexivity.
Qed.

Lemma computeTargetWeightLb_bench_225_witness :
  computeTargetWeightLb initialDraftSetup [] bench Push == 165.
Proof.
  apply (computeTargetWeightLb_bench_225 initialDraftSetup);
    [ simpl; reflexivity | reflexivity ].
Defined.

(** ** Target weight: the last-performance search *)

Lemma no_target_guard (lift : LiftKey) (ex : Exercise.t) :
  no_target lift ex <->
  Primary_is (Exercise.primary ex) lift && truthy_opt (Exercise.targetWeightLb ex) = false.
Proof.
  unfold no_target, truthy_opt.
  destruct (Primary_is (Exercise.primary ex) lift); simpl.
  - destruct (Exercise.targetWeightLb ex) as [w |].
    + rewrite truthy_false_iff. tauto.
    + tauto.
  - split; [reflexivity | discriminate].
Qed.

Lemma findInWorkout_None (s : Session.t) (lift : LiftKey) (exs : list Exercise.t) :
  findInWorkout s lift exs = None <-> Forall (no_target lift) exs.
Proof.
  induction exs as [| ex rest IH]; simpl.
  - split; [constructor | reflexivity].
  - destruct (Primary_is (Exercise.primary ex) lift
              && truthy_opt (Exercise.targetWeightLb ex)) eqn:G.
    + split; [discriminate |].
      intros H. inversion H as [| ? ? Hex _]; subst.
      apply no_target_guard in Hex. congruence.
    + rewrite IH. split.
      * intros H. constructor; [apply no_target_guard; exact G | exact H].
      * intros H. inversion H; assumption.
Qed.

Lemma findInWorkout_Some (s : Session.t) (lift : LiftKey) (exs : list Exercise.t)
    (p : Performance.t) :
  findInWorkout s lift exs = Some p ->
  Performance.session p = s
  /\ In (Performance.exercise p) exs
  /\ Primary_is (Exercise.primary (Performance.exercise p)) lift = true
  /\ truthy_opt (Exercise.targetWeightLb (Performance.exercise p)) = true.
Proof.
  induction exs as [| ex rest IH]; simpl; [discriminate |].
  destruct (Primary_is (Exercise.primary ex) lift
            && truthy_opt (Exercise.targetWeightLb ex)) eqn:G.
  - intros [= <-]. simpl. apply andb_true_iff in G as [G1 G2]. auto.
  - intros H. destruct (IH H) as (? & ? & ? & ?). auto.
Qed.

(** What a successful search returns: an exercise for [lift], with a
    non-zero target, of a session of the history. *)
Lemma findLastLiftPerformance_Some (history : list Session.t) (lift : LiftKey)
    (p : Performance.t) :
  findLastLiftPerformance history lift = Some p ->
  In (Performance.session p) history
  /\ In (Performance.exercise p) (Session.workout (Performance.session p))
  /\ Primary_is (Exercise.primary (Performance.exercise p)) lift = true
  /\ exists lastW, Exercise.targetWeightLb (Performance.exercise p) = Some lastW
                   /\ ~ lastW == 0.
Proof.
  induction history as [| s rest IH]; simpl; [discriminate |].
  destruct (findInWorkout s lift (Session.workout s)) as [q |] eqn:F.
  - intros [= <-]. apply findInWorkout_Some in F as (Es & Hin & Hp & Ht).
    rewrite Es. repeat split; auto.
    destruct (Exercise.targetWeightLb (Performance.exercise q)) as [w |];
      [| discriminate].
    exists w. split; [reflexivity | apply truthy_true_iff; exact Ht].
  - intros H. destruct (IH H) as (? & ? & ? & ?). auto.
Qed.

(** The bump table, rule by rule in the order of the source. *)
Lemma bump_of_rules (d e : Q) :
  (d <= 2 /\ 4 <= e -> bump_of d e = 5)
  /\ (~ (d <= 2 /\ 4 <= e) -> d == 3 -> bump_of d e = 2.5)
  /\ (~ (d <= 2 /\ 4 <= e) -> ~ d == 3 -> 4 <= d \/ e <= 2 -> bump_of d e = -5)
  /\ (~ (d <= 2 /\ 4 <= e) -> ~ d == 3 -> ~ (4 <= d \/ e <= 2) -> bump_of d e = 0).
Proof.
  unfold bump_of.
  destruct (Qle_bool d 2 && Qle_bool 4 e) eqn:R1.
  - apply andb_true_iff in R1 as [A B].
    apply Qle_bool_iff in A, B. repeat split; intros; tauto.
  - assert (N1 : ~ (d <= 2 /\ 4 <= e)).
    { intros [A B]. apply Qle_bool_iff in A, B. rewrite A, B in R1. discriminate. }
    destruct (Qeq_bool d 3) eqn:R2.
    + apply Qeq_bool_iff in R2. repeat split; intros; tauto.
    + assert (N2 : ~ d == 3).
      { intros A. apply Qeq_bool_iff in A. congruence. }
      destruct (Qle_bool 4 d || Qle_bool e 2) eqn:R3.
      * assert (Y3 : 4 <= d \/ e <= 2).
        { apply orb_true_iff in R3 as [A | A]; apply Qle_bool_iff in A; tauto. }
        repeat split; intros; tauto.
      * assert (N3 : ~ (4 <= d \/ e <= 2)).
        { intros [A | A]; apply Qle_bool_iff in A; rewrite A in R3;
            [discriminate | rewrite orb_true_r in R3; discriminate]. }
        repeat split; intros; tauto.
Qed.

(** When the search succeeds the override is applied. *)
Lemma targetBeforeClamp_found (setup : Setup.t) (history : list Session.t)
    (lift : LiftKey) (dayType : DayType) (last : Performance.t) (lastW : Q) :
  findLastLiftPerformance history lift = Some last ->
  Exercise.targetWeightLb (Performance.exercise last) = Some lastW ->
  targetBeforeClamp setup history lift dayType
  = lastW + bump_of (Session.difficulty (Performance.session last))
                    (Session.energy (Performance.session last)).
Proof.
  intros F T. unfold targetBeforeClamp. cbv zeta. rewrite F, T.
  destruct (findLastLiftPerformance_Some _ _ _ F) as (_ & _ & _ & w & Ew & Hw).
  rewrite T in Ew. injection Ew as <-.
  apply truthy_true_iff in Hw. rewrite Hw. reflexivity.
Qed.

(** C3.  When the last-performance search succeeds, the target before the
    clamp is the last prescribed weight plus the bump of the first matching
    rule: +5 if difficulty <= 2 and energy >= 4; +2.5 if difficulty = 3;
    -5 if difficulty >= 4 or energy <= 2; 0 otherwise.  In particular a
    prior session prescribing 175 with difficulty 2 and energy 4 gives 180
    before the clamp, and 180 as the result when 180 lies inside the clamp
    interval. *)
Theorem targetBeforeClamp_progression (setup : Setup.t) (history : list Session.t)
    (lift : LiftKey) (dayType : DayType) (last : Performance.t) :
  findLastLiftPerformance history lift = Some last ->
  exists lastW : Q,
    Exercise.targetWeightLb (Performance.exercise last) = Some lastW /\
    let d := Session.difficulty (Performance.session last) in
    let e := Session.energy (Performance.session last) in
    let target := targetBeforeClamp setup history lift dayType in
    let tMax := tMax_of setup lift in
    (d <= 2 /\ 4 <= e -> target == lastW + 5)
    /\ (~ (d <= 2 /\ 4 <= e) -> d == 3 -> target == lastW + 2.5)
    /\ (~ (d <= 2 /\ 4 <= e) -> ~ d == 3 -> 4 <= d \/ e <= 2 -> target == lastW - 5)
    /\ (~ (d <= 2 /\ 4 <= e) -> ~ d == 3 -> ~ (4 <= d \/ e <= 2) -> target == lastW)
    /\ (lastW == 175 -> d == 2 -> e == 4 ->
        target == 180
        /\ (tMax * 0.55 <= 180 <= tMax * 0.9 ->
            computeTargetWeightLb setup history lift dayType == 180)).
Proof.
  intros F.
  destruct (findLastLiftPerformance_Some _ _ _ F) as (_ & _ & _ & lastW & T & _).
  exists lastW. split; [exact T |]. cbv zeta.
  rewrite (targetBeforeClamp_found setup history lift dayType last lastW F T).
  set (d := Session.difficulty (Performance.session last)).
  set (e := Session.energy (Performance.session last)).
  destruct (bump_of_rules d e) as (R1 & R2 & R3 & R4).
  repeat match goal with |- _ /\ _ => split end.
  - intros H. rewrite (R1 H). reflexivity.
  - intros H1 H2. rewrite (R2 H1 H2). reflexivity.
  - intros H1 H2 H3. rewrite (R3 H1 H2 H3). ring.
  - intros H1 H2 H3. rewrite (R4 H1 H2 H3). ring.
  - intros Hw Hd He.
    assert (R : d <= 2 /\ 4 <= e) by (rewrite Hd, He; split; lra).
    assert (E : lastW + bump_of d e == 180) by (rewrite (R1 R), Hw; reflexivity).
    split; [exact E |].
    intros [Hlo Hhi]. unfold computeTargetWeightLb. cbv zeta.
    rewrite (targetBeforeClamp_found setup history lift dayType last lastW F T).
    fold d e.
    rewrite (roundTo2_5_comp _ 180); [reflexivity |].
    rewrite (clamp_comp _ 180 _ (tMax_of setup lift * 0.55) _ (tMax_of setup lift * 0.9));
      [ | exact E | reflexivity | reflexivity ].
    apply clamp_inside; assumption.
Qed.

Lemma targetBeforeClamp_progression_witness :
  targetBeforeClamp initialDraftSetup [easyBench175] bench Push == 180
  /\ computeTargetWeightLb initialDraftSetup [easyBench175] bench Push == 180.
Proof.
  destruct (targetBeforeClamp_progression initialDraftSetup [easyBench175] bench Push
              _ eq_refl) as (lastW & T & _ & _ & _ & _ & H).
  injection T as <-.
  destruct H as [H1 H2]; [reflexivity | reflexivity | reflexivity |].
  split; [exact H1 |].
  apply H2. vm_compute. split; discriminate.
Defined.

(** ** Target weight: a zero target counts as none *)




(** ** Day-type selector *)

Lemma DayType_eqb_eq (a b : DayType) : DayType_eqb a b = true <-> a = b.
Proof. destruct a, b; simpl; split; congruence. Qed.

Lemma includes_In (recent : list DayType) (dt : DayType) :
  includes recent dt = true <-> In dt recent.
Proof.
  unfold includes. rewrite existsb_exists. split.
  - intros (x & Hx & E). apply DayType_eqb_eq in E. subst. exact Hx.
  - intros H. exists dt. split; [exact H | apply DayType_eqb_eq; reflexivity].
Qed.

Lemma includes_not_In (recent : list DayType) (dt : DayType) :
  includes recent dt = false <-> ~ In dt recent.
Proof.
  rewrite <- includes_In. destruct (includes recent dt); split; congruence.
Qed.

(** The index read from [order] in the rotation branch is always one of
    its four positions. *)
Lemma rotation_index_in_range (last : DayType) :
  (Z.to_nat (Z.rem (indexOf order last + 1) (Z.of_nat (length order)))
   < length order)%nat.
Proof. destruct last; vm_compute; lia. Qed.

(** The branch [if (!last) return 'Full'] is never taken: when the loop
    finds every day type in the recent window, the history is not empty. *)
Lemma pickNextDayType_fallback_unreachable (history : list Session.t) :
  find (fun dt => negb (includes (map Session.dayType (firstn 4 history)) dt)) order
  = None ->
  history <> [].
Proof. intros H E. subst. discriminate. Qed.

(** C1.  On the empty history the code returns Push, not Full: the loop
    returns the first day type of the priority order, none having been
    seen, and the line returning Full for a missing last session is not
    reached. *)
Theorem pickNextDayType_empty : pickNextDayType [] = Push.
Proof. reflexivity. Qed.

(** The result on the empty history is not Full. *)
Lemma pickNextDayType_empty_not_Full : pickNextDayType [] <> Full.
Proof. intros H. vm_compute in H. discriminate H. Qed.

Lemma find_absent_first (recent : list DayType) (dt : DayType) :
  ~ In dt recent ->
  (forall dt', (priority dt' < priority dt)%nat -> In dt' recent) ->
  find (fun d => negb (includes recent d)) order = Some dt.
Proof.
  intros Habs Hlow. apply includes_not_In in Habs.
  assert (L : forall dt', (priority dt' < priority dt)%nat -> includes recent dt' = true).
  { intros dt' H. apply includes_In. auto. }
  unfold order. simpl find.
  destruct dt; simpl in L;
    repeat match goal with
           | |- context [includes recent ?d] =>
               first [ rewrite Habs | rewrite (L d) by (simpl; lia) ]; simpl
           end; reflexivity.
Qed.

Lemma find_absent_none (recent : list DayType) :
  (forall dt, In dt recent) ->
  find (fun d => negb (includes recent d)) order = None.
Proof.
  intros Hall.
  assert (L : forall dt, includes recent dt = true).
  { intros dt. apply includes_In. auto. }
  unfold order. simpl find. rewrite !L. reflexivity.
Qed.

Lemma rotation_is_cyclic_next (last : DayType) :
  nth (Z.to_nat (Z.rem (indexOf order last + 1) (Z.of_nat (length order)))) order Full
  = cyclic_next last.
Proof. destruct last; reflexivity. Qed.

(** C4.  On a non-empty history [pickNextDayType] returns the first day
    type, in the priority order Push, Pull, Legs, Full, that does not occur
    among the day types of the (at most four) most recent sessions; if all
    four occur there, the day type that cyclically follows that of the
    most recent session.  So [Push, Pull, Legs] gives Full and
    [Push, Pull, Legs, Full] gives Pull. *)
Theorem pickNextDayType_nonempty (history : list Session.t) :
  history <> [] ->
  let recent := map Session.dayType (firstn 4 history) in
  (forall dt : DayType,
      ~ In dt recent ->
      (forall dt', (priority dt' < priority dt)%nat -> In dt' recent) ->
      pickNextDayType history = dt)
  /\ ((forall dt : DayType, In dt recent) ->
      exists s0 rest, history = s0 :: rest
                      /\ pickNextDayType history = cyclic_next (Session.dayType s0))
  /\ (map Session.dayType history = [Push; Pull; Legs] ->
      pickNextDayType history = Full)
  /\ (map Session.dayType history = [Push; Pull; Legs; Full] ->
      pickNextDayType history = Pull).
Proof.
  intros Hne. cbv zeta.
  assert (A : forall dt : DayType,
             ~ In dt (map Session.dayType (firstn 4 history)) ->
             (forall dt', (priority dt' < priority dt)%nat ->
                          In dt' (map Session.dayType (firstn 4 history))) ->
             pickNextDayType history = dt).
  { intros dt Habs Hlow. unfold pickNextDayType. cbv zeta.
    rewrite (find_absent_first _ dt Habs Hlow). reflexivity. }
  assert (B : (forall dt : DayType, In dt (map Session.dayType (firstn 4 history))) ->
              exists s0 rest, history = s0 :: rest
                /\ pickNextDayType history = cyclic_next (Session.dayType s0)).
  { intros Hall. destruct history as [| s0 rest]; [congruence |].
    exists s0, rest. split; [reflexivity |].
    unfold pickNextDayType. cbv zeta.
    rewrite (find_absent_none _ Hall). apply rotation_is_cyclic_next. }
  split; [exact A |]. split; [exact B |]. split.
  - intros E. apply A.
    + rewrite <- firstn_map, E. simpl. intuition discriminate.
    + intros dt' Hlt. rewrite <- firstn_map, E. simpl.
      destruct dt'; simpl in Hlt; auto; lia.
  - intros E. destruct B as (s0 & rest & Eh & Ep).
    + intros dt. rewrite <- firstn_map, E. simpl. destruct dt; auto.
    + rewrite Ep. subst history. simpl in E. injection E as E0 _. rewrite E0.
      reflexivity.
Qed.

Lemma pickNextDayType_nonempty_witness :
  pickNextDayType [bareSession Push; bareSession Pull; bareSession Legs] = Full
  /\ pickNextDayType
       [bareSession Push; bareSession Pull; bareSession Legs; bareSession Full]
     = Pull
  /\ pickNextDayType [bareSession Pull; bareSession Push] = Legs
  /\ pickNextDayType
       [bareSession Legs; bareSession Push; bareSession Full; bareSession Pull;
        bareSession Pull]
     = cyclic_next Legs.
Proof.
  split; [| split; [| split]].
  - apply (pickNextDayType_nonempty
             [bareSession Push; bareSession Pull; bareSession Legs]);
      [discriminate | reflexivity].
  - apply (pickNextDayType_nonempty
             [bareSession Push; bareSession Pull; bareSession Legs; bareSession Full]);
      [discriminate | reflexivity].
  - apply (pickNextDayType_nonempty [bareSession Pull; bareSession Push]);
      [discriminate | simpl; intuition discriminate |].
    intros dt' Hlt. simpl. destruct dt'; simpl in Hlt; auto; lia.
  - destruct (pickNextDayType_nonempty
                [bareSession Legs; bareSession Push; bareSession Full;
                 bareSession Pull; bareSession Pull]) as (_ & H & _);
      [discriminate |].
    destruct H as (s0 & rest & E & Hp).
    + intros dt. simpl. destruct dt; auto.
    + rewrite Hp. injection E as <- _. reflexivity.
Defined.

(** ** The handlers: what they leave alone *)

Section HandlerFacts.
Variable P : Platform.

Lemma today_Some (a : Ambient) (st : Store.t) (t : Session.t) :
  today P a st = Some t ->
  Store.history st = t :: tl (Store.history st).
Proof.
  unfold today. destruct (Store.history st) as [| s0 rest]; [discriminate |].
  destruct (isSameDay P _ _); [| discriminate].
  intros [= <-]. reflexivity.
Qed.

Lemma updateToday_today (a : Ambient) (patch : SessionPatch.t) (st : Store.t)
    (t : Session.t) :
  today P a st = Some t ->
  updateToday P a patch st
  = Store.mk (Store.setup st) (patchSession t patch :: tl (Store.history st)).
Proof. intros H. unfold updateToday. rewrite H. reflexivity. Qed.

Lemma updateToday_not_today (a : Ambient) (patch : SessionPatch.t) (st : Store.t) :
  today P a st = None -> updateToday P a patch st = st.
Proof. intros H. unfold updateToday. rewrite H. reflexivity. Qed.

Lemma updateExerciseLog_today (a : Ambient) (exId : string) (patch : LogPatch.t)
    (st : Store.t) (t : Session.t) :
  today P a st = Some t ->
  updateExerciseLog P a exId patch st
  = Store.mk (Store.setup st)
      (Session.mk (Session.id t) (Session.dateISO t) (Session.dayType t)
                  (Session.muscleGroups t) (Session.energy t) (Session.difficulty t)
                  (Session.sleepHours t) (Session.workout t)
                  (patched_logs exId patch t)
       :: tl (Store.history st)).
Proof.
  intros H. unfold updateExerciseLog. rewrite H.
  rewrite (updateToday_today a _ st t H). reflexivity.
Qed.

Lemma patched_logs_nth (exId : string) (patch : LogPatch.t) (t : Session.t)
    (i : nat) (l : ExerciseLog.t) :
  nth_error (Session.logs t) i = Some l ->
  nth_error (patched_logs exId patch t) i
  = Some (if String.eqb (ExerciseLog.exerciseId l) exId then patchLog l patch else l).
Proof.
  intros H. unfold patched_logs. rewrite nth_error_map, H. reflexivity.
Qed.

(** C10.  When the most recent session is today's, [updateToday] and
    [updateExerciseLog] change the first session of the history and nothing
    else: the profile, the length of the history and every later session
    stay as they were.  [updateExerciseLog] moreover keeps the first
    session's workout list (and every field but the logs), the number of
    logs, and every log entry with another exercise identifier; an entry
    with the given identifier receives the patch. *)
Theorem update_frame (a : Ambient) (st : Store.t) (t : Session.t)
    (patch : SessionPatch.t) (exId : string) (lpatch : LogPatch.t) :
  today P a st = Some t ->
  let st1 := updateToday P a patch st in
  let st2 := updateExerciseLog P a exId lpatch st in
  (Store.setup st1 = Store.setup st
   /\ length (Store.history st1) = length (Store.history st)
   /\ tl (Store.history st1) = tl (Store.history st)
   /\ hd_error (Store.history st1) = Some (patchSession t patch))
  /\ (Store.setup st2 = Store.setup st
      /\ length (Store.history st2) = length (Store.history st)
      /\ tl (Store.history st2) = tl (Store.history st)
      /\ exists t2 : Session.t,
          hd_error (Store.history st2) = Some t2
          /\ Session.workout t2 = Session.workout t
          /\ (Session.id t2 = Session.id t
              /\ Session.dateISO t2 = Session.dateISO t
              /\ Session.dayType t2 = Session.dayType t
              /\ Session.muscleGroups t2 = Session.muscleGroups t
              /\ Session.energy t2 = Session.energy t
              /\ Session.difficulty t2 = Session.difficulty t
              /\ Session.sleepHours t2 = Session.sleepHours t)
          /\ length (Session.logs t2) = length (Session.logs t)
          /\ forall (i : nat) (l : ExerciseLog.t),
              nth_error (Session.logs t) i = Some l ->
              (ExerciseLog.exerciseId l <> exId -> nth_error (Session.logs t2) i = Some l)
              /\ (ExerciseLog.exerciseId l = exId ->
                  nth_error (Session.logs t2) i = Some (patchLog l lpatch))).
Proof.
  intros Ht. cbv zeta.
  pose proof (today_Some a st t Ht) as Eh.
  rewrite (updateToday_today a patch st t Ht).
  rewrite (updateExerciseLog_today a exId lpatch st t Ht). simpl.
  split.
  - repeat split. rewrite Eh at 2. reflexivity.
  - split; [reflexivity |]. split; [rewrite Eh at 2; reflexivity |].
    split; [reflexivity |].
    eexists. split; [reflexivity |]. simpl.
    split; [reflexivity |]. split; [repeat split |].
    split; [unfold patched_logs; apply length_map |].
    intros i l Hl. rewrite (patched_logs_nth exId lpatch t i l Hl). split.
    + intros Hne. apply String.eqb_neq in Hne. rewrite Hne. reflexivity.
    + intros He. apply String.eqb_eq in He. rewrite He. reflexivity.
Qed.

(** ** The handlers: logs parallel to the workout *)

Lemma patchLog_keeps_id (l : ExerciseLog.t) (patch : LogPatch.t) :
  LogPatch.exerciseId patch = None ->
  ExerciseLog.exerciseId (patchLog l patch) = ExerciseLog.exerciseId l.
Proof. intros H. unfold patchLog. rewrite H. reflexivity. Qed.

Lemma patched_logs_ids (exId : string) (patch : LogPatch.t) (t : Session.t) :
  LogPatch.exerciseId patch = None ->
  map ExerciseLog.exerciseId (patched_logs exId patch t)
  = map ExerciseLog.exerciseId (Session.logs t).
Proof.
  intros H. unfold patched_logs. rewrite map_map. apply map_ext.
  intros l. destruct (String.eqb _ _); [apply patchLog_keeps_id; exact H | reflexivity].
Qed.

Lemma updateToday_logs_match (a : Ambient) (patch : SessionPatch.t) (st : Store.t) :
  SessionPatch.workout patch = None ->
  SessionPatch.logs patch = None ->
  store_logs_match st -> store_logs_match (updateToday P a patch st).
Proof.
  intros Hw Hl Hst. destruct (today P a st) as [t |] eqn:Ht.
  - rewrite (updateToday_today a patch st t Ht).
    unfold store_logs_match in *. rewrite (today_Some a st t Ht) in Hst.
    inversion Hst as [| ? ? Hhd Htl]; subst. simpl. constructor; [| exact Htl].
    unfold logs_match, patchSession in *. simpl. rewrite Hw, Hl. exact Hhd.
  - rewrite (updateToday_not_today a patch st Ht). exact Hst.
Qed.

Lemma updateExerciseLog_logs_match (a : Ambient) (exId : string) (patch : LogPatch.t)
    (st : Store.t) :
  LogPatch.exerciseId patch = None ->
  store_logs_match st -> store_logs_match (updateExerciseLog P a exId patch st).
Proof.
  intros Hid Hst. destruct (today P a st) as [t |] eqn:Ht.
  - rewrite (updateExerciseLog_today a exId patch st t Ht).
    unfold store_logs_match in *. rewrite (today_Some a st t Ht) in Hst.
    inversion Hst as [| ? ? Hhd Htl]; subst. simpl. constructor; [| exact Htl].
    unfold logs_match in *. simpl. rewrite (patched_logs_ids exId patch t Hid).
    exact Hhd.
  - unfold updateExerciseLog. rewrite Ht. exact Hst.
Qed.

(** Generation puts a session in front whose logs match its workout. *)
Lemma generateTodayWorkout_head (a : Ambient) (st : Store.t) (setup : Setup.t) :
  Store.setup st = Some setup ->
  exists s : Session.t,
    generateTodayWorkout P a st = Store.mk (Some setup) (s :: Store.history st)
    /\ logs_match s
    /\ length (Session.workout s) = 5%nat.
Proof.
  intros Hs. unfold generateTodayWorkout. rewrite Hs. cbv zeta.
  eexists. split; [reflexivity |]. split.
  - unfold logs_match. simpl. rewrite map_map. reflexivity.
  - simpl. rewrite length_map. destruct (pickNextDayType (Store.history st)); reflexivity.
Qed.

Lemma generateTodayWorkout_logs_match (a : Ambient) (st : Store.t) :
  store_logs_match st -> store_logs_match (generateTodayWorkout P a st).
Proof.
  intros Hst. destruct (Store.setup st) as [setup |] eqn:Hs.
  - destruct (generateTodayWorkout_head a st setup Hs) as (s & E & Hm & _).
    rewrite E. unfold store_logs_match. simpl. constructor; assumption.
  - unfold generateTodayWorkout. rewrite Hs. exact Hst.
Qed.

Lemma handle_logs_match (a : Ambient) (ev : Event) (st : Store.t) :
  ev <> ClickLoadDemo ->
  store_logs_match st -> store_logs_match (handle P a ev st).
Proof.
  intros Hev Hst. destruct ev; simpl.
  - exact Hst.
  - apply generateTodayWorkout_logs_match. exact Hst.
  - apply updateToday_logs_match; auto.
  - apply updateToday_logs_match; auto.
  - apply updateToday_logs_match; auto.
  - apply updateExerciseLog_logs_match; auto.
  - apply updateExerciseLog_logs_match; auto.
  - apply updateExerciseLog_logs_match; auto.
  - congruence.
  - constructor.
Qed.

(** Both sessions the demo loader installs have five exercises and no
    log. *)
Lemma applyDemoData_breaks_logs_match (a : Ambient) (st : Store.t) :
  ~ store_logs_match (applyDemoData P a st).
Proof.
  unfold store_logs_match, applyDemoData. simpl. intros H.
  inversion H as [| ? ? Hhd _]; subst. unfold logs_match in Hhd. simpl in Hhd.
  discriminate Hhd.
Qed.

End HandlerFacts.

(** ** The local-storage boundary *)

Lemma mapM_map_Some {A B : Type} (rd : B -> option A) (enc : A -> B) (l : list A) :
  (forall x, rd (enc x) = Some x) -> mapM rd (map enc l) = Some l.
Proof.
  intros H. induction l as [| x rest IH]; simpl; [reflexivity |].
  rewrite H. simpl. rewrite IH. reflexivity.
Qed.

Lemma asGoal_toJs (g : Goal) : asGoal (Goal_toJs g) = Some g.
Proof. destruct g; reflexivity. Qed.

Lemma asDayType_toJs (d : DayType) : asDayType (DayType_toJs d) = Some d.
Proof. destruct d; reflexivity. Qed.

Lemma asPrimary_toJs (p : Primary) : asPrimary (Primary_toJs p) = Some p.
Proof. destruct p as [[] |]; reflexivity. Qed.

Lemma asStrings_toJs (l : list string) : asList asStr (strings_toJs l) = Some l.
Proof.
  unfold asList, strings_toJs. simpl. apply mapM_map_Some. reflexivity.
Qed.

Lemma asFiveRM_toJs (r : FiveRM.t) : asFiveRM (FiveRM_toJs r) = Some r.
Proof. destruct r. reflexivity. Qed.

Lemma asSetup_toJs (s : Setup.t) : asSetup (Setup_toJs s) = Some s.
Proof.
  destruct s as [name gender heightIn weightLb goal fiveRM].
  unfold asSetup, Setup_toJs. simpl Setup.name.
  destruct name as [n |]; cbn -[asGoal asFiveRM Goal_toJs FiveRM_toJs];
    rewrite asGoal_toJs; cbn -[asFiveRM FiveRM_toJs];
    rewrite asFiveRM_toJs; reflexivity.
Qed.

Lemma asExercise_toJs (e : Exercise.t) : asExercise (Exercise_toJs e) = Some e.
Proof.
  destruct e as [id name primary muscleGroups sets reps targetWeightLb notes].
  unfold asExercise, Exercise_toJs.
  destruct targetWeightLb as [w |], notes as [n |];
    cbn -[asPrimary Primary_toJs asList strings_toJs];
    rewrite asPrimary_toJs; cbn -[asList strings_toJs];
    rewrite asStrings_toJs; reflexivity.
Qed.

Lemma asExerciseLog_toJs (l : ExerciseLog.t) : asExerciseLog (ExerciseLog_toJs l) = Some l.
Proof.
  destruct l as [exerciseId actualWeightLb actualReps rpe notes].
  unfold asExerciseLog, ExerciseLog_toJs.
  destruct actualWeightLb, actualReps, rpe, notes; reflexivity.
Qed.

Lemma asSession_toJs (s : Session.t) : asSession (Session_toJs s) = Some s.
Proof.
  destruct s as [id dateISO dayType muscleGroups energy difficulty sleepHours
                   workout logs].
  assert (W : asList asExercise (JArr (map Exercise_toJs workout)) = Some workout).
  { unfold asList. simpl. apply mapM_map_Some, asExercise_toJs. }
  assert (L : asList asExerciseLog (JArr (map ExerciseLog_toJs logs)) = Some logs).
  { unfold asList. simpl. apply mapM_map_Some, asExerciseLog_toJs. }
  unfold asSession, Session_toJs.
  destruct sleepHours as [h |];
    cbn -[asDayType DayType_toJs asList strings_toJs];
    rewrite asDayType_toJs; cbn -[asList strings_toJs];
    rewrite asStrings_toJs; cbn -[asList];
    rewrite W; cbn -[asList]; rewrite L; reflexivity.
Qed.

(** The typed reading of what [loadState] returns after a save. *)
Lemma asStore_toJs (setup : option Setup.t) (history : list Session.t) :
  Loaded.asStore
    (Loaded.mk (match setup with Some s => Setup_toJs s | None => JNull end)
               (map Session_toJs history))
  = Some (Store.mk setup history).
Proof.
  unfold Loaded.asStore. cbn [Loaded.setup Loaded.history].
  rewrite (mapM_map_Some asSession Session_toJs history asSession_toJs).
  destruct setup as [s |]; [| reflexivity].
  pose proof (asSetup_toJs s) as H. unfold Setup_toJs in *.
  cbv beta iota. rewrite H. reflexivity.
Qed.

Section PersistenceFacts.
Variable P : Platform.

(** What [loadState] makes of a stored text, case by case. *)
Lemma loadState_cases (storage : gmap string string) :
  match storage !! LS_KEY with
  | None => loadState P storage = Loaded.empty
  | Some raw =>
      match JSON_parse P raw with
      | None => loadState P storage = Loaded.empty
      | Some JNull => loadState P storage = Loaded.empty
      | Some parsed =>
          raw <> EmptyString ->
          loadState P storage
          = Loaded.mk
              (match member "setup" parsed with Some v => v | None => JNull end)
              (match member "history" parsed with Some (JArr items) => items | _ => [] end)
      end
  end.
Proof.
  unfold loadState. destruct (storage !! LS_KEY) as [raw |]; [| reflexivity].
  destruct (String.eqb raw EmptyString) eqn:E.
  - apply String.eqb_eq in E. subst raw.
    destruct (JSON_parse P EmptyString) as [[] |]; try reflexivity; congruence.
  - destruct (JSON_parse P raw) as [[] |]; reflexivity.
Qed.

(** C8, as amended.  [loadState] returns a state for every stored text.  A
    text that does not parse, or parses to [null], gives the empty state.
    A text that parses to something else whose [history] is not a list
    gives the empty history and keeps whatever [setup] the parsed value
    has; the state is the empty one when that [setup] is absent or
    [null]. *)
Theorem loadState_malformed (storage : gmap string string) (raw : string) :
  JSON_parse P EmptyString = None ->
  storage !! LS_KEY = Some raw ->
  (JSON_parse P raw = None -> loadState P storage = Loaded.empty)
  /\ (JSON_parse P raw = Some JNull -> loadState P storage = Loaded.empty)
  /\ (forall parsed : JsValue,
         JSON_parse P raw = Some parsed ->
         (forall items, member "history" parsed <> Some (JArr items)) ->
         Loaded.history (loadState P storage) = []
         /\ (forall v, member "setup" parsed = Some v ->
                       Loaded.setup (loadState P storage) = v)
         /\ (member "setup" parsed = None \/ member "setup" parsed = Some JNull ->
             loadState P storage = Loaded.empty)).
Proof.
  intros Hempty Hraw.
  pose proof (loadState_cases storage) as C. rewrite Hraw in C.
  split; [| split].
  - intros Hp. rewrite Hp in C. exact C.
  - intros Hp. rewrite Hp in C. exact C.
  - intros parsed Hp Hh. rewrite Hp in C.
    assert (Hne : raw <> EmptyString) by (intros ->; congruence).
    assert (E : loadState P storage
                = match parsed with
                  | JNull => Loaded.empty
                  | _ => Loaded.mk
                           (match member "setup" parsed with
                            | Some v => v
                            | None => JNull
                            end) []
                  end).
    { destruct parsed; try exact C; rewrite (C Hne); try reflexivity.
      f_equal. destruct (member "history" (JObj fields)) as [[] |] eqn:Eh;
        try reflexivity.
      exfalso. exact (Hh _ eq_refl). }
    rewrite E. destruct parsed; simpl; repeat split; try discriminate;
      try (intros v -> ; reflexivity);
      try (intros [-> | ->]; reflexivity).
Qed.

End PersistenceFacts.

(** ** The JSON codec of the reference platform *)

Module ReferenceFacts.
Import Reference.
#[local] Arguments String.append !s1 s2 : simpl nomatch.


Lemma append_assoc (a b c : string) : (a ++ b) ++ c = a ++ (b ++ c).
Proof. induction a as [| x a IH]; simpl; [reflexivity | rewrite IH; reflexivity]. Qed.

Lemma length_append (a b : string) :
  String.length (a ++ b) = (String.length a + String.length b)%nat.
Proof. induction a as [| x a IH]; simpl; [reflexivity | rewrite IH; reflexivity]. Qed.

Lemma substring_all (s : string) (m : nat) :
  (String.length s <= m)%nat -> substring 0 m s = s.
Proof.
  revert m. induction s as [| c s IH]; intros m H.
  - destruct m; reflexivity.
  - destruct m as [| m]; simpl in *; [lia |]. rewrite IH; [reflexivity | lia].
Qed.

(** *** String literals *)

Lemma string_body_escaped_char (c : ascii) (t : string) :
  string_body (escaped_char c ++ t)
  = match string_body t with
    | Some (body, r) => Some (String c body, r)
    | None => None
    end.
Proof.
  destruct c as [[] [] [] [] [] [] [] []]; reflexivity.
Qed.

Lemma string_body_escaped (s rest : string) :
  string_body (escaped s ++ String quote rest) = Some (s, rest).
Proof.
  induction s as [| c s IH].
  - reflexivity.
  - cbn [escaped]. rewrite append_assoc, string_body_escaped_char, IH. reflexivity.
Qed.

Lemma quoted_append (s rest : string) :
  quoted s ++ rest = String quote (escaped s ++ String quote rest).
Proof. unfold quoted. simpl. rewrite append_assoc. reflexivity. Qed.

Local Open Scope Z_scope.


Lemma append_empty (a : string) : (a ++ EmptyString)%string = a.
Proof. induction a as [| x a IH]; simpl; [reflexivity | rewrite IH; reflexivity]. Qed.

(** *** Digits *)

Lemma N_of_digit (n : Z) :
  0 <= n <= 9 -> N_of_ascii (digit n) = (48 + Z.to_N n)%N.
Proof.
  intros H. unfold digit. apply N_ascii_embedding.
  assert (Z.to_N n <= 9)%N by (change 9%N with (Z.to_N 9); apply Z2N.inj_le; lia).
  lia.
Qed.

Lemma digit_is_digit (n : Z) : 0 <= n <= 9 -> is_digit (digit n) = true.
Proof.
  intros H. unfold is_digit. rewrite (N_of_digit n H).
  assert (Z.to_N n <= 9)%N by (change 9%N with (Z.to_N 9); apply Z2N.inj_le; lia).
  apply andb_true_iff. split; apply N.leb_le; lia.
Qed.

Lemma digit_value_digit (n : Z) : 0 <= n <= 9 -> digit_value (digit n) = n.
Proof.
  intros H. unfold digit_value. rewrite (N_of_digit n H), N2Z.inj_add, Z2N.id by lia.
  change (Z.of_N 48) with 48. lia.
Qed.

Lemma digit_zero (n : Z) : 0 < n <= 9 -> Ascii.eqb (digit n) "0" = false.
Proof.
  intros H. apply Ascii.eqb_neq. intros E.
  apply (f_equal N_of_ascii) in E. rewrite N_of_digit in E by lia.
  change (N_of_ascii "0") with 48%N in E.
  assert (Z.to_N n = 0%N) by lia.
  assert (n = 0) by (apply Z2N.inj; [lia | lia | assumption]). lia.
Qed.

Lemma all_digits_app (a b : string) :
  all_digits (a ++ b) = all_digits a && all_digits b.
Proof.
  induction a as [| c a IH]; simpl; [reflexivity |].
  rewrite IH. apply andb_assoc.
Qed.

Lemma digits_app (ds rest : string) :
  all_digits ds = true -> head_is is_digit rest = false ->
  digits (ds ++ rest) = (ds, rest).
Proof.
  intros Hd Hr. induction ds as [| c ds IH]; simpl.
  - destruct rest as [| c r]; [reflexivity |]. simpl in Hr. simpl. rewrite Hr. reflexivity.
  - simpl in Hd. apply andb_true_iff in Hd as [Hc Hd].
    rewrite Hc, (IH Hd). reflexivity.
Qed.

Lemma read_app (a : Z) (s t : string) : read a (s ++ t) = read (read a s) t.
Proof. revert a. induction s as [| c s IH]; intros a; simpl; [reflexivity | apply IH]. Qed.

Lemma read_shift (a : Z) (s : string) :
  read a s = a * 10 ^ Z.of_nat (String.length s) + read 0 s.
Proof.
  revert a. induction s as [| c s IH]; intros a.
  - simpl. lia.
  - cbn [read String.length]. rewrite (IH (a * 10 + digit_value c)), (IH (0 * 10 + digit_value c)).
    rewrite Nat2Z.inj_succ, Z.pow_succ_r by lia. ring.
Qed.

(** *** The integer part *)

Lemma numeral_acc_spec (fuel : nat) :
  forall (n : Z) (acc : string),
    0 <= n < 10 ^ Z.of_nat fuel -> fuel <> O ->
    exists (c : ascii) (r : string),
      numeral_acc fuel n acc = (String c r ++ acc)%string
      /\ all_digits (String c r) = true
      /\ read 0 (String c r) = n
      /\ (0 < n -> Ascii.eqb c "0" = false)
      /\ (n = 0 -> r = EmptyString).
Proof.
  induction fuel as [| f IH]; intros n acc H Hf.
  - congruence.
  - clear Hf. cbn [numeral_acc]. cbv zeta.
    assert (Hm : 0 <= n mod 10 <= 9) by (pose proof (Z.mod_pos_bound n 10); lia).
    destruct (n <? 10) eqn:E.
    + apply Z.ltb_lt in E. rewrite Z.mod_small by lia.
      exists (digit n), EmptyString. simpl.
      rewrite digit_is_digit, digit_value_digit by lia.
      repeat split; try reflexivity. intros Hn. apply digit_zero. lia.
    + apply Z.ltb_ge in E.
      assert (Hq : 0 <= n / 10 < 10 ^ Z.of_nat f).
      { split; [apply Z.div_pos; lia |].
        apply Z.div_lt_upper_bound; [lia |].
        rewrite Nat2Z.inj_succ, Z.pow_succ_r in H by lia. lia. }
      assert (Hf : f <> O).
      { intros ->. simpl in Hq.
        assert (1 <= n / 10) by (apply Z.div_le_lower_bound; lia). lia. }
      destruct (IH (n / 10) (String (digit (n mod 10)) acc) Hq Hf)
        as (c & r & E1 & D & R & Z1 & _).
      exists c, (r ++ String (digit (n mod 10)) EmptyString)%string.
      split.
      { rewrite E1. simpl. rewrite append_assoc. reflexivity. }
      split.
      { change (String c (r ++ String (digit (n mod 10)) EmptyString))%string
          with (String c r ++ String (digit (n mod 10)) EmptyString)%string.
        rewrite all_digits_app, D. simpl. rewrite digit_is_digit by lia. reflexivity. }
      split.
      { change (String c (r ++ String (digit (n mod 10)) EmptyString))%string
          with (String c r ++ String (digit (n mod 10)) EmptyString)%string.
        rewrite read_app, R. simpl. rewrite digit_value_digit by lia.
        pose proof (Z.div_mod n 10). lia. }
      split.
      { intros _. apply Z1. assert (1 <= n / 10) by (apply Z.div_le_lower_bound; lia). lia. }
      intros Hn. lia.
Qed.

Lemma numeral_spec (n : Z) (acc : string) :
  0 <= n ->
  exists (c : ascii) (r : string),
    (numeral n ++ acc)%string = (String c r ++ acc)%string
    /\ numeral n = String c r
    /\ all_digits (String c r) = true
    /\ read 0 (String c r) = n
    /\ leading_zero (String c r) = false.
Proof.
  intros H. unfold numeral.
  assert (B : 0 <= n < 10 ^ Z.of_nat (S (Z.to_nat (Z.log2 n)))).
  { split; [exact H |].
    rewrite Nat2Z.inj_succ, Z2Nat.id by apply Z.log2_nonneg.
    destruct (Z.eq_dec n 0) as [-> | Hn]; [reflexivity |].
    destruct (Z.log2_spec n) as [_ U]; [lia |].
    apply Z.lt_le_trans with (2 ^ Z.succ (Z.log2 n)); [exact U |].
    apply Z.pow_le_mono_l. lia. }
  destruct (numeral_acc_spec _ n EmptyString B ltac:(discriminate)) as (c & r & E & D & R & Z1 & Z2).
  rewrite append_empty in E.
  exists c, r. rewrite E. repeat split; try assumption.
  destruct r as [| c' r']; [reflexivity |]. cbn [leading_zero].
  apply Z1. destruct (Z.eq_dec n 0) as [E0 | E0]; [| lia].
  specialize (Z2 E0). discriminate Z2.
Qed.

(** *** The fraction *)

Lemma fraction_digits_spec (fuel : nat) :
  forall r d : Z,
    0 <= r < d ->
    terminates fuel r d = true ->
    all_digits (fraction_digits fuel r d) = true
    /\ read 0 (fraction_digits fuel r d) * d
       = r * 10 ^ Z.of_nat (String.length (fraction_digits fuel r d))
    /\ (r <> 0 -> fraction_digits fuel r d <> EmptyString).
Proof.
  induction fuel as [| f IH]; intros r d Hr T.
  - simpl in T. apply Z.eqb_eq in T. subst r. simpl. repeat split; try lia; try congruence.
  - cbn [fraction_digits terminates] in *.
    destruct (r =? 0) eqn:E.
    + apply Z.eqb_eq in E. subst r. simpl. repeat split; try lia; try congruence.
    + apply Z.eqb_neq in E. simpl in T.
      assert (Hm : 0 <= (r * 10) mod d < d) by (apply Z.mod_pos_bound; lia).
      assert (Hc : 0 <= r * 10 / d <= 9).
      { split; [apply Z.div_pos; lia |].
        assert (r * 10 / d < 10) by (apply Z.div_lt_upper_bound; lia). lia. }
      destruct (IH _ d Hm T) as (D & R & _).
      split; [| split].
      * simpl. rewrite digit_is_digit by exact Hc. exact D.
      * cbn [read String.length]. rewrite digit_value_digit by exact Hc.
        rewrite read_shift, Nat2Z.inj_succ, Z.pow_succ_r by lia.
        pose proof (Z.div_mod (r * 10) d ltac:(lia)) as DM.
        set (L := 10 ^ Z.of_nat (String.length (fraction_digits f ((r * 10) mod d) d))) in *.
        set (c := r * 10 / d) in *. set (r' := (r * 10) mod d) in *.
        set (v := read 0 (fraction_digits f r' d)) in *.
        replace ((0 * 10 + c) * L + v) with (c * L + v) by ring.
        replace ((c * L + v) * d) with (c * d * L + v * d) by ring.
        rewrite R. replace (r * (10 * L)) with ((r * 10) * L) by ring.
        rewrite DM. ring.
      * intros _. discriminate.
Qed.

(** *** What follows a number *)

Lemma closing_head (c : ascii) (r : string) :
  closing (String c r) = true ->
  is_digit c = false /\ Ascii.eqb c "." = false
  /\ Ascii.eqb c "e" || Ascii.eqb c "E" = false
  /\ is_ws c = false.
Proof.
  destruct c as [[] [] [] [] [] [] [] []]; intros H; try discriminate H;
    repeat split; reflexivity.
Qed.

Lemma closing_digits (rest : string) :
  closing rest = true -> head_is is_digit rest = false.
Proof.
  destruct rest as [| c r]; [reflexivity |]. intros H.
  apply closing_head in H as (H & _). exact H.
Qed.

Lemma closing_fraction (rest : string) :
  closing rest = true -> fraction rest = Some (EmptyString, rest).
Proof.
  destruct rest as [| c r]; [reflexivity |]. intros H.
  apply closing_head in H as (_ & H & _). unfold fraction. rewrite H. reflexivity.
Qed.

Lemma closing_exponent (rest : string) :
  closing rest = true -> exponent rest = Some (0, rest).
Proof.
  destruct rest as [| c r]; [reflexivity |]. intros H.
  apply closing_head in H as (_ & _ & H & _). unfold exponent. rewrite H. reflexivity.
Qed.

Lemma is_digit_not_minus (c : ascii) : is_digit c = true -> Ascii.eqb c "-" = false.
Proof.
  destruct c as [[] [] [] [] [] [] [] []]; intros H; try discriminate H; reflexivity.
Qed.

(** *** The number literal *)

Lemma magnitude_text (a d : Z) (fuel : nat) (rest : string) :
  0 <= a -> 0 < d ->
  terminates fuel (a mod d) d = true ->
  closing rest = true ->
  exists q' : Q,
    magnitude (numeral (a / d)
               ++ (if a mod d =? 0 then EmptyString
                   else "." ++ fraction_digits fuel (a mod d) d)
               ++ rest)
    = Some (q', rest)
    /\ Qnum q' * d = a * Zpos (Qden q').
Proof.
  intros Ha Hd T C.
  assert (Hip : 0 <= a / d) by (apply Z.div_pos; lia).
  assert (Hr : 0 <= a mod d < d) by (apply Z.mod_pos_bound; lia).
  pose proof (Z.div_mod a d ltac:(lia)) as DM.
  destruct (numeral_spec (a / d) EmptyString Hip) as (c & r & _ & En & D & R & LZ).
  destruct (fraction_digits_spec fuel _ d Hr T) as (FD & FR & FN).
  unfold magnitude. rewrite En.
  destruct (a mod d =? 0) eqn:E.
  - apply Z.eqb_eq in E.
    change (EmptyString ++ rest)%string with rest.
    rewrite (digits_app _ rest D (closing_digits rest C)), LZ.
    rewrite (closing_fraction rest C), (closing_exponent rest C).
    cbv zeta. rewrite append_empty.
    change (Z.of_nat (String.length EmptyString)) with 0.
    change (0 - 0) with 0. change (0 <=? 0) with true. cbv iota.
    eexists. split; [reflexivity |].
    cbn [Qnum Qden inject_Z]. rewrite R. rewrite Z.pow_0_r. lia.
  - apply Z.eqb_neq in E.
    set (fs := fraction_digits fuel (a mod d) d) in *.
    change (("." ++ fs) ++ rest)%string with (String "." (fs ++ rest)).
    rewrite (digits_app (String c r) (String "." (fs ++ rest)) D eq_refl), LZ.
    unfold fraction. change (Ascii.eqb "." ".") with true. cbv iota.
    rewrite (digits_app fs rest FD (closing_digits rest C)).
    destruct fs as [| f0 fs'] eqn:Efs; [exfalso; apply (FN E); reflexivity |].
    rewrite <- Efs in *. clear Efs.
    assert (Ef : match fs with EmptyString => None | _ => Some (fs, rest) end
                 = Some (fs, rest)) by (destruct fs; [exfalso; apply (FN E) |]; reflexivity).
    cbv iota beta.
    rewrite (closing_exponent rest C). cbv zeta.
    set (L := Z.of_nat (String.length fs)) in *.
    assert (HL : 0 < L).
    { unfold L. destruct fs; [exfalso; apply (FN E); reflexivity |]. simpl. lia. }
    assert (Hk : (0 <=? 0 - L) = false) by (apply Z.leb_gt; lia).
    rewrite Hk. eexists. split; [reflexivity |].
    cbn [Qnum Qden]. rewrite Z2Pos.id by (apply Z.pow_pos_nonneg; lia).
    replace (- (0 - L)) with L by lia.
    rewrite read_app, R, read_shift. fold L.
    replace ((a / d * 10 ^ L + read 0 fs) * d)
      with (a / d * d * 10 ^ L + read 0 fs * d) by ring.
    rewrite FR. fold L. rewrite DM at 3. ring.
Qed.

Lemma number_text_head (q : Q) :
  exists (c : ascii) (r : string),
    number_text q = String c r /\ (c = "-"%char \/ is_digit c = true).
Proof.
  unfold number_text. cbv zeta.
  assert (Hip : 0 <= Z.abs (Qnum q) / Zpos (Qden q)) by (apply Z.div_pos; lia).
  destruct (numeral_spec _ EmptyString Hip) as (c & r & _ & En & D & _).
  rewrite En. destruct (Qnum q <? 0).
  - eexists _, _. split; [reflexivity | left; reflexivity].
  - eexists _, _. split; [reflexivity | right].
    simpl in D. apply andb_true_iff in D as [D _]. exact D.
Qed.

Lemma number_number_text (q : Q) (rest : string) :
  finite_decimal q = true ->
  closing rest = true ->
  number (number_text q ++ rest) = Some (Qred q, rest).
Proof.
  intros F C. unfold finite_decimal in F. unfold number_text. cbv zeta.
  set (n := Qnum q) in *. set (d := Zpos (Qden q)) in *.
  assert (Ha : 0 <= Z.abs n) by lia.
  assert (Hd : 0 < d) by (unfold d; lia).
  destruct (magnitude_text (Z.abs n) d (places (Qden q)) rest Ha Hd F C)
    as (q' & M & V).
  assert (Hip : 0 <= Z.abs n / d) by (apply Z.div_pos; lia).
  destruct (numeral_spec (Z.abs n / d) EmptyString Hip) as (c & r & _ & En & D & _).
  rewrite !append_assoc. unfold number.
  match type of M with magnitude ?b = _ => set (body := b) in * end.
  destruct (n <? 0) eqn:E.
  - change (sign ("-" ++ body)) with (true, body).
    cbv iota beta. rewrite M. f_equal. f_equal. apply Qred_complete.
    apply Z.ltb_lt in E. unfold Qeq. cbn [Qnum Qden Qopp]. fold n. fold d. nia.
  - change (EmptyString ++ body)%string with body.
    assert (S : sign body = (false, body)).
    { unfold body. rewrite En. simpl in D. apply andb_true_iff in D as [D _].
      simpl. rewrite (is_digit_not_minus c D). reflexivity. }
    rewrite S. rewrite M. f_equal. f_equal. apply Qred_complete.
    apply Z.ltb_ge in E. unfold Qeq. fold n. fold d. nia.
Qed.


Lemma terminates_divide (fuel : nat) :
  forall r d : Z,
    0 <= r < d -> (d | r * 10 ^ Z.of_nat fuel) -> terminates fuel r d = true.
Proof.
  induction fuel as [| f IH]; intros r d Hr D.
  - simpl in *. rewrite Z.mul_1_r in D. apply Z.eqb_eq.
    destruct (Z.eq_dec r 0) as [E | E]; [exact E |].
    apply Z.divide_pos_le in D; lia.
  - cbn [terminates]. destruct (r =? 0) eqn:E; [reflexivity |]. simpl.
    apply IH; [apply Z.mod_pos_bound; lia |].
    rewrite Nat2Z.inj_succ, Z.pow_succ_r in D by lia.
    pose proof (Z.div_mod (r * 10) d ltac:(lia)) as DM.
    replace ((r * 10) mod d * 10 ^ Z.of_nat f)
      with (r * (10 * 10 ^ Z.of_nat f) - d * (r * 10 / d * 10 ^ Z.of_nat f)) by nia.
    apply Z.divide_sub_r; [exact D |]. apply Z.divide_factor_l.
Qed.

(** A number whose denominator is [2^a * 5^b] has a finite decimal
    expansion; so has every number with finitely many binary digits. *)
Lemma finite_decimal_pow (q : Q) (a b : Z) :
  0 <= a -> 0 <= b -> Zpos (Qden q) = 2 ^ a * 5 ^ b -> finite_decimal q = true.
Proof.
  intros Ha Hb E. unfold finite_decimal, places.
  set (d := Zpos (Qden q)) in *.
  assert (Hd : 0 < d) by (unfold d; lia).
  apply terminates_divide; [apply Z.mod_pos_bound; lia |].
  rewrite Z2Nat.id by apply Z.log2_nonneg.
  apply Z.divide_mul_r.
  set (L := Z.log2 d).
  assert (P2 : 0 < 2 ^ a) by (apply Z.pow_pos_nonneg; lia).
  assert (P5 : 0 < 5 ^ b) by (apply Z.pow_pos_nonneg; lia).
  assert (A : a <= L).
  { unfold L. rewrite <- (Z.log2_pow2 a Ha). apply Z.log2_le_mono. nia. }
  assert (B : b <= L).
  { unfold L. rewrite <- (Z.log2_pow2 b Hb). apply Z.log2_le_mono.
    assert (2 ^ b <= 5 ^ b) by (apply Z.pow_le_mono_l; lia). nia. }
  replace 10 with (2 * 5) by reflexivity.
  rewrite Z.pow_mul_l, E.
  replace L with (a + (L - a)) at 1 by lia.
  replace L with (b + (L - b)) at 2 by lia.
  rewrite !Z.pow_add_r by lia.
  exists (2 ^ (L - a) * 5 ^ (L - b)). ring.
Qed.

Local Close Scope Z_scope.


Lemma JsValue_ind (P : JsValue -> Prop) :
  P JNull ->
  (forall b, P (JBool b)) ->
  (forall q, P (JNum q)) ->
  (forall s, P (JStr s)) ->
  (forall items, Forall P items -> P (JArr items)) ->
  (forall fields, Forall (fun kv => P (snd kv)) fields -> P (JObj fields)) ->
  forall v, P v.
Proof.
  intros Hnull Hbool Hnum Hstr Harr Hobj.
  fix IH 1. intros v. destruct v as [| b | q | s | items | fields].
  - exact Hnull.
  - apply Hbool.
  - apply Hnum.
  - apply Hstr.
  - apply Harr. induction items as [| x rest IHl]; constructor; [apply IH | exact IHl].
  - apply Hobj. induction fields as [| [k x] rest IHl]; constructor; [apply IH | exact IHl].
Qed.

(** *** The first character of a value's text *)

Lemma number_head_opens (c : ascii) :
  c = "-"%char \/ is_digit c = true ->
  is_ws c = false /\ Ascii.eqb c "]" = false /\ Ascii.eqb c "}" = false.
Proof.
  intros [-> | H]; [repeat split; reflexivity |].
  destruct c as [[] [] [] [] [] [] [] []]; try discriminate H; repeat split; reflexivity.
Qed.

Lemma stringify_head (v : JsValue) :
  exists (c : ascii) (s : string),
    stringify v = String c s
    /\ is_ws c = false /\ Ascii.eqb c "]" = false /\ Ascii.eqb c "}" = false.
Proof.
  destruct v as [| [] | q | s | items | fields];
    try (eexists _, _; split; [reflexivity | repeat split; reflexivity]).
  destruct (number_text_head q) as (c & r & E & H).
  exists c, r. split; [exact E | apply number_head_opens; exact H].
Qed.

(** *** One value *)

Lemma prefix_empty (s : string) : String.prefix EmptyString s = true.
Proof. destruct s; reflexivity. Qed.

Lemma value_null (f : nat) (rest : string) :
  value (S f) ("null" ++ rest) = Some (JNull, rest).
Proof.
  simpl. rewrite prefix_empty, substring_all; [reflexivity |].
  simpl. lia.
Qed.

Lemma value_true (f : nat) (rest : string) :
  value (S f) ("true" ++ rest) = Some (JBool true, rest).
Proof.
  simpl. rewrite prefix_empty, substring_all; [reflexivity |].
  simpl. lia.
Qed.

Lemma value_false (f : nat) (rest : string) :
  value (S f) ("false" ++ rest) = Some (JBool false, rest).
Proof.
  simpl. rewrite prefix_empty, substring_all; [reflexivity |].
  simpl. lia.
Qed.

Lemma value_string (f : nat) (s rest : string) :
  value (S f) (quoted s ++ rest) = Some (JStr s, rest).
Proof.
  rewrite quoted_append.
  change (value (S f) (String quote (escaped s ++ String quote rest)))
    with (match string_body (escaped s ++ String quote rest) with
          | Some (body, r) => Some (JStr body, r)
          | None => None
          end).
  rewrite string_body_escaped. reflexivity.
Qed.

Lemma value_number_head (f : nat) (c : ascii) (r : string) :
  c = "-"%char \/ is_digit c = true ->
  value (S f) (String c r)
  = match number (String c r) with
    | Some (q, r') => Some (JNum q, r')
    | None => None
    end.
Proof.
  intros [-> | H]; [reflexivity |].
  destruct c as [[] [] [] [] [] [] [] []]; try discriminate H; reflexivity.
Qed.

Lemma value_number (f : nat) (q : Q) (rest : string) :
  finite_decimal q = true -> closing rest = true ->
  value (S f) (number_text q ++ rest) = Some (JNum (Qred q), rest).
Proof.
  intros F C.
  pose proof (number_number_text q rest F C) as N.
  destruct (number_text_head q) as (c & r & E & H).
  rewrite E in *. simpl append in *. rewrite (value_number_head f c _ H), N. reflexivity.
Qed.

Lemma value_array (f : nat) (c : ascii) (s : string) :
  is_ws c = false -> Ascii.eqb c "]" = false ->
  value (S f) (String "[" (String c s)) = elements f (String c s) [].
Proof.
  intros W B.
  change (value (S f) (String "[" (String c s)))
    with (match skip_ws (String c s) with
          | String c' rest' =>
              if Ascii.eqb c' "]" then Some (JArr [], rest')
              else elements f (String c s) []
          | EmptyString => elements f (String c s) []
          end).
  cbn [skip_ws]. rewrite W, B. reflexivity.
Qed.

Lemma value_object (f : nat) (c : ascii) (s : string) :
  is_ws c = false -> Ascii.eqb c "}" = false ->
  value (S f) (String "{" (String c s)) = members f (String c s) [].
Proof.
  intros W B.
  change (value (S f) (String "{" (String c s)))
    with (match skip_ws (String c s) with
          | String c' rest' =>
              if Ascii.eqb c' "}" then Some (JObj [], rest')
              else members f (String c s) []
          | EmptyString => members f (String c s) []
          end).
  cbn [skip_ws]. rewrite W, B. reflexivity.
Qed.

Lemma elements_step (f : nat) (s : string) (acc : list JsValue) :
  elements (S f) s acc
  = match value f s with
    | Some (v, r) =>
        match skip_ws r with
        | String "," r' => elements f r' (v :: acc)
        | String "]" r' => Some (JArr (rev (v :: acc)), r')
        | _ => None
        end
    | None => None
    end.
Proof. reflexivity. Qed.

Lemma members_step (f : nat) (k : string) (s : string)
    (acc : list (string * JsValue)) :
  members (S f) (quoted k ++ ":" ++ s) acc
  = match value f s with
    | Some (v, r'') =>
        match skip_ws r'' with
        | String "," r3 => members f r3 (define k v acc)
        | String "}" r3 => Some (JObj (define k v acc), r3)
        | _ => None
        end
    | None => None
    end.
Proof.
  rewrite quoted_append.
  change (members (S f) (String quote (escaped k ++ String quote (":" ++ s))) acc)
    with (match string_body (escaped k ++ String quote (":" ++ s)) with
          | Some (k, r) =>
              match skip_ws r with
              | String ":" r' =>
                  match value f r' with
                  | Some (v, r'') =>
                      match skip_ws r'' with
                      | String "," r3 => members f r3 (define k v acc)
                      | String "}" r3 => Some (JObj (define k v acc), r3)
                      | _ => None
                      end
                  | None => None
                  end
              | _ => None
              end
          | None => None
          end).
  rewrite string_body_escaped. reflexivity.
Qed.

(** *** Lists of elements and members *)

Lemma skip_ws_head (c : ascii) (s : string) :
  is_ws c = false -> skip_ws (String c s) = String c s.
Proof. intros H. cbn [skip_ws]. rewrite H. reflexivity. Qed.

Lemma define_fresh (k : string) (v : JsValue) (acc : list (string * JsValue)) :
  ~ In k (map fst acc) -> define k v acc = (acc ++ [(k, v)])%list.
Proof.
  induction acc as [| [k' v'] acc IH]; intros H; simpl; [reflexivity |].
  simpl in H. destruct (String.eqb k' k) eqn:E.
  - apply String.eqb_eq in E. exfalso. apply H. left. exact E.
  - rewrite IH; [reflexivity |]. intros A. apply H. right. exact A.
Qed.

Lemma elements_joined (items : list JsValue) :
  Forall reads items ->
  forall (x : JsValue) (acc : list JsValue) (fuel : nat) (rest : string),
    reads x ->
    (fold_right (fun y a => S (size y + a)) O (x :: items) <= fuel)%nat ->
    elements fuel (joined (map stringify (x :: items)) ++ String "]" rest) acc
    = Some (JArr (rev acc ++ map canonical (x :: items))%list, rest).
Proof.
  induction 1 as [| y ys Hy Hys IH]; intros x acc fuel rest Hx Hf.
  - destruct fuel as [| f]; [simpl in Hf; lia |].
    rewrite elements_step. cbn [map joined].
    rewrite (Hx f (String "]" rest)); [| simpl in Hf; lia | reflexivity].
    rewrite (skip_ws_head "]" _ eq_refl). reflexivity.
  - destruct fuel as [| f]; [simpl in Hf; lia |].
    rewrite elements_step.
    change (joined (map stringify (x :: y :: ys)))
      with (stringify x ++ "," ++ joined (map stringify (y :: ys))).
    rewrite !append_assoc.
    change ("," ++ joined (map stringify (y :: ys)) ++ String "]" rest)
      with (String "," (joined (map stringify (y :: ys)) ++ String "]" rest)).
    rewrite (Hx f); [| cbn [fold_right] in Hf; lia | reflexivity].
    rewrite (skip_ws_head "," _ eq_refl). cbv iota beta.
    rewrite (IH y (canonical x :: acc) f rest Hy); [| cbn [fold_right] in *; lia].
    cbn [rev map]. rewrite <- app_assoc. reflexivity.
Qed.

Lemma members_joined (fields : list (string * JsValue)) :
  Forall (fun kv => reads (snd kv)) fields ->
  forall (x : string * JsValue) (acc : list (string * JsValue))
         (fuel : nat) (rest : string),
    reads (snd x) ->
    List.NoDup (map fst acc ++ map fst (x :: fields))%list ->
    (fold_right (fun kv a => S (size (snd kv) + a)) O (x :: fields) <= fuel)%nat ->
    members fuel (joined (map member_text (x :: fields)) ++ String "}" rest) acc
    = Some (JObj (acc ++ map canonical_member (x :: fields))%list, rest).
Proof.
  induction 1 as [| y ys Hy Hys IH]; intros [k v] acc fuel rest Hx N Hf.
  - destruct fuel as [| f]; [simpl in Hf; lia |].
    cbn [map joined]. unfold member_text at 1. cbn [fst snd] in *.
    rewrite !append_assoc, members_step.
    rewrite (Hx f (String "}" rest)); [| simpl in Hf; lia | reflexivity].
    rewrite (skip_ws_head "}" _ eq_refl). cbv iota beta.
    rewrite define_fresh; [reflexivity |].
    apply List.NoDup_remove_2 in N. intros A. apply N, in_or_app. left. exact A.
  - destruct fuel as [| f]; [simpl in Hf; lia |].
    change (joined (map member_text ((k, v) :: y :: ys)))
      with (member_text (k, v) ++ "," ++ joined (map member_text (y :: ys))).
    unfold member_text at 1. cbn [fst snd] in *.
    rewrite !append_assoc, members_step.
    change ("," ++ joined (map member_text (y :: ys)) ++ String "}" rest)
      with (String "," (joined (map member_text (y :: ys)) ++ String "}" rest)).
    rewrite (Hx f); [| cbn [fold_right] in Hf; cbn [snd] in Hf; lia | reflexivity].
    rewrite (skip_ws_head "," _ eq_refl). cbv iota beta.
    assert (Fr : ~ In k (map fst acc)).
    { apply List.NoDup_remove_2 in N. intros A. apply N, in_or_app. left. exact A. }
    rewrite (define_fresh k (canonical v) acc Fr).
    rewrite (IH y (acc ++ [(k, canonical v)])%list f rest Hy).
    + cbn [map]. rewrite <- app_assoc. reflexivity.
    + rewrite map_app. cbn [map fst]. rewrite <- app_assoc. exact N.
    + cbn [fold_right] in *. cbn [snd] in Hf. lia.
Qed.

(** *** Every value *)

Lemma joined_head (x : JsValue) (xs : list JsValue) (t : string) :
  exists (c : ascii) (s : string),
    (joined (map stringify (x :: xs)) ++ t)%string = String c s
    /\ is_ws c = false /\ Ascii.eqb c "]" = false.
Proof.
  destruct (stringify_head x) as (c & s & E & W & B & _).
  destruct xs as [| y ys].
  - cbn [map joined]. rewrite E. eexists _, _. split; [reflexivity | split; assumption].
  - change (joined (map stringify (x :: y :: ys)))
      with (stringify x ++ "," ++ joined (map stringify (y :: ys))).
    rewrite E. eexists _, _. split; [reflexivity | split; assumption].
Qed.

Lemma joined_members_head (x : string * JsValue) (xs : list (string * JsValue))
    (t : string) :
  exists s : string,
    (joined (map member_text (x :: xs)) ++ t)%string = String quote s.
Proof.
  destruct xs as [| y ys].
  - cbn [map joined]. unfold member_text, quoted. eexists. reflexivity.
  - change (joined (map member_text (x :: y :: ys)))
      with (member_text x ++ "," ++ joined (map member_text (y :: ys))).
    unfold member_text at 1. unfold quoted. eexists. reflexivity.
Qed.

Lemma value_stringify (v : JsValue) :
  keys_distinct v -> numbers_all finite_decimal v = true -> reads v.
Proof.
  induction v as [| b | q | s | items IH | fields IH] using JsValue_ind;
    intros K N fuel rest Hf C;
    (destruct fuel as [| f]; [simpl in Hf; lia |]).
  - apply value_null.
  - destruct b; [apply value_true | apply value_false].
  - apply value_number; assumption.
  - apply value_string.
  - assert (R : Forall reads items).
    { clear Hf. induction IH as [| x xs Hx _ IHxs]; constructor.
      - apply Hx; [apply K |]. simpl in N. apply andb_true_iff in N. apply N.
      - apply IHxs; [apply K |]. simpl in N. apply andb_true_iff in N. apply N. }
    destruct items as [| x xs]; [reflexivity |].
    inversion R as [| ? ? Rx Rxs]; subst.
    change (stringify (JArr (x :: xs)))
      with ("[" ++ joined (map stringify (x :: xs)) ++ "]").
    rewrite !append_assoc.
    change ("[" ++ joined (map stringify (x :: xs)) ++ "]" ++ rest)
      with (String "[" (joined (map stringify (x :: xs)) ++ String "]" rest)).
    destruct (joined_head x xs (String "]" rest)) as (c & s & E & W & B).
    rewrite E, (value_array f c s W B), <- E.
    rewrite (elements_joined xs Rxs x [] f rest Rx); [reflexivity |].
    cbn [size] in Hf. lia.
  - assert (R : Forall (fun kv => reads (snd kv)) fields).
    { clear Hf. destruct K as [_ K].
      induction IH as [| x xs Hx _ IHxs]; constructor.
      - apply Hx; [apply K |]. simpl in N. apply andb_true_iff in N. apply N.
      - apply IHxs; [apply K |]. simpl in N. apply andb_true_iff in N. apply N. }
    destruct fields as [| x xs]; [reflexivity |].
    inversion R as [| ? ? Rx Rxs]; subst.
    change (stringify (JObj (x :: xs)))
      with ("{" ++ joined (map member_text (x :: xs)) ++ "}").
    rewrite !append_assoc.
    change ("{" ++ joined (map member_text (x :: xs)) ++ "}" ++ rest)
      with (String "{" (joined (map member_text (x :: xs)) ++ String "}" rest)).
    destruct (joined_members_head x xs (String "}" rest)) as (s & E).
    rewrite E, (value_object f quote s eq_refl eq_refl), <- E.
    rewrite (members_joined xs Rxs x [] f rest Rx); [reflexivity | |].
    + destruct K as [K _]. exact K.
    + cbn [size] in Hf. lia.
Qed.

(** *** The length of a text *)

Lemma stringify_nonempty (v : JsValue) : (1 <= String.length (stringify v))%nat.
Proof.
  destruct (stringify_head v) as (c & s & E & _). rewrite E. simpl. lia.
Qed.

Lemma size_le_length (v : JsValue) : (size v <= String.length (stringify v))%nat.
Proof.
  induction v as [| b | q | s | items IH | fields IH] using JsValue_ind;
    try apply stringify_nonempty.
  - change (stringify (JArr items)) with ("[" ++ joined (map stringify items) ++ "]").
    rewrite !length_append. cbn [size String.length].
    assert (B : (fold_right (fun x acc => S (size x + acc)) 0 items
                 <= String.length (joined (map stringify items)) + 1)%nat).
    { induction IH as [| x xs Hx Hxs IHxs]; [simpl; lia |].
      destruct xs as [| y ys].
      - simpl. lia.
      - change (joined (map stringify (x :: y :: ys)))
          with (stringify x ++ "," ++ joined (map stringify (y :: ys))).
        rewrite !length_append. cbn [fold_right] in *.
        cbn [String.length]. lia. }
    lia.
  - change (stringify (JObj fields)) with ("{" ++ joined (map member_text fields) ++ "}").
    rewrite !length_append. cbn [size String.length].
    assert (B : (fold_right (fun kv acc => S (size (snd kv) + acc)) 0 fields
                 <= String.length (joined (map member_text fields)) + 1)%nat).
    { induction IH as [| x xs Hx Hxs IHxs]; [simpl; lia |].
      assert (M : (S (size (snd x)) <= String.length (member_text x))%nat).
      { unfold member_text, quoted. rewrite !length_append.
        cbn [String.length]. lia. }
      destruct xs as [| y ys].
      - cbn [fold_right map joined]. lia.
      - change (joined (map member_text (x :: y :: ys)))
          with (member_text x ++ "," ++ joined (map member_text (y :: ys))).
        rewrite !length_append. cbn [fold_right] in *.
        cbn [String.length]. lia. }
    lia.
Qed.

(** [JSON.parse] reads back what [JSON.stringify] writes, each number in
    lowest terms. *)
Lemma parse_stringify (v : JsValue) :
  keys_distinct v -> numbers_all finite_decimal v = true ->
  parse (stringify v) = Some (canonical v).
Proof.
  intros K N. unfold parse.
  pose proof (value_stringify v K N (S (String.length (stringify v))) EmptyString) as R.
  rewrite append_empty in R.
  rewrite R; [reflexivity | | reflexivity].
  pose proof (size_le_length v). lia.
Qed.

End ReferenceFacts.

(** ** Saving and loading on the reference platform *)

Lemma canonical_list {A : Type} (enc : A -> JsValue) (f : A -> A) (l : list A) :
  (forall x, canonical (enc x) = enc (f x)) ->
  map canonical (map enc l) = map enc (map f l).
Proof.
  intros H. rewrite !map_map. apply map_ext. exact H.
Qed.

Lemma canonical_strings (l : list string) : map canonical (map JStr l) = map JStr l.
Proof. rewrite map_map. apply map_ext. reflexivity. Qed.

Lemma canonical_Setup_toJs (s : Setup.t) :
  canonical (Setup_toJs s) = Setup_toJs (Setup_canonical s).
Proof. destruct s as [[n |] gender heightIn weightLb goal fiveRM]; reflexivity. Qed.

Lemma canonical_Exercise_toJs (e : Exercise.t) :
  canonical (Exercise_toJs e) = Exercise_toJs (Exercise_canonical e).
Proof.
  destruct e as [id name primary muscleGroups sets reps [w |] [n |]];
    unfold Exercise_toJs, Exercise_canonical, strings_toJs; simpl;
    rewrite canonical_strings; reflexivity.
Qed.

Lemma canonical_ExerciseLog_toJs (l : ExerciseLog.t) :
  canonical (ExerciseLog_toJs l) = ExerciseLog_toJs (ExerciseLog_canonical l).
Proof.
  destruct l as [exerciseId [w |] [r |] [p |] [n |]]; reflexivity.
Qed.

Lemma canonical_Session_toJs (s : Session.t) :
  canonical (Session_toJs s) = Session_toJs (Session_canonical s).
Proof.
  destruct s as [id dateISO dayType muscleGroups energy difficulty [h |] workout logs];
    unfold Session_toJs, Session_canonical, strings_toJs; simpl;
    rewrite canonical_strings,
      (canonical_list Exercise_toJs Exercise_canonical workout canonical_Exercise_toJs),
      (canonical_list ExerciseLog_toJs ExerciseLog_canonical logs
         canonical_ExerciseLog_toJs);
    reflexivity.
Qed.

(** The property names of the saved value are pairwise distinct, object by
    object. *)
Lemma keys_distinct_items {A : Type} (enc : A -> JsValue) (l : list A) :
  (forall x, keys_distinct (enc x)) -> keys_distinct (JArr (map enc l)).
Proof.
  intros H. induction l as [| x rest IH]; simpl; [exact I |].
  split; [apply H | exact IH].
Qed.

Ltac distinct_names :=
  repeat (apply List.NoDup_cons; [simpl; intuition discriminate |]);
  apply List.NoDup_nil.

Lemma keys_distinct_strings (l : list string) : keys_distinct (strings_toJs l).
Proof. apply keys_distinct_items. intros x. exact I. Qed.

Lemma keys_distinct_Setup (s : Setup.t) : keys_distinct (Setup_toJs s).
Proof.
  destruct s as [[n |] gender heightIn weightLb goal fiveRM];
    (split; [distinct_names |]); simpl; repeat split; distinct_names.
Qed.

Lemma keys_distinct_Exercise (e : Exercise.t) : keys_distinct (Exercise_toJs e).
Proof.
  destruct e as [id name primary muscleGroups sets reps [w |] [n |]];
    (split; [distinct_names |]);
    cbn -[keys_distinct strings_toJs]; cbn [keys_distinct];
    repeat split; apply keys_distinct_strings.
Qed.

Lemma keys_distinct_ExerciseLog (l : ExerciseLog.t) : keys_distinct (ExerciseLog_toJs l).
Proof.
  destruct l as [exerciseId [w |] [r |] [p |] [n |]];
    (split; [distinct_names |]); simpl; repeat split.
Qed.

Lemma keys_distinct_Session (s : Session.t) : keys_distinct (Session_toJs s).
Proof.
  pose proof (keys_distinct_items Exercise_toJs (Session.workout s) keys_distinct_Exercise)
    as W.
  pose proof (keys_distinct_items ExerciseLog_toJs (Session.logs s)
                keys_distinct_ExerciseLog) as L.
  pose proof (keys_distinct_strings (Session.muscleGroups s)) as M.
  destruct s as [id dateISO dayType muscleGroups energy difficulty [h |] workout logs];
    cbn [Session.workout Session.logs Session.muscleGroups] in *;
    (split; [distinct_names |]);
    cbn [Session_toJs Session.id Session.dateISO Session.dayType Session.muscleGroups
         Session.energy Session.difficulty Session.sleepHours Session.workout
         Session.logs optional app fold_right snd];
    repeat split; assumption.
Qed.

Lemma keys_distinct_Store (setup : option Setup.t) (history : list Session.t) :
  keys_distinct (Store_toJs setup history).
Proof.
  pose proof (keys_distinct_items Session_toJs history keys_distinct_Session) as H.
  split; [distinct_names |].
  cbn [fold_right snd]. split; [| split; [exact H | exact I]].
  destruct setup as [s |]; [apply keys_distinct_Setup | exact I].
Qed.

(** A state in lowest terms is the same state. *)
Lemma same_optional_Qred (o : option Q) : same_optional (option_map Qred o) o.
Proof. destruct o as [q |]; simpl; [apply Qred_correct | exact I]. Qed.

Lemma Forall2_map_same {A : Type} (R : A -> A -> Prop) (f : A -> A) (l : list A) :
  (forall x, R (f x) x) -> Forall2 R (map f l) l.
Proof. intros H. induction l as [| x rest IH]; simpl; constructor; auto. Qed.

Lemma Setup_canonical_same (s : Setup.t) : Setup_same (Setup_canonical s) s.
Proof.
  unfold Setup_same, FiveRM_same. simpl. repeat split; apply Qred_correct.
Qed.

Lemma Exercise_canonical_same (e : Exercise.t) : Exercise_same (Exercise_canonical e) e.
Proof.
  unfold Exercise_same. simpl.
  repeat split; try apply Qred_correct; apply same_optional_Qred.
Qed.

Lemma ExerciseLog_canonical_same (l : ExerciseLog.t) :
  ExerciseLog_same (ExerciseLog_canonical l) l.
Proof. unfold ExerciseLog_same. simpl. repeat split; apply same_optional_Qred. Qed.

Lemma Session_canonical_same (s : Session.t) : Session_same (Session_canonical s) s.
Proof.
  unfold Session_same. simpl.
  repeat split; try apply Qred_correct; try apply same_optional_Qred.
  - apply Forall2_map_same, Exercise_canonical_same.
  - apply Forall2_map_same, ExerciseLog_canonical_same.
Qed.

Lemma Store_canonical_same (st : Store.t) : Store_same (Store_canonical st) st.
Proof.
  unfold Store_same. simpl. split.
  - destruct (Store.setup st) as [s |]; simpl; [apply Setup_canonical_same | exact I].
  - apply Forall2_map_same, Session_canonical_same.
Qed.

(** What [loadState] returns after [saveState], on the reference
    platform. *)
Lemma loaded_after_save (setup : option Setup.t) (history : list Session.t)
    (storage : gmap string string) :
  Store_finite_decimal setup history = true ->
  loadState reference (saveState reference setup history storage)
  = Loaded.mk
      (match setup with Some s => Setup_toJs (Setup_canonical s) | None => JNull end)
      (map Session_toJs (map Session_canonical history)).
Proof.
  intros F.
  pose proof (ReferenceFacts.parse_stringify (Store_toJs setup history)
                (keys_distinct_Store setup history) F) as R.
  pose proof (loadState_cases reference (saveState reference setup history storage)) as C.
  unfold saveState in C. rewrite lookup_insert_eq in C.
  change (JSON_parse reference) with Reference.parse in C.
  change (JSON_stringify reference) with Reference.stringify in C.
  rewrite R in C.
  change (canonical (Store_toJs setup history))
    with (JObj [ ("setup", canonical (match setup with
                                      | Some s => Setup_toJs s
                                      | None => JNull
                                      end));
                 ("history", JArr (map canonical (map Session_toJs history))) ]) in C.
  cbv iota in C. unfold saveState.
  change (JSON_stringify reference) with Reference.stringify. rewrite C.
  - cbn [member prop String.eqb]. simpl.
    rewrite (canonical_list Session_toJs Session_canonical history canonical_Session_toJs).
    destruct setup as [s |]; [rewrite canonical_Setup_toJs |]; reflexivity.
  - intros E. discriminate E.
Qed.

(** C7, as amended.  For every state whose numbers have a finite decimal
    expansion (which every finite number of the page has), [loadState]
    after [saveState] returns the saved state: the same profile, or none
    if none was saved, and the same N sessions in the same order, every
    field equal, numbers being compared as numbers.  Here [JSON.stringify]
    and [JSON.parse] are those of the reference platform, and nothing is
    assumed of them. *)
Theorem loadState_saveState (setup : option Setup.t) (history : list Session.t)
    (storage : gmap string string) :
  Store_finite_decimal setup history = true ->
  let loaded := loadState reference (saveState reference setup history storage) in
  Loaded.asStore loaded = Some (Store_canonical (Store.mk setup history))
  /\ Store_same (Store_canonical (Store.mk setup history)) (Store.mk setup history)
  /\ length (Loaded.history loaded) = length history.
Proof.
  intros F. cbv zeta. rewrite (loaded_after_save setup history storage F).
  split; [| split].
  - pose proof (asStore_toJs (option_map Setup_canonical setup)
                  (map Session_canonical history)) as H.
    destruct setup as [s |]; exact H.
  - apply Store_canonical_same.
  - cbn [Loaded.history]. rewrite !length_map. reflexivity.
Qed.

(** C7, as stated, fails.  With a bench 5RM of 1.7e308 the target that
    workout generation computes is [Infinity]; [JSON.stringify] writes it
    as [null], and the exercise that comes back has [null] where the saved
    one had a number. *)
Lemma infinite_target_not_reloaded :
  IEEE.bench_overflow = PrimFloat.infinity
  /\ IEEE.toJs IEEE.bench_overflow = JNull
  /\ Reference.parse
       (Reference.stringify
          (JObj [("targetWeightLb", IEEE.toJs IEEE.bench_overflow)]))
     = Some (JObj [("targetWeightLb", JNull)])
  /\ opt asNum "targetWeightLb" [("targetWeightLb", JNull)] = None.
Proof. repeat split; vm_compute; reflexivity. Qed.

Lemma loadState_saveState_witness :
  Loaded.asStore
    (loadState reference
       (saveState reference (Store.setup loggedStore) (Store.history loggedStore) ∅))
  = Some (Store_canonical loggedStore)
  /\ length (Store.history loggedStore) = 1%nat.
Proof.
  destruct (loadState_saveState (Store.setup loggedStore) (Store.history loggedStore) ∅)
    as (H & _ & _).
  - vm_compute. reflexivity.
  - split; [exact H | reflexivity].
Defined.

(** The saved text of that state, read back by running the parser. *)
Lemma loggedStore_reloaded :
  option_map (numbers_all (fun q => Qeq_bool q (Qred q)))
    (Reference.parse
       (Reference.stringify
          (Store_toJs (Store.setup loggedStore) (Store.history loggedStore))))
  = Some true
  /\ Reference.parse
       (Reference.stringify
          (Store_toJs (Store.setup loggedStore) (Store.history loggedStore)))
     = Some (canonical (Store_toJs (Store.setup loggedStore) (Store.history loggedStore))).
Proof. split; vm_compute; reflexivity. Qed.

(** Every target weight generation computes, and every multiple of 2.5,
    has a finite decimal expansion. *)
Lemma grid_finite_decimal (k : Z) :
  Reference.finite_decimal (inject_Z k * 2.5) = true.
Proof.
  apply (ReferenceFacts.finite_decimal_pow _ 1 1); [lia | lia | reflexivity].
Qed.

Lemma computeTargetWeightLb_finite_decimal (setup : Setup.t) (history : list Session.t)
    (lift : LiftKey) (dayType : DayType) :
  Reference.finite_decimal (computeTargetWeightLb setup history lift dayType) = true.
Proof. unfold computeTargetWeightLb, roundTo2_5. cbv zeta. apply grid_finite_decimal. Qed.

(** ** Runs on the reference platform *)

Lemma update_frame_witness :
  today reference monday_evening generatedStore = Some generatedSession
  /\ tl (Store.history (updateToday reference monday_evening harder generatedStore))
     = tl (Store.history generatedStore)
  /\ Store.setup (updateExerciseLog reference monday_evening
                    "ex_0_1709573400000" lifted150 generatedStore)
     = Store.setup generatedStore.
Proof.
  assert (T : today reference monday_evening generatedStore = Some generatedSession)
    by (vm_compute; reflexivity).
  destruct (update_frame reference monday_evening generatedStore generatedSession
              harder "ex_0_1709573400000" lifted150 T)
    as ((_ & _ & H1 & _) & (H2 & _)).
  split; [exact T |]. split; [exact H1 | exact H2].
Defined.

(** The first log of the generated session is the one patched. *)
Lemma updateExerciseLog_on_generated :
  option_map ExerciseLog.actualWeightLb
    (hd_error (Session.logs
       (hd (bareSession Full)
           (Store.history (updateExerciseLog reference monday_evening
                             "ex_0_1709573400000" lifted150 generatedStore)))))
  = Some (Some 150).
Proof. vm_compute. reflexivity. Qed.

(** C6, as stated, fails: the store after "Load demo data" is reachable and
    holds sessions with five exercises and an empty log list. *)
Lemma demo_store_breaks_logs_match :
  reachable reference demoStore
  /\ ~ store_logs_match demoStore
  /\ map (fun s => (length (Session.workout s), length (Session.logs s)))
         (Store.history demoStore)
     = [(5%nat, 0%nat); (5%nat, 0%nat)].
Proof.
  split; [| split].
  - unfold demoStore. apply reachable_event, reachable_mount.
  - unfold demoStore. simpl handle. apply applyDemoData_breaks_logs_match.
  - reflexivity.
Qed.

Lemma loadState_malformed_witness :
  loadState reference {[ LS_KEY := "not json" ]} = Loaded.empty
  /\ loadState reference {[ LS_KEY := "null" ]} = Loaded.empty
  /\ Loaded.history (loadState reference {[ LS_KEY := malformedRaw ]}) = []
  /\ loadState reference {[ LS_KEY := "[1,2]" ]} = Loaded.empty.
Proof.
  assert (E : JSON_parse reference EmptyString = None) by reflexivity.
  split; [| split; [| split]].
  - destruct (loadState_malformed reference {[ LS_KEY := "not json" ]} "not json" E
                (lookup_singleton_eq _ _)) as (H & _).
    apply H. vm_compute. reflexivity.
  - destruct (loadState_malformed reference {[ LS_KEY := "null" ]} "null" E
                (lookup_singleton_eq _ _)) as (_ & H & _).
    apply H. vm_compute. reflexivity.
  - destruct (loadState_malformed reference {[ LS_KEY := malformedRaw ]} malformedRaw E
                (lookup_singleton_eq _ _)) as (_ & _ & H).
    destruct (H malformedParsed) as (H1 & _).
    + vm_compute. reflexivity.
    + intros items. vm_compute. discriminate.
    + exact H1.
  - destruct (loadState_malformed reference {[ LS_KEY := "[1,2]" ]} "[1,2]" E
                (lookup_singleton_eq _ _)) as (_ & _ & H).
    destruct (H (JArr [JNum 1; JNum 2])) as (_ & _ & H3).
    + vm_compute. reflexivity.
    + intros items. discriminate.
    + apply H3. left. reflexivity.
Defined.

(** C8, as stated, fails: the stored text
    [{"setup":{"goal":"Strength"},"history":"oops"}] parses, its [history]
    is not a list, and [loadState] returns its [setup] rather than none. *)
Lemma loadState_keeps_setup_of_malformed :
  JSON_parse reference malformedRaw = Some malformedParsed
  /\ member "history" malformedParsed = Some (JStr "oops")
  /\ loadState reference {[ LS_KEY := malformedRaw ]}
     = Loaded.mk (JObj [("goal", JStr "Strength")]) []
  /\ loadState reference {[ LS_KEY := malformedRaw ]} <> Loaded.empty.
Proof.
  assert (E : loadState reference {[ LS_KEY := malformedRaw ]}
              = Loaded.mk (JObj [("goal", JStr "Strength")]) []).
  { unfold loadState. rewrite lookup_singleton_eq. vm_compute. reflexivity. }
  split; [vm_compute; reflexivity |].
  split; [reflexivity |].
  split; [exact E |].
  rewrite E. discriminate.
Qed.

(** ** The scenarios on binary64 *)

Module IEEEFacts.
Import PrimFloat.
#[local] Set Warnings "-inexact-float".

(** The worked scenario gives 165 in floating point too. *)
Lemma ieee_bench_225 : IEEE.bench_225 = 165%float.
Proof. vm_compute. reflexivity. Qed.

Lemma ieee_bench_after_175 : IEEE.bench_after_175 = 180%float.
Proof. vm_compute. reflexivity. Qed.

(** The target 260 above the upper clamp bound, in floating point. *)
Lemma ieee_squat_exceeds_upper_bound :
  IEEE.squat_after_257_5 = 260%float
  /\ ltb IEEE.squat_upper_bound IEEE.squat_after_257_5 = true.
Proof. split; vm_compute; reflexivity. Qed.

Lemma ieee_squat_negative : IEEE.squat_negative = (-57.5)%float.
Proof. vm_compute. reflexivity. Qed.

(** Where binary64 leaves the rational model.  A 5RM of 1.7e308 overflows:
    the target is [infinity], which is on no grid, within no bound, and
    which JSON writes as [null]. *)
Lemma ieee_overflow :
  IEEE.bench_overflow = infinity
  /\ IEEE.to_Q IEEE.bench_overflow = None
  /\ IEEE.toJs IEEE.bench_overflow = JNull.
Proof. repeat split; vm_compute; reflexivity. Qed.

(** A deadlift 5RM of 500 on a Full day of a Hypertrophy profile: the
    exact baseline 341.25 is a rounding tie, the binary64 one is just
    below it, and the code prescribes 340 where the model has 342.5. *)
Lemma ieee_tie_deadlift_500 :
  IEEE.full_day_fraction = 0.6499999999999999%float
  /\ IEEE.deadlift_500_full_baseline = 341.24999999999994%float
  /\ IEEE.deadlift_500_full = 340%float.
Proof. repeat split; vm_compute; reflexivity. Qed.

(** A finite target is the number of the model, has a finite decimal
    expansion, and comes back from its JSON text. *)
Lemma ieee_finite_stored :
  canonical (IEEE.toJs IEEE.bench_225) = JNum 165
  /\ numbers_all Reference.finite_decimal (IEEE.toJs IEEE.bench_225) = true
  /\ Reference.parse (Reference.stringify (IEEE.toJs IEEE.bench_225)) = Some (JNum 165).
Proof. repeat split; vm_compute; reflexivity. Qed.

End IEEEFacts.

(** The binary64 kernel against the model: the same number on the worked
    scenarios, and the neighbouring grid value at the rounding tie. *)
Lemma ieee_agrees_on_scenarios :
  option_map Qred (IEEE.to_Q IEEE.bench_225)
  = Some (Qred (computeTargetWeightLb initialDraftSetup [] bench Push))
  /\ option_map Qred (IEEE.to_Q IEEE.bench_after_175)
     = Some (Qred (computeTargetWeightLb initialDraftSetup [easyBench175] bench Push))
  /\ option_map Qred (IEEE.to_Q IEEE.squat_after_257_5)
     = Some (Qred (computeTargetWeightLb initialDraftSetup [easySquat257_5] squat Legs)).
Proof. repeat split; vm_compute; reflexivity. Qed.

Lemma ieee_differs_at_tie :
  option_map Qred (IEEE.to_Q IEEE.deadlift_500_full) = Some 340
  /\ computeTargetWeightLb deadlift500Setup [] deadlift Full == 342.5
  /\ baselineTarget deadlift500Setup deadlift Full == 341.25.
Proof. repeat split; vm_compute; reflexivity. Qed.

(* ================================================================== *)
(** * Further properties                                                *)
(* ================================================================== *)

(** ** Rounding to the 2.5 grid *)

Lemma Qfloor_unique (x : Q) (k : Z) :
  inject_Z k <= x -> x < inject_Z k + 1 -> Qfloor x = k.
Proof.
  intros Hlo Hhi.
  pose proof (Qfloor_le x) as F1. pose proof (Qlt_floor x) as F2.
  rewrite inject_Z_plus in F2. change (inject_Z 1) with 1 in F2.
  assert (A : (Qfloor x < k + 1)%Z).
  { rewrite Zlt_Qlt, inject_Z_plus. change (inject_Z 1) with 1.
    set (f := inject_Z (Qfloor x)) in *. set (c := inject_Z k) in *. lra. }
  assert (B : (k < Qfloor x + 1)%Z).
  { rewrite Zlt_Qlt, inject_Z_plus. change (inject_Z 1) with 1.
    set (f := inject_Z (Qfloor x)) in *. set (c := inject_Z k) in *. lra. }
  lia.
Qed.

Lemma Math_round_unique (x : Q) (k : Z) :
  inject_Z k - 0.5 <= x -> x < inject_Z k + 0.5 -> Math_round x = k.
Proof.
  intros Hlo Hhi. unfold Math_round. apply Qfloor_unique.
  - set (c := inject_Z k) in *. lra.
  - set (c := inject_Z k) in *. lra.
Qed.

Lemma Math_round_mono (x y : Q) : x <= y -> (Math_round x <= Math_round y)%Z.
Proof. intros H. unfold Math_round. apply Qfloor_resp_le. lra. Qed.

Lemma roundTo2_5_mono (x y : Q) : x <= y -> roundTo2_5 x <= roundTo2_5 y.
Proof.
  intros H. unfold roundTo2_5.
  assert (M : (Math_round (x / 2.5) <= Math_round (y / 2.5))%Z).
  { apply Math_round_mono. rewrite (div_2_5 x), (div_2_5 y). lra. }
  rewrite Zle_Qle in M.
  set (a := inject_Z (Math_round (x / 2.5))) in *.
  set (b := inject_Z (Math_round (y / 2.5))) in *. lra.
Qed.

Lemma roundTo2_5_of_multiple (k : Z) :
  roundTo2_5 (inject_Z k * 2.5) == inject_Z k * 2.5.
Proof.
  unfold roundTo2_5.
  rewrite (Math_round_unique (inject_Z k * 2.5 / 2.5) k); [reflexivity | |].
  - rewrite (div_2_5 (inject_Z k * 2.5)). set (c := inject_Z k). lra.
  - rewrite (div_2_5 (inject_Z k * 2.5)). set (c := inject_Z k). lra.
Qed.

(** X1.  [roundTo2_5] returns a multiple of 2.5, and one nearest to its
    argument: no multiple of 2.5 is closer.  A multiple of 2.5 is returned
    as it is, and an argument half-way between two multiples goes to the
    upper one. *)
Theorem roundTo2_5_nearest (x : Q) :
  (exists k : Z, roundTo2_5 x == inject_Z k * 2.5)
  /\ (forall k : Z, Qabs (x - roundTo2_5 x) <= Qabs (x - inject_Z k * 2.5))
  /\ (forall k : Z, x == inject_Z k * 2.5 -> roundTo2_5 x == x)
  /\ (forall k : Z, x == inject_Z k * 2.5 + 1.25 ->
                    roundTo2_5 x == inject_Z (k + 1) * 2.5).
Proof.
  split; [| split; [| split]].
  - exists (Math_round (x / 2.5)). reflexivity.
  - intros k.
    destruct (roundTo2_5_near x) as [Hlo Hhi].
    assert (Hr : Qabs (x - roundTo2_5 x) <= 1.25).
    { apply Qabs_Qle_condition. split; lra. }
    unfold roundTo2_5 in *.
    set (K := Math_round (x / 2.5)) in *.
    destruct (Z.lt_trichotomy k K) as [Hk | [Hk | Hk]].
    + assert (A : (k + 1 <= K)%Z) by lia.
      rewrite Zle_Qle, inject_Z_plus in A. change (inject_Z 1) with 1 in A.
      apply Qle_trans with 1.25; [exact Hr |].
      apply Qle_trans with (x - inject_Z k * 2.5); [| apply Qle_Qabs].
      set (a := inject_Z k) in *. set (b := inject_Z K) in *. lra.
    + subst k. apply Qle_refl.
    + assert (A : (K + 1 <= k)%Z) by lia.
      rewrite Zle_Qle, inject_Z_plus in A. change (inject_Z 1) with 1 in A.
      apply Qle_trans with 1.25; [exact Hr |].
      apply Qle_trans with (- (x - inject_Z k * 2.5)).
      * set (a := inject_Z k) in *. set (b := inject_Z K) in *. lra.
      * rewrite <- Qabs_opp. apply Qle_Qabs.
  - intros k E. rewrite (roundTo2_5_comp _ _ E), roundTo2_5_of_multiple.
    symmetry. exact E.
  - intros k E. rewrite (roundTo2_5_comp _ _ E). unfold roundTo2_5.
    rewrite (Math_round_unique ((inject_Z k * 2.5 + 1.25) / 2.5) (k + 1));
      [reflexivity | |].
    + rewrite (div_2_5 (inject_Z k * 2.5 + 1.25)), inject_Z_plus.
      change (inject_Z 1) with 1. set (c := inject_Z k). lra.
    + rewrite (div_2_5 (inject_Z k * 2.5 + 1.25)), inject_Z_plus.
      change (inject_Z 1) with 1. set (c := inject_Z k). lra.
Qed.

Lemma roundTo2_5_nearest_witness :
  roundTo2_5 165 == 165 /\ roundTo2_5 166.25 == 167.5.
Proof.
  destruct (roundTo2_5_nearest 165) as (_ & _ & Hfix & _).
  destruct (roundTo2_5_nearest 166.25) as (_ & _ & _ & Htie).
  split.
  - apply (Hfix 66%Z). reflexivity.
  - rewrite (Htie 66%Z); reflexivity.
Defined.

(** ** Clamping *)

Lemma clamp_mono (n n' lo lo' hi hi' : Q) :
  n <= n' -> lo <= lo' -> hi <= hi' -> clamp n lo hi <= clamp n' lo' hi'.
Proof.
  intros Hn Hl Hh. unfold clamp, Math_max, Math_min.
  apply Q.max_le_compat; [exact Hl |].
  apply Q.min_le_compat; assumption.
Qed.

(** X2.  [clamp n min max] is never below [min].  With [min <= max] it
    lies in [[min, max]], leaves a value of that interval unchanged and is
    idempotent; with the bounds out of order ([max < min]) it returns
    [min] whatever [n] is. *)
Theorem clamp_behaviour (n lo hi : Q) :
  lo <= clamp n lo hi
  /\ (lo <= hi ->
      clamp n lo hi <= hi
      /\ (lo <= n <= hi -> clamp n lo hi == n)
      /\ clamp (clamp n lo hi) lo hi == clamp n lo hi)
  /\ (hi < lo -> clamp n lo hi == lo).
Proof.
  split; [| split].
  - unfold clamp, Math_max. apply Q.le_max_l.
  - intros H. destruct (clamp_between n lo hi H) as [A B].
    split; [exact B |]. split.
    + intros [Hl Hh]. apply clamp_inside; assumption.
    + apply clamp_inside; assumption.
  - intros H. apply clamp_crossed. lra.
Qed.

Lemma clamp_behaviour_witness :
  clamp 7 1 5 <= 5 /\ clamp 3 1 5 == 3 /\ clamp 3 5 1 == 5.
Proof.
  destruct (clamp_behaviour 7 1 5) as (_ & H1 & _).
  destruct (clamp_behaviour 3 1 5) as (_ & H2 & _).
  destruct (clamp_behaviour 3 5 1) as (_ & _ & H3).
  destruct H1 as (A & _); [lra |].
  destruct H2 as (_ & B & _); [lra |].
  split; [exact A |].
  split; [apply B; split; lra | apply H3; lra].
Defined.

(** ** Target weight: baseline, zero 5RM, dependence on the 5RM *)


Lemma targetBeforeClamp_not_found (setup : Setup.t) (history : list Session.t)
    (lift : LiftKey) (dayType : DayType) :
  findLastLiftPerformance history lift = None ->
  targetBeforeClamp setup history lift dayType = baselineTarget setup lift dayType.
Proof. intros H. unfold targetBeforeClamp. cbv zeta. rewrite H. reflexivity. Qed.



(** X4.  A 5RM of zero (or a missing one, read as zero) gives the target
    0 whatever the history holds: both clamp bounds are 0. *)
Theorem computeTargetWeightLb_zero_5RM (setup : Setup.t) (history : list Session.t)
    (lift : LiftKey) (dayType : DayType) :
  fiveRM_get (Setup.fiveRM setup) lift == 0 ->
  computeTargetWeightLb setup history lift dayType == 0.
Proof.
  intros H5. unfold computeTargetWeightLb. cbv zeta.
  assert (Etm : tMax_of setup lift == 0).
  { rewrite tMax_of_value, H5. reflexivity. }
  set (t := targetBeforeClamp setup history lift dayType).
  assert (Ec : clamp t (tMax_of setup lift * 0.55) (tMax_of setup lift * 0.9) == 0).
  { rewrite (clamp_comp t t _ 0 _ 0);
      [ | reflexivity | rewrite Etm; reflexivity | rewrite Etm; reflexivity ].
    destruct (clamp_between t 0 0) as [A B]; [lra |]. lra. }
  rewrite (roundTo2_5_comp _ _ Ec). reflexivity.
Qed.

Lemma computeTargetWeightLb_zero_5RM_witness :
  computeTargetWeightLb
    (Setup.mk None "Male" 70 180 Strength (FiveRM.mk 0 275 315 135 185))
    [easyBench175] bench Push == 0.
Proof.
  apply computeTargetWeightLb_zero_5RM. simpl. reflexivity.
Defined.

Lemma targetBeforeClamp_mono (s1 s2 : Setup.t) (history : list Session.t)
    (lift : LiftKey) (dayType : DayType) :
  Setup.goal s1 = Setup.goal s2 ->
  tMax_of s1 lift <= tMax_of s2 lift ->
  targetBeforeClamp s1 history lift dayType <= targetBeforeClamp s2 history lift dayType.
Proof.
  intros Hg Htm. unfold targetBeforeClamp. cbv zeta.
  assert (Hb : baselineTarget s1 lift dayType <= baselineTarget s2 lift dayType).
  { unfold baselineTarget. cbv zeta. rewrite Hg.
    destruct (Setup.goal s2), dayType; nra. }
  destruct (findLastLiftPerformance history lift) as [last |]; [| exact Hb].
  destruct (Exercise.targetWeightLb (Performance.exercise last)) as [w |]; [| exact Hb].
  destruct (truthy w); [apply Qle_refl | exact Hb].
Qed.

(** X5.  The target never goes down when the 5RM goes up: for two profiles
    with the same goal, the same history, lift and day type, a larger 5RM
    gives a target at least as large. *)
Theorem computeTargetWeightLb_mono_5RM (s1 s2 : Setup.t) (history : list Session.t)
    (lift : LiftKey) (dayType : DayType) :
  Setup.goal s1 = Setup.goal s2 ->
  fiveRM_get (Setup.fiveRM s1) lift <= fiveRM_get (Setup.fiveRM s2) lift ->
  computeTargetWeightLb s1 history lift dayType
  <= computeTargetWeightLb s2 history lift dayType.
Proof.
  intros Hg H5.
  assert (Htm : tMax_of s1 lift <= tMax_of s2 lift).
  { rewrite !tMax_of_value. lra. }
  unfold computeTargetWeightLb. cbv zeta.
  apply roundTo2_5_mono. apply clamp_mono.
  - apply targetBeforeClamp_mono; assumption.
  - lra.
  - lra.
Qed.

Lemma computeTargetWeightLb_mono_5RM_witness :
  computeTargetWeightLb
    (Setup.mk None "Male" 70 180 Hypertrophy (FiveRM.mk 200 275 315 135 185))
    [easyBench175] bench Push
  <= computeTargetWeightLb initialDraftSetup [easyBench175] bench Push.
Proof.
  apply computeTargetWeightLb_mono_5RM.
  - reflexivity.
  - simpl. lra.
Defined.

(** ** Target weight: progression on the grid *)

Lemma bump_of_values (d e : Q) :
  bump_of d e = 5 \/ bump_of d e = 2.5 \/ bump_of d e = -5 \/ bump_of d e = 0.
Proof.
  unfold bump_of.
  destruct (Qle_bool d 2 && Qle_bool 4 e); [auto |].
  destruct (Qeq_bool d 3); [auto |].
  destruct (Qle_bool 4 d || Qle_bool e 2); auto.
Qed.

Lemma bump_of_multiple (d e : Q) :
  exists j : Z, bump_of d e == inject_Z j * 2.5.
Proof.
  destruct (bump_of_values d e) as [E | [E | [E | E]]]; rewrite E.
  - exists 2%Z. reflexivity.
  - exists 1%Z. reflexivity.
  - exists (-2)%Z. reflexivity.
  - exists 0%Z. reflexivity.
Qed.

(** X6.  Progression is exact on the 2.5 grid: when the last prescribed
    weight is a multiple of 2.5 and that weight plus the bump lies inside
    the clamp interval, the new target is exactly the last weight plus the
    bump, so it differs from the last weight by at most 5. *)
Theorem computeTargetWeightLb_exact_progression (setup : Setup.t)
    (history : list Session.t) (lift : LiftKey) (dayType : DayType)
    (last : Performance.t) (lastW : Q) (k : Z) :
  findLastLiftPerformance history lift = Some last ->
  Exercise.targetWeightLb (Performance.exercise last) = Some lastW ->
  lastW == inject_Z k * 2.5 ->
  let bump := bump_of (Session.difficulty (Performance.session last))
                      (Session.energy (Performance.session last)) in
  let tMax := tMax_of setup lift in
  tMax * 0.55 <= lastW + bump ->
  lastW + bump <= tMax * 0.9 ->
  let w := computeTargetWeightLb setup history lift dayType in
  w == lastW + bump /\ lastW - 5 <= w /\ w <= lastW + 5.
Proof.
  intros F T Ek. cbv zeta. intros Hlo Hhi.
  set (b := bump_of (Session.difficulty (Performance.session last))
                    (Session.energy (Performance.session last))) in *.
  assert (E : computeTargetWeightLb setup history lift dayType == lastW + b).
  { unfold computeTargetWeightLb. cbv zeta.
    rewrite (targetBeforeClamp_found setup history lift dayType last lastW F T).
    fold b.
    rewrite (roundTo2_5_comp _ (lastW + b)); [| apply clamp_inside; assumption].
    destruct (bump_of_multiple (Session.difficulty (Performance.session last))
                (Session.energy (Performance.session last))) as (j & Ej).
    fold b in Ej.
    rewrite (roundTo2_5_comp _ (inject_Z (k + j) * 2.5)).
    - rewrite roundTo2_5_of_multiple, inject_Z_plus, Ek, Ej. ring.
    - rewrite inject_Z_plus, Ek, Ej. ring. }
  split; [exact E |]. rewrite E.
  destruct (bump_of_values (Session.difficulty (Performance.session last))
              (Session.energy (Performance.session last))) as [B | [B | [B | B]]];
    fold b in B; rewrite B; split; lra.
Qed.

Lemma computeTargetWeightLb_exact_progression_witness :
  computeTargetWeightLb initialDraftSetup [easyBench175] bench Full == 175 + 5.
Proof.
  destruct (computeTargetWeightLb_exact_progression initialDraftSetup
              [easyBench175] bench Full _ 175 70%Z eq_refl eq_refl) as (H & _).
  - reflexivity.
  - vm_compute. discriminate.
  - vm_compute. discriminate.
  - exact H.
Defined.

(** X7.  Only the most recent prescription counts: when the most recent
    session has an exercise for the lift with a non-zero target, the older
    sessions do not influence the result; and once such a prescription
    exists, neither the goal nor the day type does (for equal 5RM). *)
Theorem computeTargetWeightLb_most_recent_only (s : Session.t) (lift : LiftKey) :
  ~ Forall (no_target lift) (Session.workout s) ->
  (forall (setup : Setup.t) (rest rest' : list Session.t) (dayType : DayType),
      computeTargetWeightLb setup (s :: rest) lift dayType
      = computeTargetWeightLb setup (s :: rest') lift dayType)
  /\ (forall (s1 s2 : Setup.t) (rest : list Session.t) (d1 d2 : DayType),
         fiveRM_get (Setup.fiveRM s1) lift == fiveRM_get (Setup.fiveRM s2) lift ->
         computeTargetWeightLb s1 (s :: rest) lift d1
         == computeTargetWeightLb s2 (s :: rest) lift d2).
Proof.
  intros Hs.
  destruct (findInWorkout s lift (Session.workout s)) as [p |] eqn:F.
  2: { exfalso. apply Hs. apply (findInWorkout_None s). exact F. }
  assert (L : forall rest, findLastLiftPerformance (s :: rest) lift = Some p).
  { intros rest. simpl. rewrite F. reflexivity. }
  destruct (findLastLiftPerformance_Some [s] lift p (L [])) as (_ & _ & _ & w & T & _).
  split.
  - intros setup rest rest' dayType. unfold computeTargetWeightLb. cbv zeta.
    rewrite (targetBeforeClamp_found setup (s :: rest) lift dayType p w (L rest) T).
    rewrite (targetBeforeClamp_found setup (s :: rest') lift dayType p w (L rest') T).
    reflexivity.
  - intros s1 s2 rest d1 d2 E5. unfold computeTargetWeightLb. cbv zeta.
    rewrite (targetBeforeClamp_found s1 (s :: rest) lift d1 p w (L rest) T).
    rewrite (targetBeforeClamp_found s2 (s :: rest) lift d2 p w (L rest) T).
    assert (Etm : tMax_of s1 lift == tMax_of s2 lift).
    { rewrite !tMax_of_value, E5. reflexivity. }
    apply roundTo2_5_comp. apply clamp_comp; [reflexivity | |]; rewrite Etm; reflexivity.
Qed.

Lemma computeTargetWeightLb_most_recent_only_witness :
  computeTargetWeightLb initialDraftSetup [easyBench175; zeroBench] bench Push
  = computeTargetWeightLb initialDraftSetup [easyBench175] bench Push.
Proof.
  destruct (computeTargetWeightLb_most_recent_only easyBench175 bench) as (H & _).
  - intros A. inversion A as [| ? ? Hex _]; subst.
    specialize (Hex eq_refl). vm_compute in Hex. discriminate Hex.
  - apply H.
Defined.

(** X8.  Without a recorded prescription and with a non-negative 5RM, the
    goals order the target: Health at most Hypertrophy at most Strength;
    and, whatever the goal, a Full day never prescribes more than another
    day type. *)
Theorem computeTargetWeightLb_goal_order (history : list Session.t) (lift : LiftKey) :
  findLastLiftPerformance history lift = None ->
  (forall (sH sY sS : Setup.t) (dayType : DayType),
      Setup.goal sH = Health -> Setup.goal sY = Hypertrophy ->
      Setup.goal sS = Strength ->
      fiveRM_get (Setup.fiveRM sH) lift == fiveRM_get (Setup.fiveRM sY) lift ->
      fiveRM_get (Setup.fiveRM sY) lift == fiveRM_get (Setup.fiveRM sS) lift ->
      0 <= fiveRM_get (Setup.fiveRM sY) lift ->
      computeTargetWeightLb sH history lift dayType
      <= computeTargetWeightLb sY history lift dayType
      /\ computeTargetWeightLb sY history lift dayType
         <= computeTargetWeightLb sS history lift dayType)
  /\ (forall (setup : Setup.t) (dayType : DayType),
         0 <= fiveRM_get (Setup.fiveRM setup) lift ->
         computeTargetWeightLb setup history lift Full
         <= computeTargetWeightLb setup history lift dayType).
Proof.
  intros Hnone. split.
  - intros sH sY sS dayType GH GY GS E1 E2 H5.
    pose proof (tMax_of_value sH lift) as TH.
    pose proof (tMax_of_value sY lift) as TY.
    pose proof (tMax_of_value sS lift) as TS.
    assert (Htm : 0 <= tMax_of sY lift) by (rewrite TY; lra).
    assert (EH : tMax_of sH lift == tMax_of sY lift) by (rewrite TH, TY, E1; reflexivity).
    assert (ES : tMax_of sS lift == tMax_of sY lift) by (rewrite TS, TY, E2; reflexivity).
    unfold computeTargetWeightLb. cbv zeta.
    rewrite !(targetBeforeClamp_not_found _ history lift _ Hnone).
    unfold baselineTarget. cbv zeta. rewrite GH, GY, GS.
    set (tm := tMax_of sY lift) in *.
    set (th := tMax_of sH lift) in *. set (ts := tMax_of sS lift) in *.
    split; apply roundTo2_5_mono; apply clamp_mono;
      try lra; destruct dayType; nra.
  - intros setup dayType H5.
    pose proof (tMax_of_value setup lift) as T.
    assert (Htm : 0 <= tMax_of setup lift) by (rewrite T; lra).
    unfold computeTargetWeightLb. cbv zeta.
    rewrite !(targetBeforeClamp_not_found _ history lift _ Hnone).
    unfold baselineTarget. cbv zeta.
    set (tm := tMax_of setup lift) in *.
    apply roundTo2_5_mono; apply clamp_mono; try lra.
    destruct (Setup.goal setup), dayType; nra.
Qed.

Lemma computeTargetWeightLb_goal_order_witness :
  computeTargetWeightLb
    (Setup.mk None "Male" 70 180 Health (FiveRM.mk 225 275 315 135 185)) [] row Pull
  <= computeTargetWeightLb initialDraftSetup [] row Pull
  /\ computeTargetWeightLb
       (Setup.mk None "Male" 70 180 Strength (FiveRM.mk 225 275 315 135 185)) [] row Full
     <= computeTargetWeightLb
          (Setup.mk None "Male" 70 180 Strength (FiveRM.mk 225 275 315 135 185)) [] row Pull.
Proof.
  destruct (computeTargetWeightLb_goal_order [] row eq_refl) as (Hgoal & Hfull).
  split.
  - destruct (Hgoal
                (Setup.mk None "Male" 70 180 Health (FiveRM.mk 225 275 315 135 185))
                initialDraftSetup
                (Setup.mk None "Male" 70 180 Strength (FiveRM.mk 225 275 315 135 185))
                Pull) as (H1 & _); try reflexivity.
    + simpl. lra.
    + exact H1.
  - apply Hfull. simpl. lra.
Defined.

(** ** The last-performance search: first match *)

Lemma findInWorkout_first (s : Session.t) (lift : LiftKey)
    (exs1 exs2 : list Exercise.t) (ex : Exercise.t) :
  Forall (no_target lift) exs1 ->
  ~ no_target lift ex ->
  findInWorkout s lift (exs1 ++ ex :: exs2)%list
  = Some (Performance.mk s ex
            (find (fun l => String.eqb (ExerciseLog.exerciseId l) (Exercise.id ex))
                  (Session.logs s))).
Proof.
  intros H1 Hex. induction exs1 as [| e rest IH]; simpl.
  - destruct (Primary_is (Exercise.primary ex) lift
              && truthy_opt (Exercise.targetWeightLb ex)) eqn:G; [reflexivity |].
    exfalso. apply Hex. apply no_target_guard. exact G.
  - inversion H1 as [| ? ? He Hrest]; subst.
    apply no_target_guard in He. rewrite He. apply IH. exact Hrest.
Qed.

(** X9.  The search returns the first match in reading order: the most
    recent session that has an exercise for the lift with a non-zero
    target, the first such exercise of its workout list, and with it the
    first log entry carrying that exercise's identifier, if there is
    one. *)
Theorem findLastLiftPerformance_first_match (pre post : list Session.t)
    (s : Session.t) (exs1 exs2 : list Exercise.t) (ex : Exercise.t) (lift : LiftKey) :
  Forall (fun s' => Forall (no_target lift) (Session.workout s')) pre ->
  Session.workout s = (exs1 ++ ex :: exs2)%list ->
  Forall (no_target lift) exs1 ->
  ~ no_target lift ex ->
  findLastLiftPerformance (pre ++ s :: post)%list lift
  = Some (Performance.mk s ex
            (find (fun l => String.eqb (ExerciseLog.exerciseId l) (Exercise.id ex))
                  (Session.logs s))).
Proof.
  intros Hpre Hw H1 Hex. induction pre as [| s' rest IH]; simpl.
  - rewrite Hw, (findInWorkout_first s lift exs1 exs2 ex H1 Hex). reflexivity.
  - inversion Hpre as [| ? ? Hs' Hrest]; subst.
    apply (findInWorkout_None s') in Hs'. rewrite Hs'. apply IH. exact Hrest.
Qed.

Lemma findLastLiftPerformance_first_match_witness :
  option_map Performance.session
    (findLastLiftPerformance [zeroBench; easyBench175; easySquat257_5] bench)
  = Some easyBench175.
Proof.
  assert (A : Forall (fun s' => Forall (no_target bench) (Session.workout s'))
                     [zeroBench]).
  { constructor; [| constructor]. constructor; [| constructor].
    intros _. simpl. reflexivity. }
  assert (D : ~ no_target bench
                (Exercise.mk "ex_a" "Barbell Bench Press" (lift_of bench) [] 4 "6-10"
                             (Some 175) None)).
  { intros H. specialize (H eq_refl). vm_compute in H. discriminate H. }
  pose proof (findLastLiftPerformance_first_match [zeroBench] [easySquat257_5]
                easyBench175 [] [] _ bench A eq_refl (List.Forall_nil _) D) as H.
  simpl app in H. rewrite H. reflexivity.
Defined.

(** ** Day-type selector: window, no repetition, rotation *)

Lemma pickNextDayType_window (h1 h2 : list Session.t) :
  map Session.dayType (firstn 4 h1) = map Session.dayType (firstn 4 h2) ->
  pickNextDayType h1 = pickNextDayType h2.
Proof.
  intros E. unfold pickNextDayType. cbv zeta. rewrite E.
  destruct (find _ order); [reflexivity |].
  destruct h1 as [| a1 r1], h2 as [| a2 r2]; simpl in E; try discriminate;
    [reflexivity |].
  injection E as E0 _. rewrite E0. reflexivity.
Qed.

(** X10.  [pickNextDayType] reads the four most recent sessions only, and
    of them only the day types: histories that agree there get the same
    answer, so dropping everything older changes nothing. *)
Theorem pickNextDayType_four_most_recent (h1 h2 : list Session.t) :
  (map Session.dayType (firstn 4 h1) = map Session.dayType (firstn 4 h2) ->
   pickNextDayType h1 = pickNextDayType h2)
  /\ pickNextDayType h1 = pickNextDayType (firstn 4 h1).
Proof.
  split; [apply pickNextDayType_window |].
  apply pickNextDayType_window. rewrite firstn_firstn. reflexivity.
Qed.

Lemma pickNextDayType_four_most_recent_witness :
  pickNextDayType [bareSession Pull; bareSession Push; bareSession Full;
                   bareSession Legs; bareSession Legs]
  = pickNextDayType [bareSession Pull; bareSession Push; bareSession Full;
                     bareSession Legs; bareSession Push; bareSession Push].
Proof.
  destruct (pickNextDayType_four_most_recent
              [bareSession Pull; bareSession Push; bareSession Full;
               bareSession Legs; bareSession Legs]
              [bareSession Pull; bareSession Push; bareSession Full;
               bareSession Legs; bareSession Push; bareSession Push]) as (H & _).
  apply H. reflexivity.
Defined.

(** X11.  [pickNextDayType] never answers with the day type of the most
    recent session; indeed its answer does not occur in the recent window
    at all, unless the window holds all four day types. *)
Theorem pickNextDayType_no_repeat (s0 : Session.t) (rest : list Session.t) :
  let recent := map Session.dayType (firstn 4 (s0 :: rest)) in
  pickNextDayType (s0 :: rest) <> Session.dayType s0
  /\ (~ In (pickNextDayType (s0 :: rest)) recent \/ forall dt, In dt recent).
Proof.
  cbv zeta. unfold pickNextDayType. cbv zeta.
  set (recent := map Session.dayType (firstn 4 (s0 :: rest))).
  assert (Hin : In (Session.dayType s0) recent) by (left; reflexivity).
  destruct (find (fun dt => negb (includes recent dt)) order) as [dt |] eqn:F.
  - apply find_some in F as [_ F]. apply negb_true_iff, includes_not_In in F.
    split; [| left; exact F]. intros E. apply F. rewrite E. exact Hin.
  - rewrite rotation_is_cyclic_next. split.
    + generalize (Session.dayType s0). intros d E.
      destruct d; simpl in E; discriminate E.
    + right. intros dt. apply includes_In.
      pose proof (find_none _ _ F dt) as N.
      destruct (includes recent dt) eqn:I; [reflexivity |].
      exfalso. assert (In dt order) by (destruct dt; simpl; auto).
      specialize (N H). cbv beta in N. rewrite I in N. discriminate N.
Qed.

(** ** The handlers, event by event *)

Section PageFacts.
Variable P : Platform.

Lemma generateTodayWorkout_eq (a : Ambient) (st : Store.t) (setup : Setup.t) :
  Store.setup st = Some setup ->
  generateTodayWorkout P a st
  = Store.mk (Some setup)
             (newSession P a setup (Store.history st) :: Store.history st).
Proof. intros H. unfold generateTodayWorkout. rewrite H. reflexivity. Qed.

Lemma updateExerciseLog_with_logs (a : Ambient) (exId : string) (patch : LogPatch.t)
    (st : Store.t) (t : Session.t) :
  today P a st = Some t ->
  updateExerciseLog P a exId patch st
  = Store.mk (Store.setup st)
             (with_logs t (patched_logs exId patch t) :: tl (Store.history st)).
Proof. apply updateExerciseLog_today. Qed.

(** What an event does to the history: nothing, a new session in front,
    a patch of the first session, the demo history, or the empty one. *)
Lemma handle_history_events (a : Ambient) (ev : Event) (st : Store.t) :
  handle P a ev st = st
  \/ (exists setup, Store.setup st = Some setup
                    /\ handle P a ev st
                       = Store.mk (Some setup)
                           (newSession P a setup (Store.history st) :: Store.history st))
  \/ (exists t patch, Store.history st = t :: tl (Store.history st)
                      /\ ui_session_patch patch
                      /\ handle P a ev st
                         = Store.mk (Store.setup st)
                             (patchSession t patch :: tl (Store.history st)))
  \/ (exists t exId patch, Store.history st = t :: tl (Store.history st)
                           /\ ui_log_patch patch
                           /\ handle P a ev st
                              = Store.mk (Store.setup st)
                                  (with_logs t (patched_logs exId patch t)
                                   :: tl (Store.history st)))
  \/ (exists draft, handle P a ev st = Store.mk (Some draft) (Store.history st))
  \/ (ev = ClickLoadDemo
      /\ handle P a ev st = Store.mk (Some demoSetup) (demoHistory P a))
  \/ (ev = ClickReset /\ handle P a ev st = emptyStore).
Proof.
  destruct ev; simpl.
  - right. right. right. right. left. eexists. reflexivity.
  - destruct (Store.setup st) as [setup |] eqn:Hs.
    + right. left. exists setup. split; [reflexivity |].
      apply generateTodayWorkout_eq. exact Hs.
    + left. unfold generateTodayWorkout. rewrite Hs. reflexivity.
  - destruct (today P a st) as [t |] eqn:Ht.
    + right. right. left. eexists t, _. split; [apply (today_Some P a st t Ht) |].
      split; [apply (ui_energy v) |]. apply updateToday_today. exact Ht.
    + left. apply updateToday_not_today. exact Ht.
  - destruct (today P a st) as [t |] eqn:Ht.
    + right. right. left. eexists t, _. split; [apply (today_Some P a st t Ht) |].
      split; [apply (ui_difficulty v) |]. apply updateToday_today. exact Ht.
    + left. apply updateToday_not_today. exact Ht.
  - destruct (today P a st) as [t |] eqn:Ht.
    + right. right. left. eexists t, _. split; [apply (today_Some P a st t Ht) |].
      split; [apply (ui_sleep v) |]. apply updateToday_today. exact Ht.
    + left. apply updateToday_not_today. exact Ht.
  - destruct (today P a st) as [t |] eqn:Ht.
    + right. right. right. left. eexists t, exId, _.
      split; [apply (today_Some P a st t Ht) |].
      split; [apply (ui_weight v) |]. apply updateExerciseLog_with_logs. exact Ht.
    + left. unfold updateExerciseLog. rewrite Ht. reflexivity.
  - destruct (today P a st) as [t |] eqn:Ht.
    + right. right. right. left. eexists t, exId, _.
      split; [apply (today_Some P a st t Ht) |].
      split; [apply (ui_reps v) |]. apply updateExerciseLog_with_logs. exact Ht.
    + left. unfold updateExerciseLog. rewrite Ht. reflexivity.
  - destruct (today P a st) as [t |] eqn:Ht.
    + right. right. right. left. eexists t, exId, _.
      split; [apply (today_Some P a st t Ht) |].
      split; [apply (ui_rpe v) |]. apply updateExerciseLog_with_logs. exact Ht.
    + left. unfold updateExerciseLog. rewrite Ht. reflexivity.
  - right. right. right. right. right. left. split; reflexivity.
  - right. right. right. right. right. right. split; reflexivity.
Qed.

Lemma handle_history (a : Ambient) (ev : Event) (st : Store.t) :
  handle P a ev st = st
  \/ (exists setup, Store.setup st = Some setup
                    /\ handle P a ev st
                       = Store.mk (Some setup)
                           (newSession P a setup (Store.history st) :: Store.history st))
  \/ (exists t patch, Store.history st = t :: tl (Store.history st)
                      /\ ui_session_patch patch
                      /\ handle P a ev st
                         = Store.mk (Store.setup st)
                             (patchSession t patch :: tl (Store.history st)))
  \/ (exists t exId patch, Store.history st = t :: tl (Store.history st)
                           /\ ui_log_patch patch
                           /\ handle P a ev st
                              = Store.mk (Store.setup st)
                                  (with_logs t (patched_logs exId patch t)
                                   :: tl (Store.history st)))
  \/ (exists draft, handle P a ev st = Store.mk (Some draft) (Store.history st))
  \/ handle P a ev st = Store.mk (Some demoSetup) (demoHistory P a)
  \/ handle P a ev st = emptyStore.
Proof.
  destruct (handle_history_events a ev st)
    as [E | [E | [E | [E | [E | [(_ & E) | (_ & E)]]]]]]; tauto.
Qed.

(** A property of sessions that generation and the demo data establish
    and the patches of the controls keep holds throughout every reachable
    store. *)
Lemma reachable_sessions (I : Session.t -> Prop) :
  (forall a setup history, I (newSession P a setup history)) ->
  (forall a, Forall I (demoHistory P a)) ->
  (forall t patch, ui_session_patch patch -> I t -> I (patchSession t patch)) ->
  (forall t exId patch, ui_log_patch patch -> I t ->
                        I (with_logs t (patched_logs exId patch t))) ->
  forall st, reachable P st -> Forall I (Store.history st).
Proof.
  intros Hnew Hdemo Hsp Hlp st R. induction R as [| a ev st R IH].
  - constructor.
  - destruct (handle_history a ev st)
      as [E | [(setup & _ & E) | [(t & patch & Eh & Hp & E)
         | [(t & exId & patch & Eh & Hp & E) | [(draft & E) | [E | E]]]]]];
      rewrite E; simpl; try assumption.
    + constructor; [apply Hnew | exact IH].
    + rewrite Eh in IH. inversion IH; subst.
      constructor; [apply Hsp; assumption | assumption].
    + rewrite Eh in IH. inversion IH; subst.
      constructor; [apply Hlp; assumption | assumption].
    + apply Hdemo.
    + constructor.
Qed.

(** One event keeps such a property of the sessions of any store. *)
Lemma handle_sessions (I : Session.t -> Prop) :
  (forall a setup history, I (newSession P a setup history)) ->
  (forall a, Forall I (demoHistory P a)) ->
  (forall t patch, ui_session_patch patch -> I t -> I (patchSession t patch)) ->
  (forall t exId patch, ui_log_patch patch -> I t ->
                        I (with_logs t (patched_logs exId patch t))) ->
  forall a ev st, Forall I (Store.history st) ->
                  Forall I (Store.history (handle P a ev st)).
Proof.
  intros Hnew Hdemo Hsp Hlp a ev st IH.
  destruct (handle_history a ev st)
    as [E | [(setup & _ & E) | [(t & patch & Eh & Hp & E)
       | [(t & exId & patch & Eh & Hp & E) | [(draft & E) | [E | E]]]]]];
    rewrite E; simpl; try assumption.
  - constructor; [apply Hnew | exact IH].
  - rewrite Eh in IH. inversion IH; subst.
    constructor; [apply Hsp; assumption | assumption].
  - rewrite Eh in IH. inversion IH; subst.
    constructor; [apply Hlp; assumption | assumption].
  - apply Hdemo.
  - constructor.
Qed.

Lemma newSession_logs_match (a : Ambient) (setup : Setup.t)
    (history : list Session.t) :
  logs_match (newSession P a setup history).
Proof. unfold logs_match, newSession. simpl. rewrite map_map. reflexivity. Qed.

Lemma demoHistory_without_logs (a : Ambient) :
  Forall (fun s => Session.logs s = []) (demoHistory P a).
Proof. unfold demoHistory. cbv zeta. repeat constructor. Qed.

Lemma patchSession_logs_match_or_empty (t : Session.t) (patch : SessionPatch.t) :
  ui_session_patch patch ->
  (logs_match t -> logs_match (patchSession t patch))
  /\ (Session.logs t = [] -> Session.logs (patchSession t patch) = []).
Proof. intros Hp. destruct Hp; split; intros H; exact H. Qed.

Lemma patched_logs_match_or_empty (t : Session.t) (exId : string)
    (patch : LogPatch.t) :
  ui_log_patch patch ->
  (logs_match t -> logs_match (with_logs t (patched_logs exId patch t)))
  /\ (Session.logs t = [] ->
      Session.logs (with_logs t (patched_logs exId patch t)) = []).
Proof.
  intros Hp. split.
  - intros H. unfold logs_match. cbn [with_logs Session.logs Session.workout].
    rewrite patched_logs_ids; [exact H |]. destruct Hp; reflexivity.
  - intros H. cbn [with_logs Session.logs]. unfold patched_logs. rewrite H.
    reflexivity.
Qed.

(** Whether each session has its logs parallel to its workout: an event
    other than the demo load and the reset leaves this as it is, session
    by session, or puts a session with parallel logs in front. *)
Lemma handle_forms (a : Ambient) (ev : Event) (st : Store.t) :
  ev <> ClickLoadDemo -> ev <> ClickReset ->
  forms (handle P a ev st) = forms st
  \/ forms (handle P a ev st) = true :: forms st.
Proof.
  intros Hd Hr. unfold forms.
  destruct (handle_history_events a ev st)
    as [E | [(setup & _ & E) | [(t & patch & Eh & Hp & E)
       | [(t & exId & patch & Eh & Hp & E) | [(draft & E) | [(Ed & _) | (Er & _)]]]]]].
  - left. rewrite E. reflexivity.
  - right. rewrite E. cbn [Store.history map]. f_equal.
    apply bool_decide_eq_true_2. apply newSession_logs_match.
  - left. rewrite E. cbn [Store.history]. rewrite Eh at 2. cbn [map]. f_equal.
    destruct Hp; reflexivity.
  - left. rewrite E. cbn [Store.history]. rewrite Eh at 2. cbn [map]. f_equal.
    unfold logs_matchb. cbn [with_logs Session.logs Session.workout].
    rewrite patched_logs_ids; [reflexivity |]. destruct Hp; reflexivity.
  - left. rewrite E. reflexivity.
  - contradiction.
  - contradiction.
Qed.

End PageFacts.

(** C6, as amended.  In every store the page can reach, every session's
    log list either has exactly one entry per exercise of its workout
    list, in the same order and with that exercise's identifier, or is
    empty; every event keeps this.  Workout generation gives the session
    it adds the one-entry-per-exercise form; the two sessions of the demo
    data have the empty one.  An event other than the demo load and the
    reset leaves every session in the form it has (saving the setup,
    session edits, per-exercise logging) or adds a session of the first
    form in front (generation), also after a demo load.  Every handler
    other than the demo loader keeps a store in which all sessions have
    the first form that way, so that without the demo loader all sessions
    have it. *)
Theorem reachable_logs_match_or_empty (P : Platform) :
  (forall st : Store.t,
      reachable P st -> Forall logs_match_or_empty (Store.history st))
  /\ (forall (a : Ambient) (ev : Event) (st : Store.t),
         Forall logs_match_or_empty (Store.history st) ->
         Forall logs_match_or_empty (Store.history (handle P a ev st)))
  /\ (forall (a : Ambient) (ev : Event) (st : Store.t),
         ev <> ClickLoadDemo -> ev <> ClickReset ->
         forms (handle P a ev st) = forms st
         \/ forms (handle P a ev st) = true :: forms st)
  /\ (forall (a : Ambient) (st : Store.t) (setup : Setup.t),
         Store.setup st = Some setup ->
         exists s : Session.t,
           Store.history (generateTodayWorkout P a st) = s :: Store.history st
           /\ logs_match s)
  /\ (forall (a : Ambient) (ev : Event) (st : Store.t),
         ev <> ClickLoadDemo ->
         store_logs_match st -> store_logs_match (handle P a ev st))
  /\ (forall st : Store.t, reachable_without_demo P st -> store_logs_match st).
Proof.
  assert (Hnew : forall a setup history,
             logs_match_or_empty (newSession P a setup history)).
  { intros a setup history. left. apply newSession_logs_match. }
  assert (Hdemo : forall a, Forall logs_match_or_empty (demoHistory P a)).
  { intros a. eapply List.Forall_impl; [| apply demoHistory_without_logs].
    intros s H. right. exact H. }
  assert (Hsp : forall t patch, ui_session_patch patch ->
             logs_match_or_empty t -> logs_match_or_empty (patchSession t patch)).
  { intros t patch Hp [H | H];
      destruct (patchSession_logs_match_or_empty t patch Hp) as [A B];
      [left; exact (A H) | right; exact (B H)]. }
  assert (Hlp : forall t exId patch, ui_log_patch patch ->
             logs_match_or_empty t ->
             logs_match_or_empty (with_logs t (patched_logs exId patch t))).
  { intros t exId patch Hp [H | H];
      destruct (patched_logs_match_or_empty t exId patch Hp) as [A B];
      [left; exact (A H) | right; exact (B H)]. }
  split; [| split; [| split; [| split; [| split]]]].
  - apply reachable_sessions; assumption.
  - apply handle_sessions; assumption.
  - apply handle_forms.
  - intros a st setup Hs.
    destruct (generateTodayWorkout_head P a st setup Hs) as (s & E & Hm & _).
    exists s. rewrite E. split; [reflexivity | exact Hm].
  - apply handle_logs_match.
  - intros st H. induction H as [| a ev st Hev _ IH].
    + constructor.
    + apply handle_logs_match; assumption.
Qed.

Lemma reachable_logs_match_or_empty_witness :
  Forall logs_match_or_empty (Store.history demoThenLogged)
  /\ forms demoThenLogged = [true; false; false]
  /\ store_logs_match (handle reference monday_evening (ChangeEnergy 5) generatedStore)
  /\ exists s : Session.t,
       Store.history (generateTodayWorkout reference monday_evening generatedStore)
       = s :: Store.history generatedStore
       /\ logs_match s.
Proof.
  destruct (reachable_logs_match_or_empty reference)
    as (Hall & _ & Hforms & Hgen & Hstep & Hreach).
  assert (R : reachable_without_demo reference generatedStore).
  { change (reachable_without_demo reference
              (handle reference monday_evening ClickGenerate
                 (handle reference monday_evening (ClickSaveSetup initialDraftSetup)
                    emptyStore))).
    apply rwd_event; [discriminate |].
    apply rwd_event; [discriminate |].
    apply rwd_mount. }
  split; [| split; [| split]].
  - apply Hall.
    change (reachable reference
              (handle reference monday_evening
                 (ChangeActualWeight "ex_0_1709573400000" (Some 150))
                 (handle reference monday_evening ClickGenerate
                    (handle reference monday_evening ClickLoadDemo emptyStore)))).
    apply reachable_event, reachable_event, reachable_event, reachable_mount.
  - change demoThenLogged
      with (handle reference monday_evening
              (ChangeActualWeight "ex_0_1709573400000" (Some 150))
              (handle reference monday_evening ClickGenerate demoStore)).
    destruct (Hforms monday_evening
                (ChangeActualWeight "ex_0_1709573400000" (Some 150))
                (handle reference monday_evening ClickGenerate demoStore))
      as [E | E]; [discriminate | discriminate | |].
    + rewrite E. vm_compute. reflexivity.
    + exfalso. vm_compute in E. discriminate E.
  - apply Hstep; [discriminate | exact (Hreach _ R)].
  - apply (Hgen monday_evening generatedStore initialDraftSetup). reflexivity.
Defined.

(** The store after the demo data, a generated workout and a logged
    weight: the generated session has its five logs, the first with the
    weight entered, and the demo sessions have none. *)
Lemma demoThenLogged_logs :
  map (fun s => (length (Session.workout s), length (Session.logs s),
                 logs_matchb s))
      (Store.history demoThenLogged)
  = [(5%nat, 5%nat, true); (5%nat, 0%nat, false); (5%nat, 0%nat, false)]
  /\ option_map ExerciseLog.actualWeightLb
       (hd_error (Session.logs (hd (bareSession Full) (Store.history demoThenLogged))))
     = Some (Some 150).
Proof. split; vm_compute; reflexivity. Qed.

(** ** Invariants of the reachable stores *)

Section Invariants.
Variable P : Platform.

Lemma outline_template (d d' : nat -> Draw) (dayType : DayType) :
  outline (baseWorkoutTemplate P d dayType) = outline (baseWorkoutTemplate P d' dayType).
Proof. destruct dayType; reflexivity. Qed.

Lemma outline_prescribe (setup : Setup.t) (history : list Session.t)
    (dayType : DayType) (exs : list Exercise.t) :
  outline (map (prescribe setup history dayType) exs) = outline exs.
Proof.
  unfold outline. rewrite map_map. apply map_ext. intros e.
  unfold prescribe. destruct (Exercise.primary e) eqn:E; simpl; rewrite ?E; reflexivity.
Qed.

Lemma newSession_well_formed (a : Ambient) (setup : Setup.t) (history : list Session.t) :
  well_formed P (newSession P a setup history).
Proof.
  unfold well_formed, newSession. cbv zeta. cbn [Session.workout Session.dayType].
  split.
  - rewrite outline_prescribe. apply outline_template.
  - destruct (pickNextDayType history); simpl;
      repeat constructor; simpl; intros; discriminate.
Qed.

(** X12.  Every session of a reachable store is laid out like the
    template of its day type: the same exercises in the same order, with
    the same lift tag, sets and rep range; and an exercise carries a
    target weight exactly when it is one of the five main lifts.  This
    holds for generated sessions and for the demo sessions, and no control
    of the page changes it. *)
Theorem reachable_well_formed (st : Store.t) :
  reachable P st -> Forall (well_formed P) (Store.history st).
Proof.
  apply reachable_sessions.
  - apply newSession_well_formed.
  - intros a. unfold demoHistory. cbv zeta.
    repeat constructor; simpl; intros; discriminate.
  - intros t patch Hp Ht. destruct Hp; exact Ht.
  - intros t exId patch _ Ht. exact Ht.
Qed.

Lemma patched_logs_rpe (exId : string) (patch : LogPatch.t) (t : Session.t) :
  ui_log_patch patch ->
  Forall (fun l => match ExerciseLog.rpe l with
                   | Some r => 1 <= r /\ r <= 10
                   | None => True
                   end) (Session.logs t) ->
  Forall (fun l => match ExerciseLog.rpe l with
                   | Some r => 1 <= r /\ r <= 10
                   | None => True
                   end) (patched_logs exId patch t).
Proof.
  intros Hp H. unfold patched_logs. apply List.Forall_map.
  eapply List.Forall_impl; [| exact H]. intros l Hl. cbv beta.
  destruct (String.eqb (ExerciseLog.exerciseId l) exId); [| exact Hl].
  destruct Hp as [v | v | v]; simpl; try exact Hl.
  destruct v as [x |]; [| exact I].
  apply clamp_between. lra.
Qed.

(** X13.  The ratings stay on their scales in every reachable store:
    energy and difficulty of every session lie in 1 to 5 and every logged
    RPE lies in 1 to 10, whatever numbers are typed into the fields. *)
Theorem reachable_ratings_in_range (st : Store.t) :
  reachable P st -> Forall ratings_in_range (Store.history st).
Proof.
  apply reachable_sessions.
  - intros a setup history. unfold ratings_in_range, newSession. cbv zeta.
    cbn [Session.energy Session.difficulty Session.logs].
    split; [split; lra |]. split; [split; lra |].
    apply List.Forall_map. apply List.Forall_forall. intros; exact I.
  - intros a. unfold demoHistory, ratings_in_range. cbv zeta.
    repeat constructor; simpl; lra.
  - intros t patch Hp (He & Hd & Hl).
    destruct Hp as [v | v | v]; unfold ratings_in_range; simpl;
      repeat split; try tauto; apply clamp_between; lra.
  - intros t exId patch Hp (He & Hd & Hl).
    unfold ratings_in_range, with_logs. simpl.
    split; [exact He |]. split; [exact Hd |].
    apply patched_logs_rpe; assumption.
Qed.

(** X14.  A reachable store with sessions has a profile: the history is
    empty whenever no setup is saved.  (Generation needs a setup, the demo
    loader brings its own, and reset clears both.) *)
Theorem reachable_history_needs_setup (st : Store.t) :
  reachable P st -> Store.setup st = None -> Store.history st = [].
Proof.
  intros R. induction R as [| a ev st R IH]; [reflexivity |].
  destruct (handle_history P a ev st)
    as [E | [(setup & _ & E) | [(t & patch & Eh & _ & E)
       | [(t & exId & patch & Eh & _ & E) | [(draft & E) | [E | E]]]]]];
    rewrite E; simpl; try discriminate; try reflexivity; try exact IH.
  - intros Hs. specialize (IH Hs). rewrite IH in Eh. discriminate Eh.
  - intros Hs. specialize (IH Hs). rewrite IH in Eh. discriminate Eh.
Qed.

End Invariants.

Lemma reachable_history_needs_setup_witness :
  Store.setup (handle reference monday_evening ClickGenerate emptyStore) = None
  /\ Store.history (handle reference monday_evening ClickGenerate emptyStore) = [].
Proof.
  assert (R : reachable reference (handle reference monday_evening ClickGenerate emptyStore))
    by apply reachable_event, reachable_mount.
  split; [reflexivity |].
  apply (reachable_history_needs_setup reference _ R). reflexivity.
Defined.

Lemma reachable_well_formed_witness :
  Forall (well_formed reference) (Store.history generatedStore)
  /\ Forall (well_formed reference) (Store.history demoStore).
Proof.
  split; apply reachable_well_formed.
  - change (reachable reference
              (handle reference monday_evening ClickGenerate
                 (handle reference monday_evening (ClickSaveSetup initialDraftSetup)
                    emptyStore))).
    apply reachable_event, reachable_event, reachable_mount.
  - unfold demoStore. apply reachable_event, reachable_mount.
Defined.

Lemma reachable_ratings_in_range_witness :
  Forall ratings_in_range
    (Store.history (handle reference monday_evening (ChangeEnergy 9) generatedStore)).
Proof.
  apply (reachable_ratings_in_range reference).
  change (reachable reference
            (handle reference monday_evening (ChangeEnergy 9)
               (handle reference monday_evening ClickGenerate
                  (handle reference monday_evening (ClickSaveSetup initialDraftSetup)
                     emptyStore)))).
  apply reachable_event, reachable_event, reachable_event, reachable_mount.
Defined.

(** ** The rotation of day types *)

Lemma rotation_history_S (n : nat) :
  rotation_history (S n) = rotation n :: rotation_history n.
Proof.
  unfold rotation_history. rewrite seq_S, map_app, rev_app_distr. reflexivity.
Qed.

Lemma rotation_shift (m k : nat) : rotation (m + k) = rotation (m mod 4 + k).
Proof.
  unfold rotation. rewrite <- (Nat.Div0.add_mod_idemp_l m k 4). reflexivity.
Qed.

Lemma dayType_bareSession (l : list DayType) :
  map Session.dayType (map bareSession l) = l.
Proof. rewrite map_map. simpl. apply map_id. Qed.

(** The selector sees a history through its day types. *)
Lemma pickNextDayType_dayTypes (h : list Session.t) :
  pickNextDayType h = pickNextDayType (map bareSession (map Session.dayType h)).
Proof.
  apply pickNextDayType_window.
  rewrite <- !firstn_map, dayType_bareSession. reflexivity.
Qed.

Lemma pickNextDayType_rotation_history (n : nat) :
  pickNextDayType (map bareSession (rotation_history n)) = rotation n.
Proof.
  destruct n as [| [| [| [| m]]]]; try reflexivity.
  rewrite (pickNextDayType_window _
             (map bareSession
                [rotation (S (S (S m))); rotation (S (S m)); rotation (S m); rotation m])).
  - replace (S (S (S (S m)))) with (m + 4)%nat by lia.
    replace (S (S (S m))) with (m + 3)%nat by lia.
    replace (S (S m)) with (m + 2)%nat by lia.
    replace (S m) with (m + 1)%nat by lia.
    replace (rotation m) with (rotation (m + 0)) by (f_equal; lia).
    rewrite !(rotation_shift m).
    pose proof (Nat.mod_upper_bound m 4) as B.
    destruct (m mod 4)%nat as [| [| [| [| r]]]]; try reflexivity. lia.
  - rewrite !rotation_history_S. reflexivity.
Qed.

Lemma pickNextDayType_rotation (h : list Session.t) :
  map Session.dayType h = rotation_history (length h) ->
  pickNextDayType h = rotation (length h).
Proof.
  intros E. rewrite pickNextDayType_dayTypes, E.
  apply pickNextDayType_rotation_history.
Qed.

Section Rotation.
Variable P : Platform.

Lemma updateToday_dayTypes (a : Ambient) (patch : SessionPatch.t) (st : Store.t) :
  SessionPatch.dayType patch = None ->
  map Session.dayType (Store.history (updateToday P a patch st))
  = map Session.dayType (Store.history st).
Proof.
  intros Hp. destruct (today P a st) as [t |] eqn:Ht.
  - rewrite (updateToday_today P a patch st t Ht).
    rewrite (today_Some P a st t Ht) at 2. simpl.
    unfold patchSession. simpl. rewrite Hp. reflexivity.
  - rewrite (updateToday_not_today P a patch st Ht). reflexivity.
Qed.

Lemma updateExerciseLog_dayTypes (a : Ambient) (exId : string) (patch : LogPatch.t)
    (st : Store.t) :
  map Session.dayType (Store.history (updateExerciseLog P a exId patch st))
  = map Session.dayType (Store.history st).
Proof.
  destruct (today P a st) as [t |] eqn:Ht.
  - rewrite (updateExerciseLog_today P a exId patch st t Ht).
    rewrite (today_Some P a st t Ht) at 2. reflexivity.
  - unfold updateExerciseLog. rewrite Ht. reflexivity.
Qed.

(** X15.  Without the demo data the history follows the rotation Push,
    Pull, Legs, Full from its first session on: in every store reachable
    without the demo loader, the session generated [i]-th (counting from
    0, the oldest) has the day type at position [i mod 4] of that order,
    whatever was edited in between. *)
Theorem reachable_rotation (st : Store.t) :
  reachable_without_demo P st ->
  map Session.dayType (Store.history st)
  = rotation_history (length (Store.history st)).
Proof.
  intros R. induction R as [| a ev st Hev R IH]; [reflexivity |].
  assert (K : forall st', map Session.dayType (Store.history st')
                          = map Session.dayType (Store.history st) ->
                          map Session.dayType (Store.history st')
                          = rotation_history (length (Store.history st'))).
  { intros st' E. rewrite E, IH.
    rewrite <- (length_map Session.dayType (Store.history st')), E, length_map.
    reflexivity. }
  destruct ev; simpl.
  - exact IH.
  - destruct (Store.setup st) as [setup |] eqn:Hs.
    + rewrite (generateTodayWorkout_eq P a st setup Hs). simpl.
      rewrite rotation_history_S, <- IH. f_equal.
      apply pickNextDayType_rotation. exact IH.
    + unfold generateTodayWorkout. rewrite Hs. exact IH.
  - apply K, updateToday_dayTypes. reflexivity.
  - apply K, updateToday_dayTypes. reflexivity.
  - apply K, updateToday_dayTypes. reflexivity.
  - apply K, updateExerciseLog_dayTypes.
  - apply K, updateExerciseLog_dayTypes.
  - apply K, updateExerciseLog_dayTypes.
  - congruence.
  - reflexivity.
Qed.

End Rotation.

Lemma reachable_rotation_witness :
  map Session.dayType
    (Store.history
       (run reference
          [ (monday_evening, ClickGenerate); (monday_evening, ChangeEnergy 5);
            (monday_evening, ClickGenerate); (monday_evening, ClickGenerate);
            (monday_evening, ClickGenerate); (monday_evening, ClickGenerate) ]
          (Store.mk (Some initialDraftSetup) [])))
  = [Push; Full; Legs; Pull; Push].
Proof.
  set (st0 := handle reference monday_evening (ClickSaveSetup initialDraftSetup)
                emptyStore).
  assert (R : reachable_without_demo reference
                (handle reference monday_evening ClickGenerate
                   (handle reference monday_evening ClickGenerate
                      (handle reference monday_evening ClickGenerate
                         (handle reference monday_evening ClickGenerate
                            (handle reference monday_evening (ChangeEnergy 5)
                               (handle reference monday_evening ClickGenerate st0))))))).
  { repeat (apply rwd_event; [discriminate |]). apply rwd_mount. }
  pose proof (reachable_rotation reference _ R) as H.
  etransitivity; [exact H |]. vm_compute. reflexivity.
Defined.

(** ** Edits that have no effect *)

Section Edits.
Variable P : Platform.

Lemma patched_logs_no_match (exId : string) (patch : LogPatch.t) (t : Session.t) :
  (forall l, In l (Session.logs t) -> ExerciseLog.exerciseId l <> exId) ->
  patched_logs exId patch t = Session.logs t.
Proof.
  intros H. unfold patched_logs.
  rewrite <- (map_id (Session.logs t)) at 2. apply map_ext_in.
  intros l Hl. apply H, String.eqb_neq in Hl. rewrite Hl. reflexivity.
Qed.

(** X16.  An edit is dropped without a trace when there is no session of
    today: on an empty history, or when the first session is not dated
    today, every rating, sleep and logging control leaves the store as it
    is.  And logging for an exercise identifier that no log entry of
    today's session carries (as in a session without logs) changes
    nothing either. *)
Theorem edits_without_effect (a : Ambient) (st : Store.t) :
  (Store.history st = [] -> today P a st = None)
  /\ (today P a st = None ->
      forall ev, is_edit ev = true -> handle P a ev st = st)
  /\ (forall (t : Session.t) (exId : string) (patch : LogPatch.t),
         today P a st = Some t ->
         (forall l, In l (Session.logs t) -> ExerciseLog.exerciseId l <> exId) ->
         updateExerciseLog P a exId patch st = st).
Proof.
  split; [| split].
  - intros H. unfold today. rewrite H. reflexivity.
  - intros Ht ev Hev. destruct ev; simpl in *; try discriminate;
      first [ apply updateToday_not_today; exact Ht
            | unfold updateExerciseLog; rewrite Ht; reflexivity ].
  - intros t exId patch Ht Hno.
    rewrite (updateExerciseLog_today P a exId patch st t Ht).
    rewrite (patched_logs_no_match exId patch t Hno).
    pose proof (today_Some P a st t Ht) as Eh.
    destruct st as [setup history]. simpl in *. rewrite Eh at 2.
    destruct t. reflexivity.
Qed.

End Edits.

Lemma edits_without_effect_witness :
  handle reference monday_evening (ChangeEnergy 5) demoStore = demoStore
  /\ updateExerciseLog reference monday_evening "ex_unknown" lifted150 generatedStore
     = generatedStore.
Proof.
  destruct (edits_without_effect reference monday_evening demoStore) as (_ & H1 & _).
  destruct (edits_without_effect reference monday_evening generatedStore) as (_ & _ & H2).
  split.
  - apply H1; [vm_compute; reflexivity | reflexivity].
  - apply (H2 generatedSession); [vm_compute; reflexivity |].
    intros l Hl. vm_compute in Hl.
    repeat (destruct Hl as [<- | Hl]; [discriminate |]). destruct Hl.
Defined.

(** ** Same calendar day *)

Lemma strict_eq_sym (x y : option Z) : strict_eq x y = strict_eq y x.
Proof. destruct x, y; simpl; try reflexivity. apply Z.eqb_sym. Qed.

Lemma strict_eq_true (x y : option Z) :
  strict_eq x y = true <-> exists v, x = Some v /\ y = Some v.
Proof.
  destruct x as [a |], y as [b |]; simpl; split;
    try discriminate; try (intros (v & H1 & H2); discriminate).
  - intros H. apply Z.eqb_eq in H. subst. eauto.
  - intros (v & [= ->] & [= ->]). apply Z.eqb_refl.
Qed.

(** X17.  [isSameDay] is symmetric and transitive, and it holds of a date
    with itself exactly when the platform reads all three calendar fields
    of that date: a date string that does not parse is not the same day
    as anything, itself included. *)
Theorem isSameDay_partial_equivalence (P : Platform) (a b c : string) :
  isSameDay P a b = isSameDay P b a
  /\ (isSameDay P a b = true -> isSameDay P b c = true -> isSameDay P a c = true)
  /\ (isSameDay P a a = true <->
      Date_getFullYear P a <> None /\ Date_getMonth P a <> None
      /\ Date_getDate P a <> None)
  /\ (isSameDay P a b = true -> isSameDay P a a = true).
Proof.
  unfold isSameDay. split; [| split; [| split]].
  - rewrite (strict_eq_sym (Date_getFullYear P a)),
      (strict_eq_sym (Date_getMonth P a)), (strict_eq_sym (Date_getDate P a)).
    reflexivity.
  - rewrite !andb_true_iff, !strict_eq_true.
    intros [[(y & Y1 & Y2) (m & M1 & M2)] (d & D1 & D2)]
           [[(y' & Y3 & Y4) (m' & M3 & M4)] (d' & D3 & D4)].
    rewrite Y1, M1, D1, Y4, M4, D4.
    rewrite Y2 in Y3. rewrite M2 in M3. rewrite D2 in D3.
    injection Y3 as <-. injection M3 as <-. injection D3 as <-.
    repeat split; eauto.
  - rewrite !andb_true_iff, !strict_eq_true. split.
    + intros [[(y & Y1 & _) (m & M1 & _)] (d & D1 & _)].
      rewrite Y1, M1, D1. repeat split; discriminate.
    + intros (Y & M & D).
      destruct (Date_getFullYear P a) as [y |]; [| congruence].
      destruct (Date_getMonth P a) as [m |]; [| congruence].
      destruct (Date_getDate P a) as [d |]; [| congruence].
      repeat split; eauto.
  - rewrite !andb_true_iff, !strict_eq_true.
    intros [[(y & Y1 & _) (m & M1 & _)] (d & D1 & _)].
    rewrite Y1, M1, D1. repeat split; eauto.
Qed.

Lemma isSameDay_partial_equivalence_witness :
  isSameDay reference "2024-03-04T17:30:00.000Z" "2024-03-04T17:30:00.000Z" = true
  /\ isSameDay reference "2024-03-04T01:00:00.000Z" "2024-03-04T23:00:00.000Z" = true.
Proof.
  destruct (isSameDay_partial_equivalence reference
              "2024-03-04T17:30:00.000Z" "2024-03-04T01:00:00.000Z"
              "2024-03-04T23:00:00.000Z") as (_ & Htrans & Hrefl & _).
  split.
  - apply Hrefl. vm_compute. repeat split; discriminate.
  - apply (isSameDay_partial_equivalence reference
             "2024-03-04T01:00:00.000Z" "2024-03-04T17:30:00.000Z"
             "2024-03-04T23:00:00.000Z"); vm_compute; reflexivity.
Defined.

(** An unreadable date is never the same day, not even as itself. *)
Lemma isSameDay_invalid_date :
  isSameDay reference "yesterday" "yesterday" = false.
Proof. vm_compute. reflexivity. Qed.

(** ** Muscle groups of a generated session *)

Lemma uniq_from_spec (xs seen : list string) :
  List.NoDup (uniq_from seen xs)
  /\ (forall x, In x (uniq_from seen xs) <-> In x xs /\ ~ In x seen).
Proof.
  revert seen. induction xs as [| x rest IH]; intros seen; simpl.
  - split; [constructor | intros y; tauto].
  - destruct (existsb (String.eqb x) seen) eqn:E.
    + apply existsb_exists in E as (y & Hy & Exy).
      apply String.eqb_eq in Exy. subst y.
      destruct (IH seen) as [N M]. split; [exact N |].
      intros y. rewrite M. split; [tauto |].
      intros [[-> | H] Hn]; [contradiction | tauto].
    + assert (Hx : ~ In x seen).
      { intros H. apply not_true_iff_false in E. apply E.
        apply existsb_exists. exists x. split; [exact H | apply String.eqb_refl]. }
      destruct (IH (x :: seen)) as [N M]. split.
      * constructor; [| exact N]. rewrite M. simpl. tauto.
      * intros y. simpl. rewrite M. simpl. split.
        -- intros [<- | [H1 H2]]; tauto.
        -- intros [[<- | H1] H2]; [tauto |].
           destruct (string_dec x y) as [<- | Hne]; [tauto |]. right. tauto.
Qed.

(** X18.  The muscle groups of a generated session are those of its
    exercises, each listed once: the list has no duplicates, and a group
    is in it exactly when some exercise of the workout names it. *)
Theorem generated_muscle_groups (P : Platform) (a : Ambient) (st : Store.t)
    (setup : Setup.t) :
  Store.setup st = Some setup ->
  exists s : Session.t,
    Store.history (generateTodayWorkout P a st) = s :: Store.history st
    /\ List.NoDup (Session.muscleGroups s)
    /\ forall g : string,
        In g (Session.muscleGroups s)
        <-> exists e, In e (Session.workout s) /\ In g (Exercise.muscleGroups e).
Proof.
  intros Hs. rewrite (generateTodayWorkout_eq P a st setup Hs).
  eexists. split; [reflexivity |].
  unfold newSession. cbv zeta. cbn [Session.muscleGroups Session.workout].
  set (workout := map _ _).
  destruct (uniq_from_spec (flat_map Exercise.muscleGroups workout) []) as [N M].
  split; [exact N |]. intros g. unfold uniq. rewrite M, in_flat_map. simpl. tauto.
Qed.

Lemma generated_muscle_groups_witness :
  Session.muscleGroups generatedSession = ["Chest"; "Triceps"; "Shoulders"]
  /\ List.NoDup (Session.muscleGroups generatedSession).
Proof.
  split; [vm_compute; reflexivity |].
  destruct (generated_muscle_groups reference monday_evening
              (handle reference monday_evening (ClickSaveSetup initialDraftSetup)
                 emptyStore)
              initialDraftSetup eq_refl) as (s & E & N & _).
  change (Store.history generatedStore = s :: []) in E.
  unfold generatedSession. rewrite E. exact N.
Defined.

(** ** The storage key *)

(** X19.  [saveState] and [loadState] touch the entry under
    "workout_mvp_v1" only: a save leaves every other key of the storage
    alone and replaces an earlier save; what is loaded depends on that one
    entry; and with the entry absent (a fresh browser, or after
    [removeItem]) the empty state is loaded. *)
Theorem storage_key_only (P : Platform) (setup setup' : option Setup.t)
    (history history' : list Session.t) (storage : gmap string string) :
  (forall key : string, key <> LS_KEY ->
      saveState P setup history storage !! key = storage !! key)
  /\ saveState P setup' history' (saveState P setup history storage)
     = saveState P setup' history' storage
  /\ (forall storage' : gmap string string,
         storage' !! LS_KEY = storage !! LS_KEY ->
         loadState P storage' = loadState P storage)
  /\ loadState P (delete LS_KEY storage) = Loaded.empty.
Proof.
  split; [| split; [| split]].
  - intros key Hk. unfold saveState. apply lookup_insert_ne. congruence.
  - unfold saveState. apply insert_insert_eq.
  - intros storage' E. unfold loadState. rewrite E. reflexivity.
  - unfold loadState. rewrite lookup_delete_eq. reflexivity.
Qed.

Lemma storage_key_only_witness :
  saveState reference None [] {[ "theme" := "dark" ]} !! "theme" = Some "dark".
Proof.
  destruct (storage_key_only reference None None [] [] {[ "theme" := "dark" ]})
    as (H & _).
  rewrite H; [apply lookup_singleton_eq | discriminate].
Defined.

(** ** Progression from one generated session to the next *)

Lemma Primary_is_true (p : Primary) (k : LiftKey) :
  Primary_is p k = true <-> p = lift_of k.
Proof.
  destruct p as [k' |]; simpl.
  - destruct k', k; simpl; split; congruence.
  - split; discriminate.
Qed.

Lemma findLastLiftPerformance_cons (s : Session.t) (rest : list Session.t)
    (lift : LiftKey) :
  findLastLiftPerformance (s :: rest) lift
  = match findInWorkout s lift (Session.workout s) with
    | Some p => Some p
    | None => findLastLiftPerformance rest lift
    end.
Proof. reflexivity. Qed.

(** In a generated workout every exercise for a main lift carries the
    target computed for that lift from the history before it. *)
Lemma prescribe_target (setup : Setup.t) (history : list Session.t)
    (dayType : DayType) (template : list Exercise.t) (e : Exercise.t) (k : LiftKey) :
  In e (map (prescribe setup history dayType) template) ->
  Exercise.primary e = lift_of k ->
  Exercise.targetWeightLb e = Some (computeTargetWeightLb setup history k dayType).
Proof.
  intros Hin Hp. apply in_map_iff in Hin as (x & Ex & _). subst e.
  unfold prescribe in *. destruct (Exercise.primary x) as [k' |] eqn:Epx.
  - simpl in *. injection Hp as ->. reflexivity.
  - congruence.
Qed.

(** X20.  Left at their default ratings (energy 3, difficulty 3), a
    generated session raises the lift by 2.5 the next time: for a main
    lift prescribed at a non-zero weight [w] in the session just
    generated, the next target for that lift is [w + 2.5], clamped and
    rounded; and it is exactly [w + 2.5] as long as that does not exceed
    0.9 x training max (for a non-negative 5RM). *)
Theorem default_ratings_progression (P : Platform) (a : Ambient) (st : Store.t)
    (setup : Setup.t) (ex : Exercise.t) (k : LiftKey) (w : Q) (dayType : DayType) :
  Store.setup st = Some setup ->
  In ex (Session.workout (newSession P a setup (Store.history st))) ->
  Exercise.primary ex = lift_of k ->
  Exercise.targetWeightLb ex = Some w ->
  ~ w == 0 ->
  let tMax := tMax_of setup k in
  let next := computeTargetWeightLb setup
                (Store.history (generateTodayWorkout P a st)) k dayType in
  next == roundTo2_5 (clamp (w + 2.5) (tMax * 0.55) (tMax * 0.9))
  /\ (0 <= fiveRM_get (Setup.fiveRM setup) k -> w + 2.5 <= tMax * 0.9 ->
      next == w + 2.5).
Proof.
  intros Hs Hin Hp Ht Hw. cbv zeta.
  rewrite (generateTodayWorkout_eq P a st setup Hs). cbn [Store.history].
  set (h := Store.history st) in *. set (s1 := newSession P a setup h) in *.
  set (w0 := computeTargetWeightLb setup h k (pickNextDayType h)).
  assert (Ew : w = w0).
  { pose proof (prescribe_target setup h (pickNextDayType h) _ ex k Hin Hp) as T.
    rewrite Ht in T. injection T as T. exact T. }
  destruct (findInWorkout s1 k (Session.workout s1)) as [p |] eqn:F.
  2: { exfalso. apply (findInWorkout_None s1) in F.
       rewrite List.Forall_forall in F. specialize (F ex Hin).
       unfold no_target in F. rewrite Hp, Ht in F.
       apply Hw, F. simpl. destruct k; reflexivity. }
  destruct (findInWorkout_Some s1 k _ p F) as (Es & Hpin & Hpp & _).
  apply Primary_is_true in Hpp.
  pose proof (prescribe_target setup h (pickNextDayType h) _ _ k Hpin Hpp) as Tp.
  fold w0 in Tp.
  assert (L : findLastLiftPerformance (s1 :: h) k = Some p).
  { rewrite findLastLiftPerformance_cons, F. reflexivity. }
  assert (E : targetBeforeClamp setup (s1 :: h) k dayType == w + 2.5).
  { rewrite (targetBeforeClamp_found setup (s1 :: h) k dayType p w0 L Tp).
    rewrite Es, Ew. reflexivity. }
  assert (N : computeTargetWeightLb setup (s1 :: h) k dayType
              == roundTo2_5 (clamp (w + 2.5) (tMax_of setup k * 0.55)
                                   (tMax_of setup k * 0.9))).
  { unfold computeTargetWeightLb. cbv zeta. apply roundTo2_5_comp.
    apply clamp_comp; [exact E | reflexivity | reflexivity]. }
  split; [exact N |].
  intros H5 Hhi. rewrite N.
  pose proof (tMax_of_value setup k) as Etm.
  set (tm := tMax_of setup k) in *.
  assert (Htm : 0 <= tm) by (rewrite Etm; lra).
  destruct (computeTargetWeightLb_near_clamp setup h k (pickNextDayType h))
    as (Eq0 & Hlo & _).
  fold w0 tm in Eq0, Hlo.
  destruct (clamp_between (targetBeforeClamp setup h k (pickNextDayType h))
              (tm * 0.55) (tm * 0.9)) as [Cl _]; [lra |].
  rewrite <- Ew in Hlo.
  rewrite (roundTo2_5_comp _ (w + 2.5)); [| apply clamp_inside; lra].
  assert (M : exists K : Z, w == inject_Z K * 2.5).
  { rewrite Ew, Eq0. eexists. unfold roundTo2_5. reflexivity. }
  destruct M as (K & EK).
  rewrite (roundTo2_5_comp _ (inject_Z (K + 1) * 2.5)).
  - rewrite roundTo2_5_of_multiple, inject_Z_plus, EK.
    change (inject_Z 1) with 1. ring.
  - rewrite inject_Z_plus, EK. change (inject_Z 1) with 1. ring.
Qed.

Lemma default_ratings_progression_witness :
  computeTargetWeightLb initialDraftSetup (Store.history generatedStore) bench Full
  == 165 + 2.5.
Proof.
  destruct (default_ratings_progression reference monday_evening
              (handle reference monday_evening (ClickSaveSetup initialDraftSetup)
                 emptyStore)
              initialDraftSetup
              (Exercise.mk "ex_0_1709573400000" "Barbell Bench Press" (lift_of bench)
                           ["Chest"; "Triceps"; "Shoulders"] 4 "6-10"
                           (Some (computeTargetWeightLb initialDraftSetup [] bench Push))
                           None)
              bench (computeTargetWeightLb initialDraftSetup [] bench Push) Full
              eq_refl) as (_ & H).
  - left. reflexivity.
  - reflexivity.
  - reflexivity.
  - vm_compute. discriminate.
  - change (Store.history
              (generateTodayWorkout reference monday_evening
                 (handle reference monday_evening (ClickSaveSetup initialDraftSetup)
                    emptyStore)))
      with (Store.history generatedStore) in H.
    rewrite H.
    + vm_compute. reflexivity.
    + simpl. lra.
    + vm_compute. discriminate.
Defined.

(** ** Looking a log up by exercise identifier *)

Lemma find_by_position (logs : list ExerciseLog.t) (key : string) (i : nat) :
  List.NoDup (map ExerciseLog.exerciseId logs) ->
  nth_error (map ExerciseLog.exerciseId logs) i = Some key ->
  find (fun l => String.eqb (ExerciseLog.exerciseId l) key) logs = nth_error logs i.
Proof.
  revert i. induction logs as [| l rest IH]; intros i N H.
  - destruct i; discriminate H.
  - simpl in N. inversion N as [| ? ? Hnotin N']; subst.
    destruct i as [| j]; simpl in *.
    + injection H as <-. rewrite String.eqb_refl. reflexivity.
    + destruct (String.eqb (ExerciseLog.exerciseId l) key) eqn:E.
      * apply String.eqb_eq in E. exfalso. apply Hnotin. rewrite E.
        eapply nth_error_In. exact H.
      * apply IH; assumption.
Qed.

(** X21.  In a session whose logs run parallel to its workout, the
    lookup by exercise identifier finds a log for every exercise of the
    workout, carrying that identifier; when the identifiers of the
    workout are pairwise distinct it is the log at the exercise's own
    position.  In a session without logs it finds none. *)
Theorem logFor_lookup (s : Session.t) (ex : Exercise.t) :
  (logs_match s -> In ex (Session.workout s) ->
   exists l, logFor s ex = Some l
             /\ ExerciseLog.exerciseId l = Exercise.id ex
             /\ In l (Session.logs s))
  /\ (logs_match s -> List.NoDup (map Exercise.id (Session.workout s)) ->
      forall i, nth_error (Session.workout s) i = Some ex ->
                logFor s ex = nth_error (Session.logs s) i)
  /\ (Session.logs s = [] -> logFor s ex = None).
Proof.
  unfold logFor, logs_match. split; [| split].
  - intros M Hin.
    assert (Hid : In (Exercise.id ex) (map ExerciseLog.exerciseId (Session.logs s))).
    { rewrite M. apply in_map. exact Hin. }
    apply in_map_iff in Hid as (l0 & El0 & Hl0).
    destruct (find (fun l => String.eqb (ExerciseLog.exerciseId l) (Exercise.id ex))
                   (Session.logs s)) as [l |] eqn:F.
    + apply find_some in F as [Fin Fe]. apply String.eqb_eq in Fe. eauto.
    + exfalso. pose proof (find_none _ _ F l0 Hl0) as N. cbv beta in N.
      rewrite El0, String.eqb_refl in N. discriminate N.
  - intros M N i Hi. apply find_by_position.
    + rewrite M. exact N.
    + rewrite M, nth_error_map, Hi. reflexivity.
  - intros E. rewrite E. reflexivity.
Qed.

Lemma logFor_lookup_witness :
  logFor easyBench175
    (Exercise.mk "ex_a" "Barbell Bench Press" (lift_of bench) [] 4 "6-10" (Some 175) None)
  = Some (ExerciseLog.mk "ex_a" None None None None).
Proof.
  destruct (logFor_lookup easyBench175
              (Exercise.mk "ex_a" "Barbell Bench Press" (lift_of bench) [] 4 "6-10"
                           (Some 175) None)) as (_ & H & _).
  rewrite (H eq_refl) with (i := 0%nat).
  - reflexivity.
  - simpl. constructor; [intros [] | constructor].
  - reflexivity.
Defined.

(** ** Targets on the 2.5 grid *)

Lemma template_without_targets (P : Platform) (d : nat -> Draw) (dayType : DayType) :
  Forall (fun e => Exercise.targetWeightLb e = None) (baseWorkoutTemplate P d dayType).
Proof. destruct dayType; repeat constructor. Qed.

Lemma reachable_bounded_reachable (P : Platform) (st : Store.t) :
  reachable_bounded P st -> reachable P st.
Proof.
  induction 1 as [| a ev st _ _ IH]; [apply reachable_mount |].
  apply reachable_event. exact IH.
Qed.

(** X22.  As long as every profile saved through "Save setup" has its 5RM
    entries within [fiveRM_limit] (10^9) in magnitude, every target weight
    held in the store is a multiple of 2.5: generation only writes rounded
    values, the demo data are on the grid, and no control of the page
    edits a prescription. *)
Theorem reachable_targets_on_grid (P : Platform) (st : Store.t) :
  reachable_bounded P st -> Forall targets_on_grid (Store.history st).
Proof.
  intros Hb. apply reachable_bounded_reachable in Hb. revert st Hb.
  apply reachable_sessions.
  - intros a setup history. unfold targets_on_grid, newSession. cbv zeta.
    cbn [Session.workout]. apply List.Forall_map.
    eapply List.Forall_impl; [| apply template_without_targets].
    intros e He. cbv beta. unfold prescribe. destruct (Exercise.primary e).
    + simpl. eexists. unfold computeTargetWeightLb, roundTo2_5. cbv zeta. reflexivity.
    + rewrite He. exact I.
  - intros a. unfold demoHistory, targets_on_grid. cbv zeta.
    constructor; [| constructor; [| constructor]]; cbn [Session.workout].
    + constructor; [exists 70%Z; reflexivity |].
      constructor; [exists 42%Z; reflexivity |].
      repeat constructor.
    + constructor; [exists 58%Z; reflexivity |]. repeat constructor.
  - intros t patch Hp Ht. destruct Hp; exact Ht.
  - intros t exId patch _ Ht. exact Ht.
Qed.

Lemma reachable_targets_on_grid_witness :
  Forall targets_on_grid (Store.history generatedStore).
Proof.
  apply (reachable_targets_on_grid reference).
  change (reachable_bounded reference
            (handle reference monday_evening ClickGenerate
               (handle reference monday_evening (ClickSaveSetup initialDraftSetup)
                  emptyStore))).
  apply rb_event; [intros draft E; discriminate E |].
  apply rb_event; [| apply rb_mount].
  intros draft E. injection E as <-.
  intros lift. unfold fiveRM_limit. destruct lift; simpl; split; lra.
Defined.
